(** * Rental lifecycle of the T-ODRE platform: a shallow embedding

    The request handlers of the rental platform (Next.js route handlers
    over a JSON-file record store) are embedded as pure functions
    [Env -> header -> body -> Store -> Response * Store].  The store is
    the set of JSON collections the handlers read and write; a handler
    that returns before any [writeJSON] returns the store it was given,
    and so does one that throws: its [catch] answers 500.

    Conventions of the embedding:
    - a JavaScript [number] that the handlers treat as a count, an amount
      of money or a time value is an integer ([Z]), and [NaN] is [None]
      where a handler can meet it; fractions are outside the model but
      for the rates that the dashboards and the listing compute, which
      are IEEE 754 doubles ([Double]);
    - a field of a request body on which a test or a computation of a
      handler depends, and which the handler does not test with
      [typeof], is a [JSValue] (a string, a number, a boolean, null, an
      array, an object, or absent), converted as ECMAScript converts it;
      the number a string converts to is modelled for the empty string
      and for decimal digits with an optional sign, and every other
      string is taken to convert to [NaN] (numerals with a fraction, an
      exponent, a radix prefix or white space are outside the model);
    - a field that a handler only stores is taken to have the type that
      the data model ([src/types/index.ts]) declares for it;
    - a date is a string ["YYYY-MM-DD"], the record [IsoDate] of its
      three fields.  [new Date] reads it as a date when the month is from
      01 to 12 and the day from 01 to 31 ([parseable]), and as an Invalid
      Date otherwise, which stands for every text that is no date; the
      handlers that take or read a date which no check has passed
      (Create Property, Request Rental, Request Termination, Request
      Renewal, the edit of a property, List Again) are modelled on every
      such string, the other handlers on dates that parse.  Years are
      not bounded; the range of time values ([TimeClip]) is applied
      where a handler computes a date from a number of the request;
    - the month ["YYYY-MM"] of a payment, and the name and the email of a
      user, are the values the request gave: the handlers store them as
      they are;
    - [Date.now()], [new Date()] and [Math.random()] are inputs of the
      handler ([Env]); one request observes one instant;
    - the server's local time zone is UTC ([LocalTZA] = 0). *)

From Stdlib Require Import ZArith List String Ascii Bool Lia QArith Qround DecimalString.
From Stdlib Require Import Sorted Permutation SpecFloat Qabs.
From Stdlib Require DecimalZ.
Import ListNotations.

Local Open Scope string_scope.
Local Open Scope Z_scope.

Set Warnings "-register-all".

(* ================================================================== *)
(** ** JavaScript values of a request body *)

Module JS.

(** A field of a parsed JSON body; [JUndefined] is a field that the body
    does not have. *)
Inductive JSValue : Type :=
  | JUndefined
  | JNull
  | JBool (b : bool)
  | JNum (n : Z)
  | JStr (s : string)
  | JArr (items : list JSValue)
  | JObj (fields : list (string * JSValue)).

(** [!!v] *)
Definition truthy (v : JSValue) : bool :=
  match v with
  | JUndefined | JNull => false
  | JBool b => b
  | JNum n => negb (n =? 0)
  | JStr s => negb (String.eqb s "")
  | JArr _ | JObj _ => true
  end.

(** [typeof v === "number"] *)
Definition is_number (v : JSValue) : bool :=
  match v with JNum _ => true | _ => false end.

(** [typeof v === "boolean"] *)
Definition is_boolean (v : JSValue) : bool :=
  match v with JBool _ => true | _ => false end.

(** [s === v] for a stored string [s]. *)
Definition strict_eq_str (s : string) (v : JSValue) : bool :=
  match v with JStr s' => String.eqb s s' | _ => false end.

(** [a === b] for a stored value and a value of the request: two arrays
    or two objects are never the same object. *)
Definition strict_eq (a b : JSValue) : bool :=
  match b with
  | JUndefined => match a with JUndefined => true | _ => false end
  | JNull => match a with JNull => true | _ => false end
  | JBool y => match a with JBool x => Bool.eqb x y | _ => false end
  | JNum y => match a with JNum x => x =? y | _ => false end
  | JStr y => match a with JStr x => String.eqb y x | _ => false end
  | JArr _ | JObj _ => false
  end.

(** [n.toString()] / template interpolation of an integer. *)
Definition toString (n : Z) : string := NilZero.string_of_int (Z.to_int n).

(** The conversion of [v] to a string or a number throws a [TypeError]:
    an object of a request with a field named toString has no conversion
    that can be called, and an array converts its elements. *)
Fixpoint noPrimitive (v : JSValue) : bool :=
  match v with
  | JObj fields => existsb (fun field => String.eqb (fst field) "toString") fields
  | JArr items => existsb noPrimitive items
  | _ => false
  end.

(** [String(v)], when the conversion does not throw: an array is its
    elements joined by commas, null and undefined elements as the empty
    string. *)
Fixpoint ToString (v : JSValue) : string :=
  match v with
  | JUndefined => "undefined"
  | JNull => "null"
  | JBool b => if b then "true" else "false"
  | JNum n => toString n
  | JStr s => s
  | JArr items =>
      let element x :=
        match x with JUndefined | JNull => "" | _ => ToString x end in
      (fix join (xs : list JSValue) : string :=
         match xs with
         | [] => ""
         | x :: rest =>
             match rest with
             | [] => element x
             | _ :: _ => String.append (element x) (String "," (join rest))
             end
         end) items
  | JObj _ => "[object Object]"
  end.

(** [ToPrimitive(v)]: an array or an object becomes its string. *)
Definition ToPrimitive (v : JSValue) : JSValue :=
  match v with
  | JArr _ | JObj _ => JStr (ToString v)
  | _ => v
  end.

(** A number that may be [NaN] ([None]). *)
Definition JSNumber : Type := option Z.

Definition isDigit (c : ascii) : bool :=
  let n := nat_of_ascii c in ((48 <=? n) && (n <=? 57))%nat.

(** The value of a string of decimal digits. *)
Fixpoint digitsValue (acc : Z) (s : string) : JSNumber :=
  match s with
  | EmptyString => Some acc
  | String c rest =>
      if isDigit c
      then digitsValue (10 * acc + (Z.of_nat (nat_of_ascii c) - 48)) rest
      else None
  end.

(** [Number(s)]: 0 for the empty string, the value of decimal digits with
    an optional sign, and [NaN] for the other strings of the model. *)
Definition StringToNumber (s : string) : JSNumber :=
  match s with
  | EmptyString => Some 0
  | String c rest =>
      if Ascii.eqb c "-" then
        match rest with
        | EmptyString => None
        | _ => option_map Z.opp (digitsValue 0 rest)
        end
      else if Ascii.eqb c "+" then
        match rest with
        | EmptyString => None
        | _ => digitsValue 0 rest
        end
      else digitsValue 0 s
  end.

(** [Number(v)] *)
Definition ToNumber (v : JSValue) : JSNumber :=
  match ToPrimitive v with
  | JUndefined => None
  | JNull => Some 0
  | JBool b => Some (if b then 1 else 0)
  | JNum n => Some n
  | JStr s => StringToNumber s
  | JArr _ | JObj _ => None
  end.

(** [a < b] on numbers: false when one of them is [NaN]. *)
Definition lessThan (a b : JSNumber) : bool :=
  match a, b with
  | Some x, Some y => x <? y
  | _, _ => false
  end.

(** [a <= b] on numbers: false when one of them is [NaN]. *)
Definition lessOrEqual (a b : JSNumber) : bool :=
  match a, b with
  | Some x, Some y => x <=? y
  | _, _ => false
  end.

(** [Number(n + v)] for a number [n]: the sum, or, when [v] is a string,
    an array or an object, the number that the text of [n] followed by
    the text of [v] converts to. *)
Definition plusAsNumber (n : Z) (v : JSValue) : JSNumber :=
  match ToPrimitive v with
  | JStr s => StringToNumber (String.append (toString n) s)
  | p => option_map (Z.add n) (ToNumber p)
  end.

(** [s.startsWith(p)] *)
Definition startsWith (p s : string) : bool := String.prefix p s.

(** [s.substring(n)] *)
Definition substring_from (n : nat) (s : string) : string :=
  String.substring n (Nat.sub (String.length s) n) s.

(** [s.split(sep)] for a one-character separator. *)
Fixpoint split_aux (sep : ascii) (cur : string) (s : string) : list string :=
  match s with
  | EmptyString => [cur]
  | String c rest =>
      if Ascii.eqb c sep then cur :: split_aux sep "" rest
      else split_aux sep (String.append cur (String c "")) rest
  end.

Definition split (sep : ascii) (s : string) : list string := split_aux sep "" s.

End JS.
Export JS.

(* ================================================================== *)
(** ** IEEE 754 double-precision numbers

    The rates that the handlers compute by division are doubles; the
    operations are the correctly rounded ones of the standard. *)

Module Double.

Definition prec : Z := 53.
Definition emax : Z := 1024.

Definition t : Type := spec_float.

(** The double nearest to an integer (the integer itself below 2^53). *)
Definition of_Z (n : Z) : t := binary_normalize prec emax n 0 false.

(** [x / y] and [x * y] *)
Definition div (x y : t) : t := SFdiv prec emax x y.
Definition mul (x y : t) : t := SFmul prec emax x y.

(** [Math.round(x)]: the integer nearest to [x], the greater one of two
    that are as near; the integer part of [x + 1/2] on the exact value
    of [x]. *)
Definition round (x : t) : t :=
  match x with
  | S754_finite s m e =>
      let v := if s then Z.neg m else Z.pos m in
      if 0 <=? e then x
      else of_Z ((2 * v + 2 ^ (- e)) / 2 ^ (1 - e))
  | _ => x
  end.

(** The exact value of a finite double. *)
Definition to_Q (x : t) : Q :=
  match x with
  | S754_finite s m e =>
      let v := if s then Z.neg m else Z.pos m in
      if 0 <=? e then inject_Z (v * 2 ^ e) else (v # Z.to_pos (2 ^ (- e)))
  | _ => 0%Q
  end.

End Double.

(* ================================================================== *)
(** ** The Date object (ECMAScript time values, in milliseconds) *)

Module JSDate.

Definition msPerDay : Z := 86400000.

(** ECMAScript's LocalTZA: the offset of local time from UTC. *)
Definition LocalTZA : Z := 0.
Definition LocalTime (t : Z) : Z := t + LocalTZA.
Definition UTC (t : Z) : Z := t - LocalTZA.

Definition Day (t : Z) : Z := t / msPerDay.
Definition TimeWithinDay (t : Z) : Z := t mod msPerDay.

Definition DaysInYear (y : Z) : Z :=
  if negb (y mod 4 =? 0) then 365
  else if negb (y mod 100 =? 0) then 366
  else if negb (y mod 400 =? 0) then 365
  else 366.

Definition DayFromYear (y : Z) : Z :=
  365 * (y - 1970) + (y - 1969) / 4 - (y - 1901) / 100 + (y - 1601) / 400.

(** The largest [y] with [DayFromYear y <= d]: one estimate from the mean
    length of a year, corrected by at most one. *)
Definition YearFromDay (d : Z) : Z :=
  let y := 1970 + (400 * d) / 146097 in
  if d <? DayFromYear y then y - 1
  else if DayFromYear (y + 1) <=? d then y + 1
  else y.

Definition InLeapYear (y : Z) : Z := if DaysInYear y =? 366 then 1 else 0.

(** Day number within the year of the first day of month [m] (0 = January). *)
Definition MonthStart (leap m : Z) : Z :=
  if m <=? 0 then 0
  else if m =? 1 then 31
  else if m =? 2 then 59 + leap
  else if m =? 3 then 90 + leap
  else if m =? 4 then 120 + leap
  else if m =? 5 then 151 + leap
  else if m =? 6 then 181 + leap
  else if m =? 7 then 212 + leap
  else if m =? 8 then 243 + leap
  else if m =? 9 then 273 + leap
  else if m =? 10 then 304 + leap
  else if m =? 11 then 334 + leap
  else 365 + leap.

Definition DayWithinYear (d : Z) : Z := d - DayFromYear (YearFromDay d).

Definition MonthOfDay (d : Z) : Z :=
  let leap := InLeapYear (YearFromDay d) in
  let w := DayWithinYear d in
  if w <? 31 then 0
  else if w <? 59 + leap then 1
  else if w <? 90 + leap then 2
  else if w <? 120 + leap then 3
  else if w <? 151 + leap then 4
  else if w <? 181 + leap then 5
  else if w <? 212 + leap then 6
  else if w <? 243 + leap then 7
  else if w <? 273 + leap then 8
  else if w <? 304 + leap then 9
  else if w <? 334 + leap then 10
  else 11.

Definition DateOfDay (d : Z) : Z :=
  DayWithinYear d - MonthStart (InLeapYear (YearFromDay d)) (MonthOfDay d) + 1.

Definition YearFromTime (t : Z) : Z := YearFromDay (Day t).
Definition MonthFromTime (t : Z) : Z := MonthOfDay (Day t).
Definition DateFromTime (t : Z) : Z := DateOfDay (Day t).

(** [MakeDay(year, month, date)]: months outside 0..11 carry into the
    year, a date outside the month carries into the following days. *)
Definition MakeDay (year month date : Z) : Z :=
  let ym := year + month / 12 in
  let mn := month mod 12 in
  DayFromYear ym + MonthStart (InLeapYear ym) mn + date - 1.

Definition MakeDate (day time : Z) : Z := day * msPerDay + time.

(** Methods of a Date object whose time value is [t]. *)
Definition getFullYear (t : Z) : Z := YearFromTime (LocalTime t).
Definition getMonth (t : Z) : Z := MonthFromTime (LocalTime t).
Definition getDate (t : Z) : Z := DateFromTime (LocalTime t).

Definition setMonth (t month : Z) : Z :=
  let lt := LocalTime t in
  UTC (MakeDate (MakeDay (YearFromTime lt) month (DateFromTime lt)) (TimeWithinDay lt)).

Definition setFullYear (t year : Z) : Z :=
  let lt := LocalTime t in
  UTC (MakeDate (MakeDay year (MonthFromTime lt) (DateFromTime lt)) (TimeWithinDay lt)).

Definition setDate (t date : Z) : Z :=
  let lt := LocalTime t in
  UTC (MakeDate (MakeDay (YearFromTime lt) (MonthFromTime lt) date) (TimeWithinDay lt)).

(** A date-only ISO string ["YYYY-MM-DD"]: [month] is 1..12 as written. *)
Record IsoDate : Type := mkIsoDate { year : Z; month : Z; day : Z }.

Definition IsoDate_eqb (a b : IsoDate) : bool :=
  (year a =? year b) && (month a =? month b) && (day a =? day b).

(** [new Date("YYYY-MM-DD").getTime()]: a date-only form is UTC midnight. *)
Definition parse (s : IsoDate) : Z :=
  MakeDate (MakeDay (year s) (month s - 1) (day s)) 0.

(** The date strings that [new Date] reads as a date: a month from 01 to
    12 and a day from 01 to 31; a day past the end of its month carries
    into the next month, as [MakeDay] has it.  Of any other string it
    makes an Invalid Date. *)
Definition parseable (s : IsoDate) : bool :=
  (1 <=? month s) && (month s <=? 12) && (1 <=? day s) && (day s <=? 31).

(** [new Date(s).getTime()]: [NaN] for an Invalid Date. *)
Definition timeValue (s : IsoDate) : JSNumber :=
  if parseable s then Some (parse s) else None.

(** [TimeClip(t)]: a time value further than 100,000,000 days from the
    epoch is not one, and the date is invalid. *)
Definition TimeClip (t : Z) : JSNumber :=
  if Z.abs t <=? 8640000000000000 then Some t else None.

(** [d.toISOString().split("T")[0]], for a date that is not invalid
    ([toISOString] throws a [RangeError] on an Invalid Date). *)
Definition toISODate (t : Z) : IsoDate :=
  mkIsoDate (YearFromTime t) (MonthFromTime t + 1) (DateFromTime t).

(** Zero-padded decimal of [n] on [w] digits (the low [w] digits). *)
Fixpoint pad (w : nat) (n : Z) : string :=
  match w with
  | O => ""
  | S w' => String.append (pad w' (n / 10)) (String (ascii_of_nat (Nat.add 48 (Z.to_nat (n mod 10)))) "")
  end.

(** The year of [toISOString]: four digits, or a sign and six digits. *)
Definition isoYear (y : Z) : string :=
  if (0 <=? y) && (y <=? 9999) then pad 4 y
  else String.append (if y <? 0 then "-" else "+") (pad 6 (Z.abs y)).

(** The date part of [toISOString], as text. *)
Definition toISODateString (t : Z) : string :=
  (isoYear (YearFromTime t) ++ "-" ++ pad 2 (MonthFromTime t + 1)
     ++ "-" ++ pad 2 (DateFromTime t))%string.

(** [d.toISOString().slice(0, 7)] *)
Definition toISOMonth (t : Z) : string :=
  String.substring 0 7 (toISODateString t).

(** The well-formed date-only strings: a day that exists in its month. *)
Definition DaysInMonth (y m : Z) : Z :=
  MonthStart (InLeapYear y) m - MonthStart (InLeapYear y) (m - 1).

Definition valid (s : IsoDate) : Prop :=
  1 <= month s <= 12 /\ 1 <= day s <= DaysInMonth (year s) (month s).

End JSDate.

(* ================================================================== *)
(** ** The data model ([src/types/index.ts]) *)

Inductive UserRole : Type := role_tenant | role_landlord | role_bank | role_ministry.

Inductive RentalStatus : Type :=
  | active | pending | completed | cancelled | renewal_pending | terminating.

Inductive PaymentStatus : Type := paid | payment_pending | overdue | failed.

(** The status of a termination or renewal request. *)
Inductive RequestStatus : Type := request_pending | approved | rejected.

Definition RentalStatus_eqb (a b : RentalStatus) : bool :=
  match a, b with
  | active, active | pending, pending | completed, completed
  | cancelled, cancelled | renewal_pending, renewal_pending
  | terminating, terminating => true
  | _, _ => false
  end.

Definition PaymentStatus_eqb (a b : PaymentStatus) : bool :=
  match a, b with
  | paid, paid | payment_pending, payment_pending
  | overdue, overdue | failed, failed => true
  | _, _ => false
  end.

Definition RequestStatus_eqb (a b : RequestStatus) : bool :=
  match a, b with
  | request_pending, request_pending | approved, approved
  | rejected, rejected => true
  | _, _ => false
  end.

Definition UserRole_eqb (a b : UserRole) : bool :=
  match a, b with
  | role_tenant, role_tenant | role_landlord, role_landlord
  | role_bank, role_bank | role_ministry, role_ministry => true
  | _, _ => false
  end.

(** The name and the email of a user are the values that registration
    was given. *)
Module User.
Record t : Type := mk
  { id : string;
    name : JSValue;
    email : JSValue;
    role : UserRole;
    verified : bool;
    otp : option string;
    createdAt : option Z }.
End User.

Module Property.
Record t : Type := mk
  { id : string;
    ownerId : string;
    address : string;
    rent : Z;
    available : bool;
    description : option string;
    startDate : option JSDate.IsoDate;
    endDate : option JSDate.IsoDate;
    createdAt : option Z }.

(** [{ ...p, available: b }] *)
Definition with_available (b : bool) (p : t) : t :=
  mk (id p) (ownerId p) (address p) (rent p) b (description p)
     (startDate p) (endDate p) (createdAt p).
End Property.

Module Rental.
Record t : Type := mk
  { id : string;
    tenantId : string;
    landlordId : string;
    propertyId : string;
    startDate : JSDate.IsoDate;
    endDate : option JSDate.IsoDate;
    status : RentalStatus;
    monthlyRent : Z;
    createdAt : option Z }.

(** [r.status = st] *)
Definition with_status (st : RentalStatus) (r : t) : t :=
  mk (id r) (tenantId r) (landlordId r) (propertyId r) (startDate r)
     (endDate r) st (monthlyRent r) (createdAt r).

(** [r.endDate = e] *)
Definition with_endDate (e : option JSDate.IsoDate) (r : t) : t :=
  mk (id r) (tenantId r) (landlordId r) (propertyId r) (startDate r)
     e (status r) (monthlyRent r) (createdAt r).
End Rental.

Module Payment.
Record t : Type := mk
  { id : string;
    rentalId : string;
    amount : Z;
    month : JSValue;   (* as the request gave it *)
    status : PaymentStatus;
    timestamp : Z;
    method : option string }.
End Payment.

Module RentalTermination.
Record t : Type := mk
  { id : string;
    rentalId : string;
    tenantId : string;
    landlordId : string;
    requestedEndDate : JSDate.IsoDate;
    reason : option string;
    status : RequestStatus;
    createdAt : Z;
    updatedAt : Z }.

Definition with_landlordId (l : string) (x : t) : t :=
  mk (id x) (rentalId x) (tenantId x) l (requestedEndDate x) (reason x)
     (status x) (createdAt x) (updatedAt x).

Definition with_status (st : RequestStatus) (x : t) : t :=
  mk (id x) (rentalId x) (tenantId x) (landlordId x) (requestedEndDate x)
     (reason x) st (createdAt x) (updatedAt x).

Definition with_updatedAt (u : Z) (x : t) : t :=
  mk (id x) (rentalId x) (tenantId x) (landlordId x) (requestedEndDate x)
     (reason x) (status x) (createdAt x) u.
End RentalTermination.

Module RentalRenewal.
Record t : Type := mk
  { id : string;
    rentalId : string;
    tenantId : string;
    landlordId : string;
    renewalDuration : Z;
    requestedStartDate : JSDate.IsoDate;
    status : RequestStatus;
    createdAt : Z;
    updatedAt : Z }.
End RentalRenewal.

(** The JSON collections of the record store. *)
Record Store : Type := mkStore
  { users : list User.t;
    properties : list Property.t;
    rentals : list Rental.t;
    payments : list Payment.t;
    rental_terminations : list RentalTermination.t;
    rental_renewals : list RentalRenewal.t }.

Definition set_properties (ps : list Property.t) (db : Store) : Store :=
  mkStore (users db) ps (rentals db) (payments db)
          (rental_terminations db) (rental_renewals db).

Definition set_rentals (rs : list Rental.t) (db : Store) : Store :=
  mkStore (users db) (properties db) rs (payments db)
          (rental_terminations db) (rental_renewals db).

Definition set_payments (ps : list Payment.t) (db : Store) : Store :=
  mkStore (users db) (properties db) (rentals db) ps
          (rental_terminations db) (rental_renewals db).

Definition set_rental_terminations (ts : list RentalTermination.t) (db : Store) : Store :=
  mkStore (users db) (properties db) (rentals db) (payments db)
          ts (rental_renewals db).

Definition set_rental_renewals (rs : list RentalRenewal.t) (db : Store) : Store :=
  mkStore (users db) (properties db) (rentals db) (payments db)
          (rental_terminations db) rs.

Definition emptyStore : Store := mkStore [] [] [] [] [] [].

(* ================================================================== *)
(** ** The record store helpers ([src/utils/jsonDb.ts]) *)

(** [T extends { id: string }] *)
Class HasId (A : Type) : Type := id_of : A -> string.

#[export] Instance User_HasId : HasId User.t := User.id.
#[export] Instance Property_HasId : HasId Property.t := Property.id.
#[export] Instance Rental_HasId : HasId Rental.t := Rental.id.
#[export] Instance Payment_HasId : HasId Payment.t := Payment.id.
#[export] Instance RentalTermination_HasId : HasId RentalTermination.t :=
  RentalTermination.id.
#[export] Instance RentalRenewal_HasId : HasId RentalRenewal.t := RentalRenewal.id.

Section JsonDb.
Context {A : Type} `{HasId A}.

(** [data.find((item) => item.id === id)] *)
Definition findById (data : list A) (id : JSValue) : option A :=
  find (fun item => strict_eq_str (id_of item) id) data.

(** [data.map((item) => (item.id === id ? { ...item, ...updates } : item))];
    the partial record [updates] is the function that overwrites its fields. *)
Definition updateById (data : list A) (id : JSValue) (updates : A -> A) : list A :=
  map (fun item => if strict_eq_str (id_of item) id then updates item else item) data.

End JsonDb.

(** [const i = data.findIndex(p); if (i !== -1) data[i] = f(data[i])]:
    the in-place update of the first element that satisfies [p]. *)
Fixpoint updateFirst {A : Type} (p : A -> bool) (f : A -> A) (data : list A) : list A :=
  match data with
  | [] => []
  | x :: rest => if p x then f x :: rest else x :: updateFirst p f rest
  end.

(** What a request observes of its environment. *)
Record Env : Type := mkEnv
  { now : Z;      (* Date.now(), new Date().getTime() *)
    random : Z    (* Math.floor(Math.random() * 1000) *) }.

(** [`${prefix}${timestamp}${random}`] *)
Definition generateId (env : Env) (prefix : string) : string :=
  (prefix ++ toString (now env) ++ toString (random env))%string.

(* ================================================================== *)
(** ** Authentication ([src/utils/auth.ts] and the head of every handler) *)

Record TokenData : Type := mkTokenData { userId : string; role : string }.

Definition parseToken (token : string) : option TokenData :=
  match split "_" token with
  | p0 :: p1 :: _ => Some (mkTokenData p0 p1)
  | _ => None
  end.

(** [authHeader.substring(7)] when the header is present and starts with
    ["Bearer "]. *)
Definition bearerToken (authHeader : option string) : option string :=
  match authHeader with
  | Some h => if startsWith "Bearer " h then Some (substring_from 7 h) else None
  | None => None
  end.

(* ================================================================== *)
(** ** Responses and early returns *)

Record Response (A : Type) : Type := mkResponse
  { status : Z;          (* HTTP status *)
    success : bool;
    message : string;    (* empty when the body carries no message *)
    payload : option A }.

Arguments mkResponse {A} _ _ _ _.
Arguments status {A} _.
Arguments success {A} _.
Arguments message {A} _.
Arguments payload {A} _.

(** [NextResponse.json({ success: false, message }, { status })] *)
Definition failure {A : Type} (code : Z) (msg : string) : Response A :=
  mkResponse code false msg None.

(** [NextResponse.json({ success: true, message, ... })] *)
Definition succeed {A : Type} (msg : string) (x : A) : Response A :=
  mkResponse 200 true msg (Some x).

(** A handler body runs until its first [return]. *)
Definition Handler (A X : Type) : Type := (Response A + X)%type.

Definition bind {A X Y : Type} (m : Handler A X) (k : X -> Handler A Y) : Handler A Y :=
  match m with
  | inl r => inl r
  | inr x => k x
  end.

(** [if (c) return r;] *)
Definition returnIf {A : Type} (c : bool) (r : Response A) : Handler A unit :=
  if c then inl r else inr tt.

(** [const x = e; if (!x) return r;] *)
Definition orReturn {A X : Type} (e : option X) (r : Response A) : Handler A X :=
  match e with
  | Some x => inr x
  | None => inl r
  end.

Notation "x <- m ;; k" := (bind m (fun x => k))
  (at level 61, m at next level, right associativity).
Notation "m ;; k" := (bind m (fun _ => k))
  (at level 61, right associativity).

(** The store after the request: what the handler wrote, or, when it
    returned before writing, the store as it was. *)
Definition run {A : Type} (db : Store) (h : Handler A (Response A * Store))
  : Response A * Store :=
  match h with
  | inl r => (r, db)
  | inr out => out
  end.

(** The first lines of every handler: 401 without a bearer token, [deny]
    unless the token parses and carries the required role. *)
Definition authenticate {A : Type} (authHeader : option string)
    (requiredRole : string) (deny : Response A) : Handler A TokenData :=
  token <- orReturn (bearerToken authHeader) (failure 401 "Unauthorized") ;;
  tokenData <- orReturn (parseToken token) deny ;;
  returnIf (negb (String.eqb (role tokenData) requiredRole)) deny ;;
  inr tokenData.

(* ================================================================== *)
(** ** Availability ([GET /api/properties/check-availability]) *)

Import JSDate.

(** [r.status === "active" || r.status === "renewal_pending" ||
    r.status === "terminating"] *)
Definition isLiveStatus (st : RentalStatus) : bool :=
  RentalStatus_eqb st active || RentalStatus_eqb st renewal_pending
  || RentalStatus_eqb st terminating.

(** The callback of [rentals.filter] in the availability checks: the
    rental is on the property, its status is live, and it has no end date
    or an end date after [now]. *)
Definition blocks (now : Z) (propertyId : string) (r : Rental.t) : bool :=
  if negb (String.eqb (Rental.propertyId r) propertyId) then false
  else if isLiveStatus (Rental.status r) then
    match Rental.endDate r with
    | Some e => if parse e >? now then true else false
    | None => true
    end
  else false.

Record Availability : Type := mkAvailability
  { isAvailable : bool; blockingRental : option Rental.t }.

(** [isBlocked(propertyId, allRentals, now)]: the first blocking rental. *)
Definition activeRentalsOn (now : Z) (propertyId : string) (rs : list Rental.t)
  : list Rental.t :=
  filter (blocks now propertyId) rs.

Definition checkAvailability (env : Env) (authHeader : option string)
    (propertyId : option string) (db : Store) : Response Availability * Store :=
  run db (
    tokenData <- authenticate authHeader "landlord"
                   (failure 403 "Only landlords can check availability") ;;
    propertyId <- orReturn
                    (match propertyId with
                     | Some s => if String.eqb s "" then None else Some s
                     | None => None
                     end)
                    (failure 400 "Property ID is required") ;;
    property <- orReturn (findById (properties db) (JStr propertyId))
                  (failure 404 "Property not found") ;;
    returnIf (negb (String.eqb (Property.ownerId property) (userId tokenData)))
             (failure 403 "You don't own this property") ;;
    let activeRentals := activeRentalsOn (now env) propertyId (rentals db) in
    let isAvailable := (List.length activeRentals =? 0)%nat in
    let blockingRental := hd_error activeRentals in
    inr (succeed
           (* the message of a blocked property goes on with the end date
              of the blocking rental in the server's locale *)
           (if isAvailable then "Property can be listed for rent"
            else "Property has an active rental until")
           (mkAvailability isAvailable blockingRental), db)).

(* ================================================================== *)
(** ** Create property ([POST /api/properties]) *)

Record CreatePropertyBody : Type := mkCreatePropertyBody
  { cp_address : JSValue;
    cp_rent : JSValue;
    cp_description : option string;
    cp_startDate : option IsoDate;
    cp_endDate : option IsoDate }.

(** [(end.getFullYear() - start.getFullYear()) * 12 +
     (end.getMonth() - start.getMonth())] *)
Definition monthsDiff (start end_ : Z) : Z :=
  (getFullYear end_ - getFullYear start) * 12 + (getMonth end_ - getMonth start).

(** The same of two Date objects, of which one may be invalid: the
    fields of an Invalid Date are [NaN]. *)
Definition monthsBetween (start end_ : JSNumber) : JSNumber :=
  match start, end_ with
  | Some s, Some e => Some (monthsDiff s e)
  | _, _ => None
  end.

(** [throw]: the [catch] of the handler answers 500. *)
Definition internalError {A : Type} : Response A :=
  failure 500 "Internal server error".

Definition createProperty (env : Env) (authHeader : option string)
    (body : CreatePropertyBody) (db : Store) : Response Property.t * Store :=
  run db (
    tokenData <- authenticate authHeader "landlord"
                   (failure 403 "Only landlords can create properties") ;;
    returnIf (negb (truthy (cp_address body)) || negb (truthy (cp_rent body)))
             (failure 400 "Address and rent are required") ;;
    rent <- orReturn (match cp_rent body with
                      | JNum n => if n <=? 0 then None else Some n
                      | _ => None
                      end)
              (failure 400 "Rent must be a positive number") ;;
    startDate <- orReturn (cp_startDate body)
                   (failure 400 "Start date and end date are required") ;;
    endDate <- orReturn (cp_endDate body)
                 (failure 400 "Start date and end date are required") ;;
    let start := timeValue startDate in
    let end_ := timeValue endDate in
    (* today.setHours(0, 0, 0, 0) *)
    let today := UTC (MakeDate (Day (LocalTime (now env))) 0) in
    returnIf (lessThan start (Some today))
             (failure 400 "Start date cannot be in the past") ;;
    returnIf (lessOrEqual end_ start) (failure 400 "End date must be after start date") ;;
    returnIf (lessThan (monthsBetween start end_) (Some 2))
             (failure 400 "Rental period must be at least 2 months") ;;
    let newProperty :=
      Property.mk (generateId env "p") (userId tokenData)
        (match cp_address body with JStr s => s | _ => "" end)
        rent true
        (Some (match cp_description body with Some d => d | None => "" end))
        (Some startDate) (Some endDate) (Some (now env)) in
    inr (succeed "Property created successfully" newProperty,
         set_properties (properties db ++ [newProperty]) db)).

(* ================================================================== *)
(** ** Request rental ([POST /api/rentals/request]) *)

Record RequestRentalBody : Type := mkRequestRentalBody
  { rr_propertyId : JSValue;
    rr_rentalDuration : JSValue   (* months; no test of its type *) }.

(** [today = new Date().toISOString().split("T")[0]] *)
Definition today (env : Env) : IsoDate := toISODate (now env).

(** [property.startDate && new Date(property.startDate) >= new Date()
      ? property.startDate : today] *)
Definition rentalStartDate (env : Env) (property : Property.t) : IsoDate :=
  match Property.startDate property with
  | Some s => if lessOrEqual (Some (now env)) (timeValue s) then s else today env
  | None => today env
  end.

(** [defaultDuration]: 12, or the month span of the property's window,
    which is [NaN] when a date of the window does not parse. *)
Definition defaultDuration (property : Property.t) : JSNumber :=
  match Property.startDate property, Property.endDate property with
  | Some s, Some e => monthsBetween (timeValue s) (timeValue e)
  | _, _ => Some 12
  end.

(** [duration = rentalDuration || defaultDuration]: the value of the
    request when it is truthy, or else the default. *)
Inductive Duration : Type :=
  | requested (rentalDuration : JSValue)
  | byDefault (defaultDuration : JSNumber).

Definition chosenDuration (rentalDuration : JSValue) (defaultDuration : JSNumber)
  : Duration :=
  if truthy rentalDuration then requested rentalDuration
  else byDefault defaultDuration.

(** [Number(duration)], as the comparisons [<] and [>] with a number
    take it. *)
Definition durationNumber (duration : Duration) : JSNumber :=
  match duration with
  | requested v => ToNumber v
  | byDefault n => n
  end.

(** [Number(month + duration)], the month that [setMonth] is given. *)
Definition monthPlus (month : Z) (duration : Duration) : JSNumber :=
  match duration with
  | requested v => plusAsNumber month v
  | byDefault n => option_map (Z.add month) n
  end.

(** [endDateObj.setMonth(endDateObj.getMonth() + duration)], as a date. *)
Definition addMonths (start : IsoDate) (duration : Z) : IsoDate :=
  let startDateObj := parse start in
  toISODate (setMonth startDateObj (getMonth startDateObj + duration)).

(** [endDateObj.setMonth(endDateObj.getMonth() + duration)] and
    [endDateObj.toISOString().split("T")[0]], which throws when the date
    has become invalid: the month is [NaN], or the date is out of range. *)
Definition rentalEndDate (rentalStartDate : IsoDate) (duration : Duration)
  : option IsoDate :=
  let startDateObj := parse rentalStartDate in
  match monthPlus (getMonth startDateObj) duration with
  | Some month => option_map toISODate (TimeClip (setMonth startDateObj month))
  | None => None
  end.

Definition tooShortMessage (default : Z) : string :=
  ("Rental duration cannot be less than " ++ toString default
   ++ " months (landlord's default)")%string.

Definition requestRental (env : Env) (authHeader : option string)
    (body : RequestRentalBody) (db : Store) : Response Rental.t * Store :=
  run db (
    tokenData <- authenticate authHeader "tenant"
                   (failure 403 "Only tenants can request rentals") ;;
    let propertyId := rr_propertyId body in
    returnIf (negb (truthy propertyId)) (failure 400 "Property ID is required") ;;
    property <- orReturn (findById (properties db) propertyId)
                  (failure 404 "Property not found") ;;
    returnIf (negb (Property.available property))
             (failure 400 "Property is not available") ;;
    let existingPendingRequest :=
      find (fun r => String.eqb (Rental.tenantId r) (userId tokenData)
                     && strict_eq_str (Rental.propertyId r) propertyId
                     && RentalStatus_eqb (Rental.status r) pending)
           (rentals db) in
    returnIf (match existingPendingRequest with Some _ => true | None => false end)
             (failure 400 "You already have a pending request for this property") ;;
    let tenantRentals :=
      filter (fun r => String.eqb (Rental.tenantId r) (userId tokenData)
                       && (RentalStatus_eqb (Rental.status r) active
                           || RentalStatus_eqb (Rental.status r) pending
                           || RentalStatus_eqb (Rental.status r) renewal_pending
                           || RentalStatus_eqb (Rental.status r) terminating))
             (rentals db) in
    returnIf (20 <=? Z.of_nat (List.length tenantRentals))
             (failure 400
                "You can only have up to 20 active or pending rental requests at a time.") ;;
    let rentalStartDate := rentalStartDate env property in
    let defaultDuration := defaultDuration property in
    let duration := chosenDuration (rr_rentalDuration body) defaultDuration in
    (* a duration whose conversion throws ends as one that is no number
       does, with the answer 500 *)
    returnIf (lessThan (durationNumber duration) defaultDuration)
             (failure 400
                (match defaultDuration with   (* a number, or the test is false *)
                 | Some default => tooShortMessage default
                 | None => ""
                 end)) ;;
    returnIf (lessThan (Some 24) (durationNumber duration))
             (failure 400 "Rental duration cannot exceed 24 months (2 years)") ;;
    (* the start date is one that parses: the window's, tested against
       now, or today's *)
    rentalEndDate <- orReturn (rentalEndDate rentalStartDate duration)
                       internalError ;;
    let newRental :=
      Rental.mk (generateId env "r") (userId tokenData) (Property.ownerId property)
        (Property.id property)   (* === propertyId, the property was found by it *)
        rentalStartDate (Some rentalEndDate) pending (Property.rent property)
        (Some (now env)) in
    inr (succeed
           "Rental request submitted successfully. Waiting for landlord approval."
           newRental,
         set_rentals (rentals db ++ [newRental]) db)).

(* ================================================================== *)
(** ** Approve or decline a rental ([POST /api/rentals/approve]) *)

Record ApproveRentalBody : Type := mkApproveRentalBody
  { ar_rentalId : JSValue; ar_action : JSValue }.

(** The end date an approval stores: the rental's own, or one year after
    its start date. *)
Definition approvedEndDate (rentalToUpdate : Rental.t) : IsoDate :=
  match Rental.endDate rentalToUpdate with
  | Some e => e
  | None =>
      let startDate := parse (Rental.startDate rentalToUpdate) in
      toISODate (setFullYear startDate (getFullYear startDate + 1))
  end.

Definition approveRental (env : Env) (authHeader : option string)
    (body : ApproveRentalBody) (db : Store) : Response Rental.t * Store :=
  run db (
    tokenData <- authenticate authHeader "landlord"
                   (failure 403 "Only landlords can approve rentals") ;;
    let rentalId := ar_rentalId body in
    let action := ar_action body in
    returnIf (negb (truthy rentalId) || negb (truthy action))
             (failure 400 "Rental ID and action are required") ;;
    returnIf (negb (strict_eq_str "approve" action)
              && negb (strict_eq_str "decline" action))
             (failure 400 "Action must be 'approve' or 'decline'") ;;
    rental <- orReturn (findById (rentals db) rentalId)
                (failure 404 "Rental not found") ;;
    property <- orReturn (findById (properties db) (JStr (Rental.propertyId rental)))
                  (failure 404 "Property not found") ;;
    returnIf (negb (String.eqb (Property.ownerId property) (userId tokenData)))
             (failure 403 "You don't own this property") ;;
    returnIf (negb (RentalStatus_eqb (Rental.status rental) pending))
             (failure 400 "Rental is not pending") ;;
    if strict_eq_str "approve" action then
      let endDate := approvedEndDate rental in
      let updatedRentals :=
        updateById (rentals db) rentalId
          (fun r => Rental.with_endDate (Some endDate) (Rental.with_status active r)) in
      let updatedProperties :=
        updateById (properties db) (JStr (Property.id property))
          (Property.with_available false) in
      inr (mkResponse 200 true "Rental approved successfully"
             (findById updatedRentals rentalId),
           set_properties updatedProperties (set_rentals updatedRentals db))
    else
      let updatedRentals :=
        updateById (rentals db) rentalId (Rental.with_status cancelled) in
      inr (mkResponse 200 true "Rental declined"
             (findById updatedRentals rentalId),
           set_rentals updatedRentals db)).

(* ================================================================== *)
(** ** Request termination ([POST /api/rentals/terminate]) *)

Record TerminateBody : Type := mkTerminateBody
  { tb_rentalId : JSValue;
    tb_requestedEndDate : option IsoDate;
    tb_reason : option string }.

(** [twoMonthsFromNow.setMonth(twoMonthsFromNow.getMonth() + 2)] *)
Definition twoMonthsFromNow (env : Env) : Z :=
  setMonth (now env) (getMonth (now env) + 2).

Definition requestTermination (env : Env) (authHeader : option string)
    (body : TerminateBody) (db : Store) : Response RentalTermination.t * Store :=
  run db (
    tokenData <- authenticate authHeader "tenant"
                   (failure 403 "Only tenants can request termination") ;;
    let rentalId := tb_rentalId body in
    returnIf (negb (truthy rentalId)) (failure 400 "Rental ID and end date are required") ;;
    requestedEndDate <- orReturn (tb_requestedEndDate body)
                          (failure 400 "Rental ID and end date are required") ;;
    rental <- orReturn (findById (rentals db) rentalId)
                (failure 404 "Rental not found") ;;
    returnIf (negb (String.eqb (Rental.tenantId rental) (userId tokenData)))
             (failure 403 "You don't own this rental") ;;
    returnIf (negb (RentalStatus_eqb (Rental.status rental) active))
             (failure 400 "Only active rentals can be terminated") ;;
    let existingTermination :=
      find (fun t => strict_eq_str (RentalTermination.rentalId t) rentalId
                     && RequestStatus_eqb (RentalTermination.status t) request_pending)
           (rental_terminations db) in
    returnIf (match existingTermination with Some _ => true | None => false end)
             (failure 400 "A termination request is already pending for this rental") ;;
    let endDate := timeValue requestedEndDate in
    returnIf (lessThan endDate (Some (twoMonthsFromNow env)))
             (failure 400 "Termination date must be at least 2 months from today") ;;
    let termination :=
      RentalTermination.mk (generateId env "term")
        (Rental.id rental)   (* === rentalId, the rental was found by it *)
        (userId tokenData) (Rental.landlordId rental) requestedEndDate
        (Some (match tb_reason body with Some s => s | None => "" end))
        request_pending (now env) (now env) in
    let rentals' :=
      updateFirst (fun r => strict_eq_str (Rental.id r) rentalId)
        (fun r => Rental.with_endDate (Some requestedEndDate)
                    (Rental.with_status terminating r))
        (rentals db) in
    inr (succeed "Termination request submitted successfully" termination,
         set_rentals rentals'
           (set_rental_terminations (rental_terminations db ++ [termination]) db))).

(* ================================================================== *)
(** ** Approve or reject a termination
       ([POST /api/rentals/termination/approve]) *)

Record ApproveTerminationBody : Type := mkApproveTerminationBody
  { at_terminationId : JSValue; at_approve : JSValue }.

Definition approveTermination (env : Env) (authHeader : option string)
    (body : ApproveTerminationBody) (db : Store)
  : Response RentalTermination.t * Store :=
  run db (
    tokenData <- authenticate authHeader "landlord"
                   (failure 403 "Only landlords can approve terminations") ;;
    let terminationId := at_terminationId body in
    returnIf (negb (truthy terminationId))
             (failure 400 "Termination ID and approval status are required") ;;
    approve <- orReturn (match at_approve body with JBool b => Some b | _ => None end)
                 (failure 400 "Termination ID and approval status are required") ;;
    termination <- orReturn (findById (rental_terminations db) terminationId)
                     (failure 404 "Termination request not found") ;;
    rental <- orReturn (findById (rentals db)
                          (JStr (RentalTermination.rentalId termination)))
                (failure 404 "Rental not found") ;;
    property <- orReturn (findById (properties db) (JStr (Rental.propertyId rental)))
                  (failure 404 "Property not found") ;;
    returnIf (negb (String.eqb (Property.ownerId property) (userId tokenData)))
             (failure 403 "You don't own this property") ;;
    let isTermination := fun t => strict_eq_str (RentalTermination.id t) terminationId in
    (* the in-memory repair of a missing or stale landlordId *)
    let terminations1 :=
      if String.eqb (RentalTermination.landlordId termination) ""
         || negb (String.eqb (RentalTermination.landlordId termination)
                             (Property.ownerId property))
      then updateFirst isTermination
             (RentalTermination.with_landlordId (Property.ownerId property))
             (rental_terminations db)
      else rental_terminations db in
    returnIf (negb (RequestStatus_eqb (RentalTermination.status termination)
                                      request_pending))
             (failure 400 "This termination request has already been processed") ;;
    let terminations2 :=
      updateFirst isTermination
        (fun t => RentalTermination.with_updatedAt (now env)
                    (RentalTermination.with_status
                       (if approve then approved else rejected) t))
        terminations1 in
    let isRental :=
      fun r => String.eqb (Rental.id r) (RentalTermination.rentalId termination) in
    let rentals' :=
      if approve then
        updateFirst isRental
          (fun r => Rental.with_endDate
                      (Some (RentalTermination.requestedEndDate termination))
                      (Rental.with_status completed r))
          (rentals db)
      else
        updateFirst isRental (Rental.with_status active) (rentals db) in
    inr (mkResponse 200 true
           (if approve then "Termination request approved successfully"
            else "Termination request rejected")
           (find isTermination terminations2),
         set_properties (properties db)
           (set_rentals rentals' (set_rental_terminations terminations2 db)))).

(* ================================================================== *)
(** ** Request renewal ([POST /api/rentals/renew]) *)

Record RenewBody : Type := mkRenewBody
  { rb_rentalId : JSValue; rb_renewalDuration : JSValue }.

(** [rental.endDate ? new Date(rental.endDate) : new Date(rental.startDate)],
    as a time value. *)
Definition currentEndDate (rental : Rental.t) : JSNumber :=
  match Rental.endDate rental with
  | Some e => timeValue e
  | None => timeValue (Rental.startDate rental)
  end.

Definition requestRenewal (env : Env) (authHeader : option string)
    (body : RenewBody) (db : Store) : Response RentalRenewal.t * Store :=
  run db (
    tokenData <- authenticate authHeader "tenant"
                   (failure 403 "Only tenants can request renewal") ;;
    let rentalId := rb_rentalId body in
    returnIf (negb (truthy rentalId) || negb (truthy (rb_renewalDuration body)))
             (failure 400 "Rental ID and renewal duration are required") ;;
    renewalDuration <-
      orReturn (match rb_renewalDuration body with
                | JNum n => if (n <? 1) || (n >? 24) then None else Some n
                | _ => None
                end)
        (failure 400 "Renewal duration must be between 1 and 24 months") ;;
    rental <- orReturn (findById (rentals db) rentalId)
                (failure 404 "Rental not found") ;;
    returnIf (negb (String.eqb (Rental.tenantId rental) (userId tokenData)))
             (failure 403 "You don't own this rental") ;;
    returnIf (negb (RentalStatus_eqb (Rental.status rental) active))
             (failure 400 "Only active rentals can be renewed") ;;
    let existingRenewal :=
      find (fun r => strict_eq_str (RentalRenewal.rentalId r) rentalId
                     && RequestStatus_eqb (RentalRenewal.status r) request_pending)
           (rental_renewals db) in
    returnIf (match existingRenewal with Some _ => true | None => false end)
             (failure 400 "A renewal request is already pending for this rental") ;;
    let landlordId :=
      if String.eqb (Rental.landlordId rental) "" then
        match findById (properties db) (JStr (Rental.propertyId rental)) with
        | Some property => Property.ownerId property
        | None => Rental.landlordId rental
        end
      else Rental.landlordId rental in
    (* [renewalStartDate.toISOString()] throws on an Invalid Date *)
    currentEndDate <- orReturn (currentEndDate rental) internalError ;;
    let renewalStartDate := setDate currentEndDate (getDate currentEndDate + 1) in
    let renewal :=
      RentalRenewal.mk (generateId env "renew")
        (Rental.id rental)   (* === rentalId, the rental was found by it *)
        (userId tokenData) landlordId renewalDuration
        (toISODate renewalStartDate) request_pending (now env) (now env) in
    let rentals' :=
      updateFirst (fun r => strict_eq_str (Rental.id r) rentalId)
        (Rental.with_status renewal_pending) (rentals db) in
    inr (succeed "Renewal request submitted successfully" renewal,
         set_rentals rentals'
           (set_rental_renewals (rental_renewals db ++ [renewal]) db))).

(* ================================================================== *)
(** ** Create payment ([POST /api/payments/create]) *)

Record CreatePaymentBody : Type := mkCreatePaymentBody
  { pb_rentalId : JSValue;
    pb_month : JSValue;
    pb_amount : JSValue;
    pb_method : option string }.

(** [/^\d{4}-\d{2}$/.test(s)] for a string [s] *)
Definition monthRegex (s : string) : bool :=
  match s with
  | String y1 (String y2 (String y3 (String y4
      (String dash (String m1 (String m2 EmptyString)))))) =>
      isDigit y1 && isDigit y2 && isDigit y3 && isDigit y4
      && Ascii.eqb dash "-" && isDigit m1 && isDigit m2
  | _ => false
  end.

Definition createPayment (env : Env) (authHeader : option string)
    (body : CreatePaymentBody) (db : Store) : Response Payment.t * Store :=
  run db (
    tokenData <- authenticate authHeader "tenant"
                   (failure 403 "Only tenants can make payments") ;;
    let rentalId := pb_rentalId body in
    returnIf (negb (truthy rentalId) || negb (truthy (pb_month body))
              || negb (truthy (pb_amount body)))
             (failure 400 "Rental ID, month, and amount are required") ;;
    let month := pb_month body in
    (* [monthRegex.test(month)] tests the string that [month] converts to *)
    returnIf (noPrimitive month) internalError ;;
    returnIf (negb (monthRegex (ToString month)))
             (failure 400 "Month must be in YYYY-MM format") ;;
    amount <- orReturn (match pb_amount body with
                        | JNum n => if n <=? 0 then None else Some n
                        | _ => None
                        end)
                (failure 400 "Amount must be a positive number") ;;
    rental <- orReturn (findById (rentals db) rentalId)
                (failure 404 "Rental not found") ;;
    returnIf (negb (String.eqb (Rental.tenantId rental) (userId tokenData)))
             (failure 403 "You don't have access to this rental") ;;
    returnIf (negb (RentalStatus_eqb (Rental.status rental) active))
             (failure 400 "Rental is not active") ;;
    let existingPayment :=
      find (fun p => strict_eq_str (Payment.rentalId p) rentalId
                     && strict_eq (Payment.month p) month)
           (payments db) in
    returnIf (match existingPayment with Some _ => true | None => false end)
             (failure 400 "Payment for this month already exists") ;;
    (* the message goes on with the rent in the server's locale *)
    returnIf (negb (amount =? Rental.monthlyRent rental))
             (failure 400 "Amount must be exactly") ;;
    let newPayment :=
      Payment.mk (generateId env "pay")
        (Rental.id rental)   (* === rentalId, the rental was found by it *)
        amount month paid (now env)
        (Some (match pb_method body with
               | Some m => if String.eqb m "" then "online_payment" else m
               | None => "online_payment"
               end)) in
    inr (succeed "Payment processed successfully" newPayment,
         set_payments (payments db ++ [newPayment]) db)).

(* ================================================================== *)
(** ** Ministry dashboard ([GET /api/dashboard/ministry]) *)

(** [s.includes(sub)] *)
Fixpoint includes (sub s : string) : bool :=
  String.prefix sub s
  || match s with
     | EmptyString => false
     | String _ rest => includes sub rest
     end.

Record RentMapEntry : Type := mkRentMapEntry
  { area : string; averageRent : Z; areaActiveRentals : nat }.

Record MinistryDashboardData : Type := mkMinistryDashboardData
  { totalTenants : nat;
    totalLandlords : nat;
    activeRentals : nat;
    totalProperties : nat;
    totalRevenue : Z;
    complianceRate : Double.t;
    rentMap : list RentMapEntry }.

(** [rentals.filter((r) => r.status === "active").map((r) => r.id)] *)
Definition activeRentalIds (rs : list Rental.t) : list string :=
  map Rental.id (filter (fun r => RentalStatus_eqb (Rental.status r) active) rs).

(** The ids of [activeRentalIds] with a paid payment for [currentMonth]. *)
Definition compliantRentals (currentMonth : string) (rs : list Rental.t)
    (ps : list Payment.t) : list string :=
  filter (fun rentalId =>
            match find (fun p => String.eqb (Payment.rentalId p) rentalId
                                 && strict_eq_str currentMonth (Payment.month p)
                                 && PaymentStatus_eqb (Payment.status p) paid) ps with
            | Some _ => true
            | None => false
            end)
         (activeRentalIds rs).

(** [activeRentals > 0 ? (compliantRentals.length / activeRentals) * 100 : 0],
    then [Math.round(complianceRate * 100) / 100]. *)
Definition computeComplianceRate (compliant activeCount : nat) : Double.t :=
  let complianceRate :=
    if (0 <? activeCount)%nat
    then Double.mul (Double.div (Double.of_Z (Z.of_nat compliant))
                                (Double.of_Z (Z.of_nat activeCount)))
                    (Double.of_Z 100)
    else Double.of_Z 0 in
  Double.div (Double.round (Double.mul complianceRate (Double.of_Z 100)))
             (Double.of_Z 100).

Definition areaCount (areaName : string) (db : Store) : nat :=
  List.length
    (filter (fun r =>
               RentalStatus_eqb (Rental.status r) active
               && match find (fun p => String.eqb (Property.id p) (Rental.propertyId r)
                                       && includes areaName (Property.address p))
                             (properties db) with
                  | Some _ => true
                  | None => false
                  end)
            (rentals db)).

Definition ministryDashboard (env : Env) (authHeader : option string)
    (db : Store) : Response MinistryDashboardData * Store :=
  run db (
    tokenData <- authenticate authHeader "ministry" (failure 401 "Unauthorized") ;;
    let totalTenants :=
      List.length (filter (fun u => UserRole_eqb (User.role u) role_tenant) (users db)) in
    let totalLandlords :=
      List.length (filter (fun u => UserRole_eqb (User.role u) role_landlord) (users db)) in
    let activeRentals :=
      List.length (filter (fun r => RentalStatus_eqb (Rental.status r) active)
                          (rentals db)) in
    let totalProperties := List.length (properties db) in
    let totalRevenue :=
      fold_left (fun sum p => sum + Payment.amount p)
        (filter (fun p => PaymentStatus_eqb (Payment.status p) paid) (payments db)) 0 in
    let currentMonth := toISOMonth (now env) in
    let compliant := compliantRentals currentMonth (rentals db) (payments db) in
    let complianceRate := computeComplianceRate (List.length compliant) activeRentals in
    let rentMap :=
      [ mkRentMapEntry "Mirpur" 12000 (areaCount "Mirpur" db);
        mkRentMapEntry "Gulshan" 25000 (areaCount "Gulshan" db);
        mkRentMapEntry "Dhanmondi" 18000 (areaCount "Dhanmondi" db) ] in
    inr (succeed ""
           (mkMinistryDashboardData totalTenants totalLandlords activeRentals
              totalProperties totalRevenue complianceRate rentMap),
         db)).

(* ================================================================== *)
(** ** Landlord dashboard ([GET /api/dashboard/landlord]): rent due *)

Record RentDueItem : Type := mkRentDueItem
  { due_rental : Rental.t;
    due_tenant : User.t;
    due_amount : Z;
    due_month : string;
    daysOverdue : Z;
    paymentStatus : PaymentStatus }.

(** The part of the dashboard data that the rent-due list is built from
    and with; the review summaries of pending requests and the per-property
    rental history are not modelled. *)
Record LandlordDashboardData : Type := mkLandlordDashboardData
  { ld_user : User.t;
    ld_properties : list Property.t;
    ld_activeRentals : list Rental.t;
    ld_pendingRequests : list Rental.t;
    ld_rentDue : list RentDueItem;
    ld_allRentals : list Rental.t }.

(** The callback of [allRentals.filter] that selects the active rentals. *)
Definition isActiveNow (now : Z) (r : Rental.t) : bool :=
  if negb (isLiveStatus (Rental.status r)) then false
  else match Rental.endDate r with
       | Some e => parse e >? now
       | None => true
       end.

(** [new Date(currentMonth + "-01").getTime()] *)
Definition firstOfCurrentMonth (env : Env) : Z :=
  parse (mkIsoDate (YearFromTime (now env)) (MonthFromTime (now env) + 1) 1).

(** The callback of [activeRentals.map] in the rent-due computation. *)
Definition rentDueItem (env : Env) (db : Store) (rental : Rental.t)
  : option RentDueItem :=
  match findById (properties db) (JStr (Rental.propertyId rental)),
        findById (users db) (JStr (Rental.tenantId rental)) with
  | Some property, Some tenant =>
      let currentMonth := toISOMonth (now env) in
      let currentPayment :=
        find (fun p => String.eqb (Payment.rentalId p) (Rental.id rental)
                       && strict_eq_str currentMonth (Payment.month p))
             (payments db) in
      let daysOverdue :=
        match currentPayment with
        | Some _ => 0
        | None => (now env - firstOfCurrentMonth env) / msPerDay
        end in
      Some (mkRentDueItem rental tenant (Rental.monthlyRent rental) currentMonth
              (if daysOverdue >? 0 then daysOverdue else 0)
              (match currentPayment with
               | Some p => Payment.status p
               | None => payment_pending
               end))
  | _, _ => None
  end.

(** [.filter((item) => item !== null && item.daysOverdue > 0)] *)
Fixpoint keepOverdue (items : list (option RentDueItem)) : list RentDueItem :=
  match items with
  | [] => []
  | Some item :: rest =>
      if daysOverdue item >? 0 then item :: keepOverdue rest else keepOverdue rest
  | None :: rest => keepOverdue rest
  end.

Definition landlordDashboard (env : Env) (authHeader : option string)
    (db : Store) : Response LandlordDashboardData * Store :=
  run db (
    tokenData <- authenticate authHeader "landlord" (failure 401 "Unauthorized") ;;
    user <- orReturn (findById (users db) (JStr (userId tokenData)))
              (failure 404 "User not found") ;;
    let landlordProperties :=
      filter (fun p => String.eqb (Property.ownerId p) (User.id user)) (properties db) in
    let allRentals :=
      filter (fun r => existsb (fun p => String.eqb (Property.id p) (Rental.propertyId r))
                               landlordProperties)
             (rentals db) in
    let activeRentals := filter (isActiveNow (now env)) allRentals in
    let pendingRequests :=
      filter (fun r => RentalStatus_eqb (Rental.status r) pending) allRentals in
    let rentDue := keepOverdue (map (rentDueItem env db) activeRentals) in
    inr (succeed ""
           (mkLandlordDashboardData user landlordProperties activeRentals
              pendingRequests rentDue allRentals),
         db)).

(* ================================================================== *)
(** ** States the handlers can produce, and the properties stated of them *)

(** One request served by one of the handlers above that write to the
    store. *)
Inductive step : Store -> Store -> Prop :=
  | step_createProperty env h body db :
      step db (snd (createProperty env h body db))
  | step_requestRental env h body db :
      step db (snd (requestRental env h body db))
  | step_approveRental env h body db :
      step db (snd (approveRental env h body db))
  | step_requestTermination env h body db :
      step db (snd (requestTermination env h body db))
  | step_approveTermination env h body db :
      step db (snd (approveTermination env h body db))
  | step_requestRenewal env h body db :
      step db (snd (requestRenewal env h body db))
  | step_createPayment env h body db :
      step db (snd (createPayment env h body db)).

(** The stores reached from the empty store. *)
Inductive reachable : Store -> Prop :=
  | reachable_empty : reachable emptyStore
  | reachable_step db db' : reachable db -> step db db' -> reachable db'.

(** Invariant 1: at every time [t], every property has at most one
    rental that is live at [t]. *)
Definition singleLiveRental (db : Store) : Prop :=
  forall (propertyId : string) (t : Z),
    (List.length (activeRentalsOn t propertyId (rentals db)) <= 1)%nat.

(** Invariant 5: the (rentalId, month) pairs of the payments are distinct. *)
Definition paymentKey (p : Payment.t) : string * JSValue :=
  (Payment.rentalId p, Payment.month p).

Definition uniquePayments (ps : list Payment.t) : Prop :=
  NoDup (map paymentKey ps).

(** The compliance rate in the words of the specification: of the live
    rentals, the fraction that has a paid payment for the current month. *)
Definition spec_hasPaidPayment (currentMonth : string) (ps : list Payment.t)
    (r : Rental.t) : bool :=
  existsb (fun p => String.eqb (Payment.rentalId p) (Rental.id r)
                    && strict_eq_str currentMonth (Payment.month p)
                    && PaymentStatus_eqb (Payment.status p) paid) ps.

Definition spec_liveRentals (rs : list Rental.t) : list Rental.t :=
  filter (fun r => isLiveStatus (Rental.status r)) rs.

Definition spec_complianceFraction (currentMonth : string) (db : Store) : Q :=
  (inject_Z (Z.of_nat (List.length
      (filter (spec_hasPaidPayment currentMonth (payments db))
              (spec_liveRentals (rentals db)))))
   / inject_Z (Z.of_nat (List.length (spec_liveRentals (rentals db)))))%Q.

(** The date [n] whole months after a date, on the calendar: the month
    number advances by [n], carrying into the year; the day of the month
    stays. *)
Definition civilAddMonths (s : IsoDate) (n : Z) : IsoDate :=
  mkIsoDate (year s + (month s - 1 + n) / 12) ((month s - 1 + n) mod 12 + 1) (day s).

(** The date [n] days after the date of the instant [t]. *)
Definition dateAfterDays (t n : Z) : IsoDate := toISODate (t + n * msPerDay).

(** The caller presents a bearer token that parses to [tokenData] and
    carries the role [requiredRole]. *)
Definition authorizes (authHeader : option string) (requiredRole : string)
    (tokenData : TokenData) : Prop :=
  exists token, bearerToken authHeader = Some token
                /\ parseToken token = Some tokenData
                /\ role tokenData = requiredRole.

(** The rejection of a request for a property whose flag is off. *)
Definition notAvailable : Response Rental.t :=
  failure 400 "Property is not available".

(** The state-conflict rejection of a decision on a decided rental. *)
Definition notPending : Response Rental.t := failure 400 "Rental is not pending".

(** Request Rental gated by the Availability Resolver, as the
    specification words it: rejected when a live rental blocks the
    property, and past the availability check when none does. *)
Definition resolverGatesRequest (env : Env) (authHeader : option string)
    (body : RequestRentalBody) (db : Store) : Prop :=
  forall property,
    findById (properties db) (rr_propertyId body) = Some property ->
    (activeRentalsOn (now env) (Property.id property) (rentals db) <> [] ->
     success (fst (requestRental env authHeader body db)) = false)
    /\ (activeRentalsOn (now env) (Property.id property) (rentals db) = [] ->
        fst (requestRental env authHeader body db) <> notAvailable).

(** The duration rule of Request Rental, as the specification words it:
    every requested duration below the window's month span or above 24 is
    rejected. *)
Definition durationRule (env : Env) (authHeader : option string)
    (body : RequestRentalBody) (db : Store) : Prop :=
  forall property s e d,
    findById (properties db) (rr_propertyId body) = Some property ->
    Property.startDate property = Some s ->
    Property.endDate property = Some e ->
    rr_rentalDuration body = JNum d ->
    d < monthsDiff (parse s) (parse e) \/ d > 24 ->
    success (fst (requestRental env authHeader body db)) = false.

(** The compliance rate of the ministry dashboard, as the specification
    words it: the fraction of live rentals paid for the current month,
    as a fraction or as a percentage. *)
Definition complianceIsLiveFraction (env : Env) (authHeader : option string)
    (db : Store) : Prop :=
  forall data,
    payload (fst (ministryDashboard env authHeader db)) = Some data ->
    (Double.to_Q (complianceRate data)
     == spec_complianceFraction (toISOMonth (now env)) db)%Q
    \/ (Double.to_Q (complianceRate data)
        == 100 * spec_complianceFraction (toISOMonth (now env)) db)%Q.

(** [Math.round(x * 100) / 100] *)
Definition round2 (x : Double.t) : Double.t :=
  Double.div (Double.round (Double.mul x (Double.of_Z 100))) (Double.of_Z 100).

(** [(paid / count) * 100] *)
Definition percentage (paid count : nat) : Double.t :=
  Double.mul (Double.div (Double.of_Z (Z.of_nat paid)) (Double.of_Z (Z.of_nat count)))
             (Double.of_Z 100).

(** The percentage as a rational, and the rate that the dashboard
    computes from the same counts being within 0.0051 of it. *)
Definition exactPercentage (paid count : nat) : Q :=
  (100 * inject_Z (Z.of_nat paid) / inject_Z (Z.of_nat count))%Q.

Definition nearPercentage (paid count : nat) : bool :=
  Qle_bool (Qabs (Double.to_Q (computeComplianceRate paid count)
                  - exactPercentage paid count))
           (51 # 10000).

(** The record a decided termination becomes. *)
Definition decidedTermination (env : Env) (property : Property.t) (approve : bool)
    (t : RentalTermination.t) : RentalTermination.t :=
  RentalTermination.mk (RentalTermination.id t) (RentalTermination.rentalId t)
    (RentalTermination.tenantId t) (Property.ownerId property)
    (RentalTermination.requestedEndDate t) (RentalTermination.reason t)
    (if approve then approved else rejected)
    (RentalTermination.createdAt t) (now env).

(** ** Names for what the handlers compute

    The checks and the records of the handlers above, under names, so
    that the properties below can speak of them. *)

(** [{ ...r, status: "active", endDate }], with the end date an approval
    of [rental] stores. *)
Definition activate (rental : Rental.t) (r : Rental.t) : Rental.t :=
  Rental.with_endDate (Some (approvedEndDate rental)) (Rental.with_status active r).

(** The [newRental] of Request Rental, with the end date it is given. *)
Definition newRental (env : Env) (tokenData : TokenData)
    (property : Property.t) (rentalEndDate : IsoDate) : Rental.t :=
  Rental.mk (generateId env "r") (userId tokenData) (Property.ownerId property)
    (Property.id property) (rentalStartDate env property)
    (Some rentalEndDate) pending
    (Property.rent property) (Some (now env)).

(** The [newRental] of a request for [duration] months. *)
Definition requestedRental (env : Env) (tokenData : TokenData)
    (property : Property.t) (duration : Z) : Rental.t :=
  newRental env tokenData property
    (addMonths (rentalStartDate env property) duration).

(** The duration of a request passes both tests of Request Rental:
    neither [duration < defaultDuration] nor [duration > 24]. *)
Definition durationInBounds (duration : Duration) (defaultDuration : JSNumber)
  : bool :=
  negb (lessThan (durationNumber duration) defaultDuration)
  && negb (lessThan (Some 24) (durationNumber duration)).

(** [existingPendingRequest] of Request Rental is defined. *)
Definition hasPendingRequest (tokenData : TokenData) (propertyId : JSValue)
    (rs : list Rental.t) : bool :=
  match find (fun r => String.eqb (Rental.tenantId r) (userId tokenData)
                       && strict_eq_str (Rental.propertyId r) propertyId
                       && RentalStatus_eqb (Rental.status r) pending) rs with
  | Some _ => true
  | None => false
  end.

(** [tenantRentals.length] of Request Rental. *)
Definition openRentalCount (tokenData : TokenData) (rs : list Rental.t) : Z :=
  Z.of_nat (List.length
    (filter (fun r => String.eqb (Rental.tenantId r) (userId tokenData)
                      && (RentalStatus_eqb (Rental.status r) active
                          || RentalStatus_eqb (Rental.status r) pending
                          || RentalStatus_eqb (Rental.status r) renewal_pending
                          || RentalStatus_eqb (Rental.status r) terminating)) rs)).

(** The [termination] of Request Termination. *)
Definition requestedTermination (env : Env) (tokenData : TokenData)
    (rental : Rental.t) (requestedEndDate : IsoDate) (reason : option string)
  : RentalTermination.t :=
  RentalTermination.mk (generateId env "term") (Rental.id rental)
    (userId tokenData) (Rental.landlordId rental) requestedEndDate
    (Some (match reason with Some s => s | None => "" end))
    request_pending (now env) (now env).

(** The rental a termination request leaves behind. *)
Definition terminatingRental (requestedEndDate : IsoDate) (r : Rental.t) : Rental.t :=
  Rental.with_endDate (Some requestedEndDate) (Rental.with_status terminating r).

(** [existingTermination] of Request Termination is defined. *)
Definition hasPendingTermination (rentalId : JSValue)
    (ts : list RentalTermination.t) : bool :=
  match find (fun t => strict_eq_str (RentalTermination.rentalId t) rentalId
                       && RequestStatus_eqb (RentalTermination.status t) request_pending)
             ts with
  | Some _ => true
  | None => false
  end.

(** The rental a decided termination leaves behind. *)
Definition afterTermination (approve : bool) (termination : RentalTermination.t)
    (r : Rental.t) : Rental.t :=
  if approve
  then Rental.with_endDate (Some (RentalTermination.requestedEndDate termination))
         (Rental.with_status completed r)
  else Rental.with_status active r.

(** [existingRenewal] of Request Renewal is defined. *)
Definition hasPendingRenewal (rentalId : JSValue) (rs : list RentalRenewal.t) : bool :=
  match find (fun r => strict_eq_str (RentalRenewal.rentalId r) rentalId
                       && RequestStatus_eqb (RentalRenewal.status r) request_pending)
             rs with
  | Some _ => true
  | None => false
  end.

(** [existingPayment] of Create Payment is defined, for a month given as
    text. *)
Definition hasPayment (rentalId : JSValue) (month : string) (ps : list Payment.t) : bool :=
  match find (fun p => strict_eq_str (Payment.rentalId p) rentalId
                       && strict_eq_str month (Payment.month p)) ps with
  | Some _ => true
  | None => false
  end.

(** The [existingPayment] of Create Payment. *)
Definition existingPayment (rentalId month : JSValue) (ps : list Payment.t)
  : option Payment.t :=
  find (fun p => strict_eq_str (Payment.rentalId p) rentalId
                 && strict_eq (Payment.month p) month) ps.

(** The [newPayment] of Create Payment. *)
Definition newPayment (env : Env) (rental : Rental.t) (month : JSValue) (amount : Z)
    (method : option string) : Payment.t :=
  Payment.mk (generateId env "pay") (Rental.id rental) amount month paid (now env)
    (Some (match method with
           | Some m => if String.eqb m "" then "online_payment" else m
           | None => "online_payment"
           end)).

(** The rejections of Create Payment for a rental that is not active and
    for an amount that is not the rent. *)
Definition notActive : Response Payment.t := failure 400 "Rental is not active".
Definition notExactAmount : Response Payment.t := failure 400 "Amount must be exactly".

(** The payments on record for a rental and a month. *)
Definition paymentsFor (rentalId month : string) (ps : list Payment.t)
  : list Payment.t :=
  filter (fun p => String.eqb (Payment.rentalId p) rentalId
                   && strict_eq_str month (Payment.month p)) ps.

(** The acceptance of a renewal, as the specification words it: a request
    for 1 or for 24 months is accepted when the rental is active and the
    caller's, and no renewal is pending for it. *)
Definition renewalAccepted (env : Env) (authHeader : option string)
    (body : RenewBody) (db : Store) : Prop :=
  forall tokenData rental,
    rb_renewalDuration body = JNum 1 \/ rb_renewalDuration body = JNum 24 ->
    authorizes authHeader "tenant" tokenData ->
    findById (rentals db) (rb_rentalId body) = Some rental ->
    Rental.tenantId rental = userId tokenData ->
    Rental.status rental = active ->
    hasPendingRenewal (rb_rentalId body) (rental_renewals db) = false ->
    success (fst (requestRenewal env authHeader body db)) = true.


(** ** Concrete requests and stores *)

Module Scenario.

Definition landlord1 : option string := Some "Bearer l1_landlord_1_x".
Definition tenant1 : option string := Some "Bearer t1_tenant_1_x".
Definition tenant2 : option string := Some "Bearer t2_tenant_1_x".
Definition ministry1 : option string := Some "Bearer m1_ministry_1_x".

Definition date (y m d : Z) : IsoDate := mkIsoDate y m d.

(** Three instants: 2025-02-01 01:00:00.000 and .001, and 2025-02-02. *)
Definition env1 : Env := mkEnv (parse (date 2025 2 1) + 3600000) 7.
Definition env2 : Env := mkEnv (parse (date 2025 2 1) + 3600001) 8.
Definition env3 : Env := mkEnv (parse (date 2025 2 2)) 9.
Definition env4 : Env := mkEnv (parse (date 2025 2 2) + 60000) 10.

(** A property offered from 2025-03-01 to 2025-05-01 at 1000 a month. *)
Definition windowBody : CreatePropertyBody :=
  mkCreatePropertyBody (JStr "12 Mirpur Road") (JNum 1000) None
    (Some (date 2025 3 1)) (Some (date 2025 5 1)).

Definition propertyId1 : string := "p17383716000007".
Definition rentalId1 : string := "r17383716000007".
Definition rentalId2 : string := "r17383716000018".

(** A duration in months, or none. *)
Definition months (duration : option Z) : JSValue :=
  match duration with
  | Some d => JNum d
  | None => JUndefined
  end.

Definition request (duration : option Z) : RequestRentalBody :=
  mkRequestRentalBody (JStr propertyId1) (months duration).

Definition approval (rentalId : string) : ApproveRentalBody :=
  mkApproveRentalBody (JStr rentalId) (JStr "approve").

(** The landlord lists the property, two tenants request it, and the
    landlord approves the two requests one after the other. *)
Definition listed : Store :=
  snd (createProperty env1 landlord1 windowBody emptyStore).
Definition requested1 : Store :=
  snd (requestRental env1 tenant1 (request (Some 2)) listed).
Definition requested2 : Store :=
  snd (requestRental env2 tenant2 (request None) requested1).
Definition approved1 : Store :=
  snd (approveRental env3 landlord1 (approval rentalId1) requested2).
Definition approved2 : Store :=
  snd (approveRental env3 landlord1 (approval rentalId2) approved1).

Definition property1 (available : bool) : Property.t :=
  Property.mk "p1" "l1" "12 Mirpur Road" 1000 available (Some "")
    (Some (date 2025 3 1)) (Some (date 2025 5 1)) None.

Definition rental1 (st : RentalStatus) : Rental.t :=
  Rental.mk "r1" "t1" "l1" "p1" (date 2024 6 1) (Some (date 2025 6 1)) st 1000 None.

Definition user (id : string) (r : UserRole) : User.t :=
  User.mk id (JStr id) (JStr id) r true None None.

(** A property whose flag says available while tenant t1 lives in it. *)
Definition staleFlag : Store :=
  mkStore [] [property1 true] [rental1 active] [] [] [].

(** A property whose flag says unavailable while nobody lives in it. *)
Definition vacantUnlisted : Store :=
  mkStore [] [property1 false] [] [] [] [].

Definition requestP1 (duration : option Z) : RequestRentalBody :=
  mkRequestRentalBody (JStr "p1") (months duration).

Definition payment1 : Payment.t :=
  Payment.mk "pay1" "r1" 1000 (JStr "2025-02") paid 1738371600000
    (Some "online_payment").

(** Tenant t1 has paid February 2025 and has since asked to terminate. *)
Definition paidTerminating : Store :=
  mkStore [] [property1 false] [rental1 terminating] [payment1] [] [].

(** Tenant t1 lives in the property and has paid February 2025. *)
Definition paidActive : Store :=
  mkStore [] [property1 false] [rental1 active] [payment1] [] [].

(** Tenant t1 is waiting for a renewal and has not paid February 2025. *)
Definition unpaidRenewing : Store :=
  mkStore [user "l1" role_landlord; user "t1" role_tenant]
    [property1 false] [rental1 renewal_pending] [] [] [].

Definition pay (rentalId month : string) (amount : Z) : CreatePaymentBody :=
  mkCreatePaymentBody (JStr rentalId) (JStr month) (JNum amount) None.

(** Tenant t1 lives in the property; nothing is pending. *)
Definition occupied : Store :=
  mkStore [user "l1" role_landlord; user "t1" role_tenant]
    [property1 false] [rental1 active] [] [] [].

(** Tenant t1 asks on 2025-02-02 to end the rental on 2025-04-02. *)
Definition terminationId1 : string := "term17384544000009".

Definition terminate (endDate : IsoDate) : TerminateBody :=
  mkTerminateBody (JStr "r1") (Some endDate) None.

Definition terminationRequested : Store :=
  snd (requestTermination env3 tenant1 (terminate (date 2025 4 2)) occupied).

Definition decide (approve : bool) : ApproveTerminationBody :=
  mkApproveTerminationBody (JStr terminationId1) (JBool approve).

Definition termination1 : RentalTermination.t :=
  RentalTermination.mk terminationId1 "r1" "t1" "l1" (date 2025 4 2) (Some "")
    request_pending (now env3) (now env3).

Definition renew (months : Z) : RenewBody := mkRenewBody (JStr "r1") (JNum months).

(** Tenant t1 of the approved rental asks to end it on "2025-13-01", which
    is no date; the landlord rejects the request, and the rental is active
    again with that end date. *)
Definition unreadableRequested : Store :=
  snd (requestTermination env3 tenant1
         (mkTerminateBody (JStr rentalId1) (Some (date 2025 13 1)) None) approved1).

Definition unreadableRejected : Store :=
  snd (approveTermination env3 landlord1 (decide false) unreadableRequested).

(** Tenant t1 of the approved rental pays February 2025 twice, with the
    month in an array. *)
Definition payInArray : CreatePaymentBody :=
  mkCreatePaymentBody (JStr rentalId1) (JArr [JStr "2025-02"]) (JNum 1000) None.

Definition paidOnce : Store := snd (createPayment env3 tenant1 payInArray approved1).
Definition paidTwice : Store := snd (createPayment env4 tenant1 payInArray paidOnce).

Definition renewRental1 (months : Z) : RenewBody :=
  mkRenewBody (JStr rentalId1) (JNum months).

End Scenario.

(* ================================================================== *)
(** ** More of the record store helpers and of the token utilities *)

Section JsonDbDelete.
Context {A : Type} `{HasId A}.

(** [data.filter((item) => item.id !== id)] *)
Definition deleteById (data : list A) (id : JSValue) : list A :=
  filter (fun item => negb (strict_eq_str (id_of item) id)) data.

End JsonDbDelete.

(** [`${userId}_${role}_${timestamp}_${randomString}`]; the random string
    [Math.random().toString(36).substring(2, 15)] is an input. *)
Definition generateToken (env : Env) (randomString : string) (userId role : string)
  : string :=
  (userId ++ "_" ++ role ++ "_" ++ toString (now env) ++ "_" ++ randomString)%string.

(** No character of [s] is the separator of a token. *)
Fixpoint noUnderscore (s : string) : bool :=
  match s with
  | EmptyString => true
  | String c rest => negb (Ascii.eqb c "_") && noUnderscore rest
  end.

(** [array.sort(compare)]: the sort is stable, and [compare a b <= 0]
    keeps [a] before [b]. *)
Fixpoint insertSorted {A : Type} (compare : A -> A -> Z) (x : A) (sorted : list A)
  : list A :=
  match sorted with
  | [] => [x]
  | y :: rest =>
      if compare x y <=? 0 then x :: y :: rest
      else y :: insertSorted compare x rest
  end.

Fixpoint sort {A : Type} (compare : A -> A -> Z) (xs : list A) : list A :=
  match xs with
  | [] => []
  | x :: rest => insertSorted compare x (sort compare rest)
  end.

(** A handler over a collection that is not part of [Store]. *)
Definition runWith {A S : Type} (s : S) (h : Handler A (Response A * S))
  : Response A * S :=
  match h with
  | inl r => (r, s)
  | inr out => out
  end.

(** The first lines of the handlers that admit every role: 401 without a
    bearer token or with a token that does not parse. *)
Definition authenticateAny {A : Type} (authHeader : option string)
  : Handler A TokenData :=
  token <- orReturn (bearerToken authHeader) (failure 401 "Unauthorized") ;;
  orReturn (parseToken token) (failure 401 "Unauthorized").

(** [{ id: u.id, name: u.name, email: u.email }] *)
Record UserSummary : Type := mkUserSummary
  { us_id : string; us_name : JSValue; us_email : JSValue }.

Definition summary (u : User.t) : UserSummary :=
  mkUserSummary (User.id u) (User.name u) (User.email u).

(* ================================================================== *)
(** ** Approve or reject a renewal ([POST /api/rentals/renewal/approve]) *)

Definition renewal_with_landlordId (l : string) (x : RentalRenewal.t) : RentalRenewal.t :=
  RentalRenewal.mk (RentalRenewal.id x) (RentalRenewal.rentalId x)
    (RentalRenewal.tenantId x) l (RentalRenewal.renewalDuration x)
    (RentalRenewal.requestedStartDate x) (RentalRenewal.status x)
    (RentalRenewal.createdAt x) (RentalRenewal.updatedAt x).

Definition renewal_with_status (st : RequestStatus) (x : RentalRenewal.t)
  : RentalRenewal.t :=
  RentalRenewal.mk (RentalRenewal.id x) (RentalRenewal.rentalId x)
    (RentalRenewal.tenantId x) (RentalRenewal.landlordId x)
    (RentalRenewal.renewalDuration x) (RentalRenewal.requestedStartDate x) st
    (RentalRenewal.createdAt x) (RentalRenewal.updatedAt x).

Definition renewal_with_updatedAt (u : Z) (x : RentalRenewal.t) : RentalRenewal.t :=
  RentalRenewal.mk (RentalRenewal.id x) (RentalRenewal.rentalId x)
    (RentalRenewal.tenantId x) (RentalRenewal.landlordId x)
    (RentalRenewal.renewalDuration x) (RentalRenewal.requestedStartDate x)
    (RentalRenewal.status x) (RentalRenewal.createdAt x) u.

(** [r.startDate = s] *)
Definition rental_with_startDate (s : IsoDate) (r : Rental.t) : Rental.t :=
  Rental.mk (Rental.id r) (Rental.tenantId r) (Rental.landlordId r)
    (Rental.propertyId r) s (Rental.endDate r) (Rental.status r)
    (Rental.monthlyRent r) (Rental.createdAt r).

Record ApproveRenewalBody : Type := mkApproveRenewalBody
  { an_renewalId : JSValue; an_approve : JSValue }.

(** The rental of an approved renewal: active, from the requested start
    date, for the renewal's duration. *)
Definition renewedRental (renewal : RentalRenewal.t) (r : Rental.t) : Rental.t :=
  Rental.with_endDate
    (Some (addMonths (RentalRenewal.requestedStartDate renewal)
             (RentalRenewal.renewalDuration renewal)))
    (rental_with_startDate (RentalRenewal.requestedStartDate renewal)
       (Rental.with_status active r)).

Definition approveRenewal (env : Env) (authHeader : option string)
    (body : ApproveRenewalBody) (db : Store)
  : Response RentalRenewal.t * Store :=
  run db (
    tokenData <- authenticate authHeader "landlord"
                   (failure 403 "Only landlords can approve renewals") ;;
    let renewalId := an_renewalId body in
    returnIf (negb (truthy renewalId))
             (failure 400 "Renewal ID and approval status are required") ;;
    approve <- orReturn (match an_approve body with JBool b => Some b | _ => None end)
                 (failure 400 "Renewal ID and approval status are required") ;;
    renewal <- orReturn (findById (rental_renewals db) renewalId)
                 (failure 404 "Renewal request not found") ;;
    rental <- orReturn (findById (rentals db) (JStr (RentalRenewal.rentalId renewal)))
                (failure 404 "Rental not found") ;;
    property <- orReturn (findById (properties db) (JStr (Rental.propertyId rental)))
                  (failure 404 "Property not found") ;;
    returnIf (negb (String.eqb (Property.ownerId property) (userId tokenData)))
             (failure 403 "You don't own this property") ;;
    let isRenewal := fun r => strict_eq_str (RentalRenewal.id r) renewalId in
    (* the in-memory repair of a missing or stale landlordId *)
    let renewals1 :=
      if String.eqb (RentalRenewal.landlordId renewal) ""
         || negb (String.eqb (RentalRenewal.landlordId renewal)
                             (Property.ownerId property))
      then updateFirst isRenewal (renewal_with_landlordId (Property.ownerId property))
             (rental_renewals db)
      else rental_renewals db in
    returnIf (negb (RequestStatus_eqb (RentalRenewal.status renewal) request_pending))
             (failure 400 "This renewal request has already been processed") ;;
    let renewals2 :=
      updateFirst isRenewal
        (fun r => renewal_with_updatedAt (now env)
                    (renewal_with_status (if approve then approved else rejected) r))
        renewals1 in
    let isRental :=
      fun r => String.eqb (Rental.id r) (RentalRenewal.rentalId renewal) in
    let rentals' :=
      if approve then updateFirst isRental (renewedRental renewal) (rentals db)
      else updateFirst isRental (Rental.with_status active) (rentals db) in
    inr (mkResponse 200 true
           (if approve then "Renewal request approved successfully"
            else "Renewal request rejected")
           (find isRenewal renewals2),
         set_properties (properties db)
           (set_rentals rentals' (set_rental_renewals renewals2 db)))).

(** The record a decided renewal becomes. *)
Definition decidedRenewal (env : Env) (property : Property.t) (approve : bool)
    (x : RentalRenewal.t) : RentalRenewal.t :=
  RentalRenewal.mk (RentalRenewal.id x) (RentalRenewal.rentalId x)
    (RentalRenewal.tenantId x) (Property.ownerId property)
    (RentalRenewal.renewalDuration x) (RentalRenewal.requestedStartDate x)
    (if approve then approved else rejected)
    (RentalRenewal.createdAt x) (now env).

(** What a decision on [renewal] writes to its rental. *)
Definition afterRenewal (approve : bool) (renewal : RentalRenewal.t) (r : Rental.t)
  : Rental.t :=
  if approve then renewedRental renewal r else Rental.with_status active r.

(* ================================================================== *)
(** ** The renewal and termination requests of a rental
       ([GET /api/rentals/renewals], [GET /api/rentals/terminations]) *)

(** [searchParams.get(name)] that the handler requires to be non-empty. *)
Definition requiredParam {A : Type} (param : option string) (r : Response A)
  : Handler A string :=
  orReturn (match param with
            | Some s => if String.eqb s "" then None else Some s
            | None => None
            end) r.

Definition rentalRenewals (authHeader : option string) (rentalId : option string)
    (db : Store) : Response (list RentalRenewal.t) * Store :=
  run db (
    tokenData <- authenticateAny authHeader ;;
    rentalId <- requiredParam rentalId (failure 400 "Rental ID is required") ;;
    inr (succeed ""
           (filter (fun r => String.eqb (RentalRenewal.rentalId r) rentalId)
                   (rental_renewals db)),
         db)).

Definition rentalTerminations (authHeader : option string) (rentalId : option string)
    (db : Store) : Response (list RentalTermination.t) * Store :=
  run db (
    tokenData <- authenticateAny authHeader ;;
    rentalId <- requiredParam rentalId (failure 400 "Rental ID is required") ;;
    inr (succeed ""
           (filter (fun t => String.eqb (RentalTermination.rentalId t) rentalId)
                   (rental_terminations db)),
         db)).

(* ================================================================== *)
(** ** The renewal requests of a landlord
       ([GET /api/rentals/renewals/landlord]) *)

Record LandlordRenewal : Type := mkLandlordRenewal
  { lr_renewal : RentalRenewal.t;
    lr_rental : Rental.t;
    lr_property : Property.t;
    lr_tenant : UserSummary }.

(** The callback of [renewals.filter]: the renewal names the landlord, or
    it names nobody and its rental does, or neither does and the property
    is the landlord's. *)
Definition isRenewalOf (landlord : string) (db : Store) (r : RentalRenewal.t) : bool :=
  if negb (String.eqb (RentalRenewal.landlordId r) "") then
    String.eqb (RentalRenewal.landlordId r) landlord
  else
    match findById (rentals db) (JStr (RentalRenewal.rentalId r)) with
    | Some rental =>
        if negb (String.eqb (Rental.landlordId rental) "") then
          String.eqb (Rental.landlordId rental) landlord
        else
          match findById (properties db) (JStr (Rental.propertyId rental)) with
          | Some property => String.eqb (Property.ownerId property) landlord
          | None => false
          end
    | None => false
    end.

(** The callback of [landlordRenewals.map], followed by the filter that
    drops the renewals with a missing rental, property or tenant. *)
Definition enrichRenewal (db : Store) (renewal : RentalRenewal.t)
  : option LandlordRenewal :=
  match findById (rentals db) (JStr (RentalRenewal.rentalId renewal)) with
  | Some rental =>
      match findById (properties db) (JStr (Rental.propertyId rental)),
            findById (users db) (JStr (RentalRenewal.tenantId renewal)) with
      | Some property, Some tenant =>
          Some (mkLandlordRenewal renewal rental property (summary tenant))
      | _, _ => None
      end
  | None => None
  end.

Fixpoint keepSome {A : Type} (xs : list (option A)) : list A :=
  match xs with
  | [] => []
  | Some x :: rest => x :: keepSome rest
  | None :: rest => keepSome rest
  end.

Definition landlordRenewals (authHeader : option string) (db : Store)
  : Response (list LandlordRenewal) * Store :=
  run db (
    tokenData <- authenticate authHeader "landlord"
                   (failure 403 "Only landlords can access this") ;;
    let landlordRenewals :=
      filter (isRenewalOf (userId tokenData) db) (rental_renewals db) in
    let enrichedRenewals := keepSome (map (enrichRenewal db) landlordRenewals) in
    inr (succeed ""
           (sort (fun a b => RentalRenewal.createdAt (lr_renewal b)
                             - RentalRenewal.createdAt (lr_renewal a))
                 enrichedRenewals),
         db)).

(* ================================================================== *)
(** ** The listing of available properties ([GET /api/properties]) *)

Module Review.
Record t : Type := mk
  { id : string;
    reviewerId : string;
    reviewerRole : string;
    reviewedId : string;
    reviewedRole : string;
    rentalId : string;
    rating : Z;
    comment : string;
    createdAt : Z }.
End Review.

#[export] Instance Review_HasId : HasId Review.t := Review.id.

Record ReviewsSummary : Type := mkReviewsSummary
  { averageRating : Double.t;
    totalReviews : nat;
    recentReviews : list Review.t }.

Record ListedProperty : Type := mkListedProperty
  { lp_property : Property.t;
    lp_landlord : option UserSummary;
    lp_reviews : ReviewsSummary }.

(** The callback of [properties.filter]: the flag is on and no rental
    blocks the property. *)
Definition isListed (now : Z) (rs : list Rental.t) (p : Property.t) : bool :=
  if negb (Property.available p) then false
  else (List.length (activeRentalsOn now (Property.id p) rs) =? 0)%nat.

(** [reviews.reduce((sum, r) => sum + r.rating, 0) / reviews.length], or 0
    without reviews, then [Math.round(averageRating * 10) / 10]. *)
Definition roundedAverage (rs : list Review.t) : Double.t :=
  let total := fold_left (fun sum r => sum + Review.rating r) rs 0 in
  let averageRating :=
    if (0 <? List.length rs)%nat
    then Double.div (Double.of_Z total) (Double.of_Z (Z.of_nat (List.length rs)))
    else Double.of_Z 0 in
  Double.div (Double.round (Double.mul averageRating (Double.of_Z 10)))
             (Double.of_Z 10).

(** The review summary of the user [reviewedId] in the role [reviewedRole]. *)
Definition reviewsOf (reviews : list Review.t) (reviewedId reviewedRole : string)
  : ReviewsSummary :=
  let userReviews :=
    filter (fun r => String.eqb (Review.reviewedId r) reviewedId
                     && String.eqb (Review.reviewedRole r) reviewedRole)
           reviews in
  mkReviewsSummary (roundedAverage userReviews) (List.length userReviews)
    (firstn 3 (sort (fun a b => Review.createdAt b - Review.createdAt a) userReviews)).

Definition listProperties (env : Env) (reviews : list Review.t) (db : Store)
  : Response (list ListedProperty) * Store :=
  let availableProperties :=
    filter (isListed (now env) (rentals db)) (properties db) in
  (succeed ""
     (map (fun property =>
             mkListedProperty property
               (option_map summary
                  (findById (users db) (JStr (Property.ownerId property))))
               (reviewsOf reviews (Property.ownerId property) "landlord"))
          availableProperties),
   db).

(* ================================================================== *)
(** ** Update a property ([PUT /api/properties/[id]]) *)

(** The handler stores the fields as they come, without a test of their
    types; the model takes them to have the types the data model declares
    for them, so that they fit the stored record.  [None] is an absent
    field; [Some true] is the one value of [available] that the handler
    tests against the rentals. *)
Record UpdatePropertyBody : Type := mkUpdatePropertyBody
  { up_available : option bool;
    up_address : option string;
    up_rent : JSValue;
    up_description : option string;
    up_startDate : option IsoDate;
    up_endDate : option IsoDate }.

(** [today.setHours(0, 0, 0, 0)] *)
Definition startOfToday (env : Env) : Z :=
  UTC (MakeDate (Day (LocalTime (now env))) 0).

(** [{ ...p, ...updateData }] *)
Definition applyUpdate (body : UpdatePropertyBody) (rent : option Z) (p : Property.t)
  : Property.t :=
  Property.mk (Property.id p) (Property.ownerId p)
    (match up_address body with Some a => a | None => Property.address p end)
    (match rent with Some r => r | None => Property.rent p end)
    (match up_available body with Some b => b | None => Property.available p end)
    (match up_description body with Some d => Some d | None => Property.description p end)
    (match up_startDate body with Some s => Some s | None => Property.startDate p end)
    (match up_endDate body with Some e => Some e | None => Property.endDate p end)
    (Property.createdAt p).

(** The validation of a window of which both dates are given; a test on
    a date that does not parse is false. *)
Definition checkWindow {A : Type} (env : Env) (startDate endDate : IsoDate)
  : Handler A unit :=
  let start := timeValue startDate in
  let end_ := timeValue endDate in
  returnIf (lessThan start (Some (startOfToday env)))
           (failure 400 "Start date cannot be in the past") ;;
  returnIf (lessOrEqual end_ start) (failure 400 "End date must be after start date") ;;
  returnIf (lessThan (monthsBetween start end_) (Some 2))
           (failure 400 "Rental period must be at least 2 months").

(** [typeof rent !== "number" || rent <= 0], for a rent that is given. *)
Definition givenRent (rent : JSValue) : option (option Z) :=
  match rent with
  | JUndefined => Some None
  | JNum n => if n <=? 0 then None else Some (Some n)
  | _ => None
  end.

Definition updateProperty (env : Env) (authHeader : option string) (id : string)
    (body : UpdatePropertyBody) (db : Store) : Response Property.t * Store :=
  run db (
    tokenData <- authenticate authHeader "landlord"
                   (failure 403 "Only landlords can update properties") ;;
    property <- orReturn (findById (properties db) (JStr id))
                  (failure 404 "Property not found") ;;
    returnIf (negb (String.eqb (Property.ownerId property) (userId tokenData)))
             (failure 403 "You don't own this property") ;;
    (* the message goes on with the end date of the blocking rental in
       the server's locale *)
    returnIf (match up_available body with
              | Some true =>
                  (0 <? List.length (activeRentalsOn (now env) id (rentals db)))%nat
              | _ => false
              end)
             (failure 400 "Cannot make property available. There is an active rental until") ;;
    rent <- orReturn (givenRent (up_rent body))
              (failure 400 "Rent must be a positive number") ;;
    match up_startDate body, up_endDate body with
    | Some startDate, Some endDate => checkWindow env startDate endDate
    | _, _ => inr tt
    end ;;
    let updatedProperties :=
      updateById (properties db) (JStr id) (applyUpdate body rent) in
    inr (mkResponse 200 true "Property updated successfully"
           (findById updatedProperties (JStr id)),
         set_properties updatedProperties db)).

(* ================================================================== *)
(** ** List a property again ([POST /api/properties/[id]/list-again]) *)

Record ListAgainBody : Type := mkListAgainBody
  { la_previousEndDate : option IsoDate }.

(** The date a rental is sorted by: its end date, or else its start date. *)
Definition rentalDate (r : Rental.t) : Z :=
  match Rental.endDate r with
  | Some e => parse e
  | None => parse (Rental.startDate r)
  end.

(** [dateA] and [dateB] of the comparator: the time value of the end
    date, or else of the start date; [NaN] for a date that does not
    parse. *)
Definition sortDate (r : Rental.t) : JSNumber :=
  match Rental.endDate r with
  | Some e => timeValue e
  | None => timeValue (Rental.startDate r)
  end.

(** [dateB - dateA]; [sort] takes a [NaN] of its comparator as 0. *)
Definition byDateDescending (a b : Rental.t) : Z :=
  match sortDate b, sortDate a with
  | Some dateB, Some dateA => dateB - dateA
  | _, _ => 0
  end.

(** The rentals of a property, the most recent first.  When a date does
    not parse the comparator is not an order and the language leaves the
    result to the implementation; the model's sort is one such result. *)
Definition propertyRentals (id : string) (rs : list Rental.t) : list Rental.t :=
  sort byDateDescending
       (filter (fun r => String.eqb (Rental.propertyId r) id) rs).

(** [rentals.find((r) => r.endDate)?.endDate] *)
Fixpoint firstEndDate (rs : list Rental.t) : option IsoDate :=
  match rs with
  | [] => None
  | r :: rest =>
      match Rental.endDate r with
      | Some e => Some e
      | None => firstEndDate rest
      end
  end.

(** [newStartDate]: the date the request gives, or the end date of the
    most recent rental that has one, or one year after the start of the
    most recent rental, or today. *)
Definition newStartDate (env : Env) (previousEndDate : option IsoDate)
    (propertyRentals : list Rental.t) : IsoDate :=
  match previousEndDate with
  | Some d => d
  | None =>
      match propertyRentals with
      | mostRecent :: _ =>
          match firstEndDate propertyRentals with
          | Some e => e
          | None =>
              let startDate := parse (Rental.startDate mostRecent) in
              toISODate (setFullYear startDate (getFullYear startDate + 1))
          end
      | [] => today env
      end
  end.

(** The case in which [calculatedEndDate.toISOString()] throws: the new
    start date is to be one year after a start date that does not
    parse. *)
Definition oneYearOnThrows (previousEndDate : option IsoDate)
    (propertyRentals : list Rental.t) : bool :=
  match previousEndDate, propertyRentals with
  | None, mostRecent :: _ =>
      match firstEndDate propertyRentals with
      | Some _ => false
      | None => negb (parseable (Rental.startDate mostRecent))
      end
  | _, _ => false
  end.

(** [{ ...p, available: true, startDate, endDate }] *)
Definition relist (startDate endDate : IsoDate) (p : Property.t) : Property.t :=
  Property.mk (Property.id p) (Property.ownerId p) (Property.address p)
    (Property.rent p) true (Property.description p) (Some startDate) (Some endDate)
    (Property.createdAt p).

Definition listAgain (env : Env) (authHeader : option string) (id : string)
    (body : ListAgainBody) (db : Store) : Response Property.t * Store :=
  run db (
    tokenData <- authenticate authHeader "landlord"
                   (failure 403 "Only landlords can list properties") ;;
    property <- orReturn (findById (properties db) (JStr id))
                  (failure 404 "Property not found") ;;
    returnIf (negb (String.eqb (Property.ownerId property) (userId tokenData)))
             (failure 403 "You don't own this property") ;;
    returnIf (0 <? List.length (activeRentalsOn (now env) id (rentals db)))%nat
             (failure 400
                "Cannot list property. There is still an active rental for this property.") ;;
    let propertyRentals := propertyRentals id (rentals db) in
    returnIf (oneYearOnThrows (la_previousEndDate body) propertyRentals)
             internalError ;;
    let newStartDate := newStartDate env (la_previousEndDate body) propertyRentals in
    (* [endDateObj.toISOString()] throws on an Invalid Date *)
    returnIf (negb (parseable newStartDate)) internalError ;;
    let newEndDate := addMonths newStartDate 2 in
    let updatedProperties :=
      updateById (properties db) (JStr id) (relist newStartDate newEndDate) in
    inr (mkResponse 200 true "Property listed for rent again successfully"
           (findById updatedProperties (JStr id)),
         set_properties updatedProperties db)).

(* ================================================================== *)
(** ** Terms and conditions ([/api/terms], [/api/terms/[id]])

    The terms are a collection of their own ([terms.json]); the handlers
    take it and return it beside the store they read. *)

Module Terms.
Record t : Type := mk
  { id : string;
    landlordId : string;
    propertyId : option string;
    title : string;
    content : string;
    version : Z;
    isActive : bool;
    createdAt : Z;
    updatedAt : Z }.

(** [t.isActive = b] *)
Definition with_isActive (b : bool) (x : t) : t :=
  mk (id x) (landlordId x) (propertyId x) (title x) (content x) (version x) b
     (createdAt x) (updatedAt x).
End Terms.

#[export] Instance Terms_HasId : HasId Terms.t := Terms.id.

(** [!!s] for an optional string field. *)
Definition present (s : option string) : bool :=
  match s with
  | Some s => negb (String.eqb s "")
  | None => false
  end.

(** [const x = s; if (!x) return r;] for an optional string field. *)
Definition nonEmpty (s : option string) : option string :=
  match s with
  | Some s => if String.eqb s "" then None else Some s
  | None => None
  end.

(** [!t.propertyId] *)
Definition isGeneral (t : Terms.t) : bool :=
  negb (present (Terms.propertyId t)).

(** [t.propertyId === propertyId] *)
Definition isFor (propertyId : JSValue) (t : Terms.t) : bool :=
  match Terms.propertyId t with
  | Some s => strict_eq_str s propertyId
  | None => false
  end.

(** [propertyId ? t.propertyId === propertyId : !t.propertyId] *)
Definition sameScope (propertyId : JSValue) (t : Terms.t) : bool :=
  if truthy propertyId then isFor propertyId t else isGeneral t.

(** [!property || property.ownerId !== userId], negated. *)
Definition ownsProperty (db : Store) (userId : string) (propertyId : JSValue) : bool :=
  match findById (properties db) propertyId with
  | Some property => String.eqb (Property.ownerId property) userId
  | None => false
  end.

(** [Math.max(...xs)] of a list that is not empty. *)
Definition Math_max (x : Z) (xs : list Z) : Z := fold_left Z.max xs x.

(** [terms.length > 0 ? Math.max(...terms.map((t) => t.version || 1)) : 0] *)
Definition maxVersion (terms : list Terms.t) : Z :=
  match map (fun t => if Terms.version t =? 0 then 1 else Terms.version t) terms with
  | [] => 0
  | v :: vs => Math_max v vs
  end.

Record CreateTermsBody : Type := mkCreateTermsBody
  { ct_propertyId : JSValue;
    ct_title : option string;
    ct_content : option string }.

(** The callback of [terms.filter] that selects the terms a new one
    replaces. *)
Definition isReplaced (landlord : string) (propertyId : JSValue) (t : Terms.t) : bool :=
  String.eqb (Terms.landlordId t) landlord && Terms.isActive t
  && sameScope propertyId t.

(** [oldTerms.forEach((term) => { term.isActive = false; })]: the old terms
    are records of [terms]. *)
Definition deactivateOld (landlord : string) (propertyId : JSValue)
    (terms : list Terms.t) : list Terms.t :=
  map (fun t => if isReplaced landlord propertyId t
                then Terms.with_isActive false t else t)
      terms.

(** [propertyId || undefined]; a property id that is not a string does
    not pass the ownership check. *)
Definition scopeOf (propertyId : JSValue) : option string :=
  match propertyId with
  | JStr s => if String.eqb s "" then None else Some s
  | _ => None
  end.

Definition createTerms (env : Env) (authHeader : option string)
    (body : CreateTermsBody) (terms : list Terms.t) (db : Store)
  : Response Terms.t * list Terms.t :=
  runWith terms (
    tokenData <- authenticate authHeader "landlord"
                   (failure 403 "Only landlords can create terms") ;;
    title <- orReturn (nonEmpty (ct_title body))
               (failure 400 "Title and content are required") ;;
    content <- orReturn (nonEmpty (ct_content body))
                 (failure 400 "Title and content are required") ;;
    let propertyId := ct_propertyId body in
    returnIf (truthy propertyId && negb (ownsProperty db (userId tokenData) propertyId))
             (failure 403 "Property not found or you don't own it") ;;
    let terms1 := deactivateOld (userId tokenData) propertyId terms in
    let newTerms :=
      Terms.mk (generateId env "terms") (userId tokenData) (scopeOf propertyId)
        title content (maxVersion terms1 + 1) true (now env) (now env) in
    inr (succeed "Terms and conditions created successfully" newTerms,
         (terms1 ++ [newTerms])%list)).

(** [GET /api/terms/[id]] *)
Definition getTermsById (id : string) (terms : list Terms.t)
  : Response Terms.t * list Terms.t :=
  runWith terms (
    term <- orReturn (findById terms (JStr id)) (failure 404 "Terms not found") ;;
    inr (succeed "" term, terms)).

(** The title and the content are stored as they come and are taken to
    be strings; [None] is an absent field. *)
Record UpdateTermsBody : Type := mkUpdateTermsBody
  { ut_title : option string;
    ut_content : option string;
    ut_propertyId : JSValue;
    ut_isActive : JSValue }.

(** [isActive !== undefined ? isActive : term.isActive].  The handlers
    read the flag of stored terms for its truth alone ([t.isActive &&]),
    and the model stores the truth of the value that the request gives. *)
Definition storedIsActive (isActive : JSValue) (term : Terms.t) : bool :=
  match isActive with
  | JUndefined => Terms.isActive term
  | v => truthy v
  end.

(** The callback of [terms.filter] that selects the terms an activation
    deactivates: the other active terms of the landlord for the property
    the request names, or else for the property of the terms. *)
Definition isSuperseded (id landlord : string) (propertyId : JSValue) (term : Terms.t)
    (t : Terms.t) : bool :=
  negb (String.eqb (Terms.id t) id)
  && String.eqb (Terms.landlordId t) landlord
  && Terms.isActive t
  && match propertyId with
     | JUndefined =>
         if present (Terms.propertyId term)
         then match Terms.propertyId t, Terms.propertyId term with
              | Some a, Some b => String.eqb a b
              | _, _ => false
              end
         else isGeneral t
     | _ => sameScope propertyId t
     end.

(** [oldTerms.forEach((oldTerm) => { const index = terms.findIndex((t) =>
    t.id === oldTerm.id); if (index !== -1) terms[index].isActive = false; })] *)
Definition deactivateEach (oldTerms terms : list Terms.t) : list Terms.t :=
  fold_left (fun ts oldTerm =>
               updateFirst (fun t => String.eqb (Terms.id t) (Terms.id oldTerm))
                 (Terms.with_isActive false) ts)
            oldTerms terms.

(** The property id an update stores; one that is not a string is falsy,
    and stored terms are only tested for a property id and compared to
    strings by it. *)
Definition storedPropertyId (propertyId : JSValue) (term : Terms.t) : option string :=
  match propertyId with
  | JUndefined => Terms.propertyId term
  | JStr s => Some s
  | _ => None
  end.

(** [{ ...t, title, content, propertyId, isActive, version, updatedAt }],
    with the values the handler computes from the request and from [term]. *)
Definition applyTermsUpdate (env : Env) (body : UpdateTermsBody) (term : Terms.t)
    (t : Terms.t) : Terms.t :=
  Terms.mk (Terms.id t) (Terms.landlordId t)
    (storedPropertyId (ut_propertyId body) term)
    (match ut_title body with Some s => s | None => Terms.title term end)
    (match ut_content body with Some s => s | None => Terms.content term end)
    (match ut_content body with
     | Some _ => Terms.version term + 1
     | None => Terms.version term
     end)
    (storedIsActive (ut_isActive body) term)
    (Terms.createdAt t) (now env).

Definition updateTerms (env : Env) (authHeader : option string) (id : string)
    (body : UpdateTermsBody) (terms : list Terms.t) (db : Store)
  : Response Terms.t * list Terms.t :=
  runWith terms (
    tokenData <- authenticate authHeader "landlord"
                   (failure 403 "Only landlords can update terms") ;;
    term <- orReturn (findById terms (JStr id)) (failure 404 "Terms not found") ;;
    returnIf (negb (String.eqb (Terms.landlordId term) (userId tokenData)))
             (failure 403 "You don't own this terms") ;;
    let propertyId := ut_propertyId body in
    returnIf (truthy propertyId && negb (ownsProperty db (userId tokenData) propertyId))
             (failure 403 "Property not found or you don't own it") ;;
    (* [isActive === true] *)
    let terms1 :=
      match ut_isActive body with
      | JBool true =>
          deactivateEach
            (filter (isSuperseded id (userId tokenData) propertyId term) terms) terms
      | _ => terms
      end in
    let updatedTerms := updateById terms1 (JStr id) (applyTermsUpdate env body term) in
    inr (mkResponse 200 true "Terms updated successfully"
           (findById updatedTerms (JStr id)),
         updatedTerms)).

Definition deleteTerms (authHeader : option string) (id : string)
    (terms : list Terms.t) : Response unit * list Terms.t :=
  runWith terms (
    tokenData <- authenticate authHeader "landlord"
                   (failure 403 "Only landlords can delete terms") ;;
    term <- orReturn (findById terms (JStr id)) (failure 404 "Terms not found") ;;
    returnIf (negb (String.eqb (Terms.landlordId term) (userId tokenData)))
             (failure 403 "You don't own this terms") ;;
    inr (succeed "Terms deleted successfully" tt, deleteById terms (JStr id))).

Record PropertySummary : Type := mkPropertySummary
  { ps_id : string; ps_address : string }.

Record EnrichedTerms : Type := mkEnrichedTerms
  { et_terms : Terms.t;
    et_landlord : option UserSummary;
    et_property : option PropertySummary }.

(** The callback of [filteredTerms.map]. *)
Definition enrichTerms (db : Store) (term : Terms.t) : EnrichedTerms :=
  mkEnrichedTerms term
    (option_map summary (findById (users db) (JStr (Terms.landlordId term))))
    (if present (Terms.propertyId term) then
       match Terms.propertyId term with
       | Some p =>
           option_map (fun property =>
                         mkPropertySummary (Property.id property)
                           (Property.address property))
                      (findById (properties db) (JStr p))
       | None => None
       end
     else None).

(** The callback of [terms.filter] for a tenant: the active terms of the
    owner, general or for the property. *)
Definition appliesTo (property : Property.t) (propertyId : string) (t : Terms.t) : bool :=
  String.eqb (Terms.landlordId t) (Property.ownerId property)
  && Terms.isActive t
  && (isGeneral t || isFor (JStr propertyId) t).

(** [(a, b) => b.updatedAt - a.updatedAt] *)
Definition byUpdatedAt (a b : Terms.t) : Z := Terms.updatedAt b - Terms.updatedAt a.

Definition getTerms (authHeader : option string) (roleParam propertyId : option string)
    (terms : list Terms.t) (db : Store)
  : Response (list EnrichedTerms) * list Terms.t :=
  runWith terms (
    tokenData <- authenticateAny authHeader ;;
    let role := match nonEmpty roleParam with
                | Some r => r
                | None => role tokenData
                end in
    filteredTerms <-
      (if String.eqb role "tenant" then
         propertyId <- requiredParam propertyId
                         (failure 400 "Property ID is required for tenants") ;;
         property <- orReturn (findById (properties db) (JStr propertyId))
                       (failure 404 "Property not found") ;;
         let filteredTerms := filter (appliesTo property propertyId) terms in
         inr (match sort byUpdatedAt filteredTerms with
              | mostRecent :: _ => [mostRecent]
              | [] => []
              end)
       else if String.eqb role "landlord" then
         inr (sort byUpdatedAt
                (filter (fun t => String.eqb (Terms.landlordId t) (userId tokenData))
                        terms))
       else inl (failure 400 "Invalid role")) ;;
    inr (succeed "" (map (enrichTerms db) filteredTerms), terms)).

(* ================================================================== *)
(** ** Tenant dashboard ([GET /api/dashboard/tenant]) *)

Record TenantDashboardData : Type := mkTenantDashboardData
  { td_user : User.t;
    td_currentRental : option Rental.t;
    td_property : option Property.t;
    td_landlord : option User.t;
    td_paymentHistory : list Payment.t;
    td_totalPaid : Z;
    td_onTimePayments : nat;
    td_latePayments : nat;
    td_terminationRequest : option RentalTermination.t }.

(** The callback of [rentals.find] that selects the current rental. *)
Definition isCurrentRentalOf (user : User.t) (r : Rental.t) : bool :=
  String.eqb (Rental.tenantId r) (User.id user) && isLiveStatus (Rental.status r).

(** [payments.filter((p) => p.rentalId === currentRental.id)], or [[]]
    without a current rental. *)
Definition paymentHistoryOf (currentRental : option Rental.t) (ps : list Payment.t)
  : list Payment.t :=
  match currentRental with
  | Some r => filter (fun p => String.eqb (Payment.rentalId p) (Rental.id r)) ps
  | None => []
  end.

(** [history.filter((p) => p.status === "paid").reduce((sum, p) => sum +
    p.amount, 0)] *)
Definition totalPaidOf (history : list Payment.t) : Z :=
  fold_left (fun sum p => sum + Payment.amount p)
    (filter (fun p => PaymentStatus_eqb (Payment.status p) paid) history) 0.

Definition tenantDashboard (authHeader : option string) (db : Store)
  : Response TenantDashboardData * Store :=
  run db (
    tokenData <- authenticate authHeader "tenant" (failure 401 "Unauthorized") ;;
    user <- orReturn (findById (users db) (JStr (userId tokenData)))
              (failure 404 "User not found") ;;
    let currentRental := find (isCurrentRentalOf user) (rentals db) in
    let terminationRequest :=
      match currentRental with
      | Some r =>
          find (fun t => String.eqb (RentalTermination.rentalId t) (Rental.id r)
                         && RequestStatus_eqb (RentalTermination.status t)
                              request_pending)
               (rental_terminations db)
      | None => None
      end in
    let property :=
      match currentRental with
      | Some r => findById (properties db) (JStr (Rental.propertyId r))
      | None => None
      end in
    let landlord :=
      match property with
      | Some p => findById (users db) (JStr (Property.ownerId p))
      | None => None
      end in
    let paymentHistory := paymentHistoryOf currentRental (payments db) in
    let totalPaid := totalPaidOf paymentHistory in
    let onTimePayments :=
      List.length (filter (fun p => PaymentStatus_eqb (Payment.status p) paid)
                          paymentHistory) in
    let latePayments :=
      List.length (filter (fun p => PaymentStatus_eqb (Payment.status p) overdue)
                          paymentHistory) in
    inr (succeed ""
           (mkTenantDashboardData user currentRental property landlord
              (sort (fun a b => Payment.timestamp b - Payment.timestamp a)
                    paymentHistory)
              totalPaid onTimePayments latePayments terminationRequest),
         db)).

(* ================================================================== *)
(** ** All payments ([GET /api/payments]) *)

Definition listPayments (authHeader : option string) (db : Store)
  : Response (list Payment.t) * Store :=
  run db (
    tokenData <- authenticateAny authHeader ;;
    (* the array that is sorted in place is not written back *)
    inr (succeed ""
           (sort (fun a b => Payment.timestamp b - Payment.timestamp a) (payments db)),
         db)).

(* ================================================================== *)
(** ** Receipts ([GET /api/receipts/[paymentId]]) *)

Record Receipt : Type := mkReceipt
  { rc_payment : Payment.t;
    rc_rental : Rental.t;
    rc_property : Property.t;
    rc_tenant : UserSummary;
    rc_landlord : UserSummary }.

Definition getReceipt (authHeader : option string) (paymentId : string) (db : Store)
  : Response Receipt * Store :=
  run db (
    tokenData <- authenticateAny authHeader ;;
    payment <- orReturn (findById (payments db) (JStr paymentId))
                 (failure 404 "Payment not found") ;;
    rental <- orReturn (findById (rentals db) (JStr (Payment.rentalId payment)))
                (failure 404 "Rental not found") ;;
    property <- orReturn (findById (properties db) (JStr (Rental.propertyId rental)))
                  (failure 404 "Property not found") ;;
    tenant <- orReturn (findById (users db) (JStr (Rental.tenantId rental)))
                (failure 404 "User information not found") ;;
    landlord <- orReturn (findById (users db) (JStr (Property.ownerId property)))
                  (failure 404 "User information not found") ;;
    returnIf (String.eqb (role tokenData) "tenant"
              && negb (String.eqb (User.id tenant) (userId tokenData)))
             (failure 403 "Unauthorized") ;;
    returnIf (String.eqb (role tokenData) "landlord"
              && negb (String.eqb (User.id landlord) (userId tokenData)))
             (failure 403 "Unauthorized") ;;
    inr (succeed ""
           (mkReceipt payment rental property (summary tenant) (summary landlord)),
         db)).

(* ================================================================== *)
(** ** Registration ([POST /api/auth/register]) *)

(** The name and the email are stored as they come. *)
Record RegisterBody : Type := mkRegisterBody
  { rg_name : JSValue;
    rg_email : JSValue;
    rg_role : JSValue }.

(** The role of [validRoles] that a string names. *)
Definition parseRole (s : string) : option UserRole :=
  if String.eqb s "tenant" then Some role_tenant
  else if String.eqb s "landlord" then Some role_landlord
  else if String.eqb s "bank" then Some role_bank
  else if String.eqb s "ministry" then Some role_ministry
  else None.

Definition roleName (r : UserRole) : string :=
  match r with
  | role_tenant => "tenant"
  | role_landlord => "landlord"
  | role_bank => "bank"
  | role_ministry => "ministry"
  end.

Definition set_users (us : list User.t) (db : Store) : Store :=
  mkStore us (properties db) (rentals db) (payments db)
          (rental_terminations db) (rental_renewals db).

(** The payload is the id of the new user. *)
Definition register (env : Env) (body : RegisterBody) (db : Store)
  : Response string * Store :=
  run db (
    let name := rg_name body in
    let email := rg_email body in
    returnIf (negb (truthy name) || negb (truthy email) || negb (truthy (rg_role body)))
             (failure 400 "Name, email, and role are required") ;;
    role <- orReturn (match rg_role body with
                      | JStr s => parseRole s
                      | _ => None
                      end)
              (failure 400 "Invalid role") ;;
    let existingUser := find (fun u => strict_eq (User.email u) email) (users db) in
    returnIf (match existingUser with Some _ => true | None => false end)
             (failure 409 "User with this email already exists") ;;
    let newUser :=
      User.mk (generateId env "u") name email role false None (Some (now env)) in
    inr (succeed "User registered successfully. Please verify your email."
           (User.id newUser),
         set_users (users db ++ [newUser]) db)).

(* ================================================================== *)
(** ** Reviews ([POST /api/reviews])

    The reviews are a collection of their own ([reviews.json]). *)

Record CreateReviewBody : Type := mkCreateReviewBody
  { rv_reviewedId : JSValue;
    rv_reviewedRole : JSValue;
    rv_rentalId : JSValue;
    rv_rating : JSValue;
    rv_comment : option string }.

Record CreatedReview : Type := mkCreatedReview
  { cr_review : Review.t;
    cr_reviewer : option UserSummary;
    cr_reviewed : option UserSummary }.

(** The callback of [reviews.find] that looks for an earlier review by the
    same reviewer of the same person for the same rental. *)
Definition isSameReview (reviewer : string) (reviewedId rentalId : JSValue)
    (r : Review.t) : bool :=
  String.eqb (Review.reviewerId r) reviewer
  && strict_eq_str (Review.reviewedId r) reviewedId
  && strict_eq_str (Review.rentalId r) rentalId.

Definition createReview (env : Env) (authHeader : option string)
    (body : CreateReviewBody) (reviews : list Review.t) (db : Store)
  : Response CreatedReview * list Review.t :=
  runWith reviews (
    tokenData <- authenticateAny authHeader ;;
    let reviewedId := rv_reviewedId body in
    let reviewedRole := rv_reviewedRole body in
    let rentalId := rv_rentalId body in
    returnIf (negb (truthy reviewedId) || negb (truthy reviewedRole)
              || negb (truthy rentalId) || negb (truthy (rv_rating body)))
             (failure 400 "Reviewed ID, role, rental ID, and rating are required") ;;
    rating <- orReturn (match rv_rating body with
                        | JNum n => if (n <? 1) || (n >? 5) then None else Some n
                        | _ => None
                        end)
                (failure 400 "Rating must be between 1 and 5") ;;
    returnIf ((String.eqb (role tokenData) "tenant"
               && negb (strict_eq_str "landlord" reviewedRole))
              || (String.eqb (role tokenData) "landlord"
                  && negb (strict_eq_str "tenant" reviewedRole)))
             (failure 400
                "Tenants can only review landlords, and landlords can only review tenants") ;;
    rental <- orReturn (findById (rentals db) rentalId) (failure 404 "Rental not found") ;;
    returnIf (String.eqb (role tokenData) "tenant"
              && negb (String.eqb (Rental.tenantId rental) (userId tokenData)))
             (failure 403 "You can only review for your own rentals") ;;
    returnIf (String.eqb (role tokenData) "landlord"
              && negb (ownsProperty db (userId tokenData)
                         (JStr (Rental.propertyId rental))))
             (failure 403 "You can only review tenants for your properties") ;;
    let existingReview :=
      find (isSameReview (userId tokenData) reviewedId rentalId) reviews in
    returnIf (match existingReview with Some _ => true | None => false end)
             (failure 400 "You have already reviewed this person for this rental") ;;
    reviewedUser <-
      orReturn (match findById (users db) reviewedId with
                | Some u =>
                    if strict_eq_str (roleName (User.role u)) reviewedRole
                    then Some u else None
                | None => None
                end)
        (failure 404 "Reviewed user not found or role mismatch") ;;
    let newReview :=
      Review.mk (generateId env "rev") (userId tokenData) (role tokenData)
        (User.id reviewedUser)   (* === reviewedId, the user was found by it *)
        (roleName (User.role reviewedUser))   (* === reviewedRole *)
        (Rental.id rental)   (* === rentalId, the rental was found by it *)
        rating
        (match rv_comment body with Some c => c | None => "" end)
        (now env) in
    inr (succeed "Review submitted successfully"
           (mkCreatedReview newReview
              (option_map summary (findById (users db) (JStr (userId tokenData))))
              (Some (summary reviewedUser))),
         (reviews ++ [newReview])%list)).

(* ================================================================== *)
(** ** The tenant's page: the earliest termination date it offers
       ([getMinTerminationDate]) *)

(** [date.setMonth(date.getMonth() + 2); date.toISOString().split("T")[0]] *)
Definition getMinTerminationDate (env : Env) : IsoDate :=
  toISODate (setMonth (now env) (getMonth (now env) + 2)).

(* ================================================================== *)
(** ** What the properties below speak of *)

(** The emails of the registered users that are texts. *)
Fixpoint textEmails (us : list User.t) : list string :=
  match us with
  | [] => []
  | u :: rest =>
      match User.email u with
      | JStr email => email :: textEmails rest
      | _ => textEmails rest
      end
  end.

(** The emails of the registered users are distinct, as far as they are
    texts. *)
Definition uniqueEmails (us : list User.t) : Prop := NoDup (textEmails us).

(** No two reviews have the same reviewer, reviewed person and rental. *)
Definition reviewKey (r : Review.t) : string * string * string :=
  (Review.reviewerId r, Review.reviewedId r, Review.rentalId r).

Definition uniqueReviews (rs : list Review.t) : Prop := NoDup (map reviewKey rs).

(** The active terms of a landlord for a scope: a property, or none. *)
Definition activeTermsOf (landlord : string) (propertyId : JSValue)
    (terms : list Terms.t) : list Terms.t :=
  filter (isReplaced landlord propertyId) terms.

(** The scope of stored terms, as the property id of a request. *)
Definition termsScope (t : Terms.t) : JSValue :=
  match Terms.propertyId t with
  | Some s => JStr s
  | None => JUndefined
  end.

(** A list in the order of [compare]: no element is followed, at any
    distance, by one that [compare] puts before it. *)
Definition sortedBy {A : Type} (compare : A -> A -> Z) (xs : list A) : Prop :=
  StronglySorted (fun a b => compare a b <= 0) xs.

(** The landlord a renewal request names: the one of the rental, or the
    owner of the property when the rental names nobody. *)
Definition renewalLandlord (db : Store) (rental : Rental.t) : string :=
  if String.eqb (Rental.landlordId rental) "" then
    match findById (properties db) (JStr (Rental.propertyId rental)) with
    | Some property => Property.ownerId property
    | None => Rental.landlordId rental
    end
  else Rental.landlordId rental.

(** The renewal a request records: for the day after the date of the
    rental, for [n] months. *)
Definition requestedRenewal (env : Env) (tokenData : TokenData) (rental : Rental.t)
    (landlordId : string) (n : Z) : RentalRenewal.t :=
  RentalRenewal.mk (generateId env "renew") (Rental.id rental) (userId tokenData)
    landlordId n (dateAfterDays (rentalDate rental) 1) request_pending
    (now env) (now env).

(* ================================================================== *)
(** ** More concrete requests and stores *)

Module Cases.
Import Scenario.

(** Tenant t1 asks on 2025-02-02 for six more months. *)
Definition renewalId1 : string := "renew17384544000009".

Definition renewalRequested : Store :=
  snd (requestRenewal env3 tenant1 (renew 6) occupied).

Definition renewal1 : RentalRenewal.t :=
  RentalRenewal.mk renewalId1 "r1" "t1" "l1" 6 (date 2025 6 2) request_pending
    (now env3) (now env3).

Definition decideRenewal (approve : bool) : ApproveRenewalBody :=
  mkApproveRenewalBody (JStr renewalId1) (JBool approve).

(** The owner edits the property "p1": the flag and the end date. *)
Definition edit (available : option bool) (endDate : option IsoDate)
  : UpdatePropertyBody :=
  mkUpdatePropertyBody available None JUndefined None None endDate.

(** Two rentals of the property have ended, the later one on 2025-01-01. *)
Definition ended : Store :=
  mkStore [user "l1" role_landlord; user "t1" role_tenant] [property1 false]
    [ Rental.mk "r0" "t1" "l1" "p1" (date 2023 1 1) (Some (date 2024 1 1))
        completed 1000 None;
      Rental.mk "r1" "t1" "l1" "p1" (date 2024 1 1) (Some (date 2025 1 1))
        completed 1000 None ]
    [] [] [].

(** The landlord l1 has general terms and terms for the property "p1". *)
Definition terms0 : list Terms.t :=
  [ Terms.mk "terms1" "l1" None "House rules" "No pets." 1 true 1000 1000;
    Terms.mk "terms2" "l1" (Some "p1") "Flat rules" "No smoking." 2 true 2000 2000;
    Terms.mk "terms3" "l2" None "Rules" "None." 5 true 3000 3000 ].

(** The landlord l1 had switched the general terms off and switches them
    on again. *)
Definition terms1 : list Terms.t :=
  [ Terms.mk "terms1" "l1" None "House rules" "No pets." 1 false 1000 1000;
    Terms.mk "terms4" "l1" None "House rules" "No pets, no parties." 2 true 4000 4000;
    Terms.mk "terms2" "l1" (Some "p1") "Flat rules" "No smoking." 2 true 2000 2000 ].

Definition activate : UpdateTermsBody :=
  mkUpdateTermsBody None None JUndefined (JBool true).

Definition newTermsFor (propertyId : JSValue) : CreateTermsBody :=
  mkCreateTermsBody propertyId (Some "Flat rules") (Some "No smoking, no pets.").

(** Tenant t1 has paid February 2025 for the rental "r1". *)
Definition paid1 : Store :=
  mkStore [user "l1" role_landlord; user "t1" role_tenant; user "t2" role_tenant]
    [property1 false] [rental1 active] [payment1] [] [].

Definition bank1 : option string := Some "Bearer b1_bank_1_x".

Definition signUp (email : string) : RegisterBody :=
  mkRegisterBody (JStr "Rahim") (JStr email) (JStr "tenant").

(** Tenant t1 gives the landlord l1 four stars for the rental "r1". *)
Definition fourStars : CreateReviewBody :=
  mkCreateReviewBody (JStr "l1") (JStr "landlord") (JStr "r1") (JNum 4) None.

(** One second after the midnight of [env3]. *)
Definition afterMidnight : Env := mkEnv (now env3 + 1000) 9.

End Cases.

(* ================================================================== *)
(** * Properties *)

(** ** Calendar arithmetic *)

Module CalendarFacts.
Import JSDate.

Lemma month_cases m :
  0 <= m <= 11 ->
  m = 0 \/ m = 1 \/ m = 2 \/ m = 3 \/ m = 4 \/ m = 5 \/ m = 6 \/ m = 7 \/ m = 8
  \/ m = 9 \/ m = 10 \/ m = 11.
Proof. lia. Qed.

Ltac split_ifs :=
  repeat match goal with
         | |- context [if ?b then _ else _] => destruct b eqn:?
         end.

(** Evaluates the entries of the month table at known arguments. *)
Ltac eval_MonthStart :=
  repeat match goal with
         | |- context [MonthStart ?a ?b] =>
             let v := eval vm_compute in (MonthStart a b) in
             change (MonthStart a b) with v
         | H : context [MonthStart ?a ?b] |- _ =>
             let v := eval vm_compute in (MonthStart a b) in
             change (MonthStart a b) with v in H
         end.

Ltac each_month Hm :=
  destruct (month_cases _ Hm)
    as [->|[->|[->|[->|[->|[->|[->|[->|[->|[->|[->| ->]]]]]]]]]]].

Lemma DaysInYear_cases y : DaysInYear y = 365 \/ DaysInYear y = 366.
Proof. unfold DaysInYear. split_ifs; auto. Qed.

Lemma InLeapYear_cases y :
  (InLeapYear y = 0 /\ DaysInYear y = 365) \/ (InLeapYear y = 1 /\ DaysInYear y = 366).
Proof.
  unfold InLeapYear. destruct (DaysInYear_cases y) as [E|E]; rewrite E; cbn; auto.
Qed.

Lemma InLeapYear_range y : 0 <= InLeapYear y <= 1.
Proof. destruct (InLeapYear_cases y) as [[-> _]|[-> _]]; lia. Qed.

Lemma DayFromYear_succ y : DayFromYear (y + 1) = DayFromYear y + DaysInYear y.
Proof.
  assert (A : (y + 1 - 1969) / 4 = (y - 1969) / 4 + (if y mod 4 =? 0 then 1 else 0)).
  { destruct (Z.eqb_spec (y mod 4) 0); Z.div_mod_to_equations; lia. }
  assert (B : (y + 1 - 1901) / 100 = (y - 1901) / 100 + (if y mod 100 =? 0 then 1 else 0)).
  { destruct (Z.eqb_spec (y mod 100) 0); Z.div_mod_to_equations; lia. }
  assert (C : (y + 1 - 1601) / 400 = (y - 1601) / 400 + (if y mod 400 =? 0 then 1 else 0)).
  { destruct (Z.eqb_spec (y mod 400) 0); Z.div_mod_to_equations; lia. }
  assert (D : y mod 400 = 0 -> y mod 100 = 0) by (intros; Z.div_mod_to_equations; lia).
  assert (E : y mod 100 = 0 -> y mod 4 = 0) by (intros; Z.div_mod_to_equations; lia).
  unfold DayFromYear, DaysInYear. rewrite A, B, C.
  destruct (Z.eqb_spec (y mod 4) 0); destruct (Z.eqb_spec (y mod 100) 0);
    destruct (Z.eqb_spec (y mod 400) 0); cbn [negb]; lia.
Qed.

Lemma DayFromYear_mono y y' :
  y <= y' -> DayFromYear y + 365 * (y' - y) <= DayFromYear y'.
Proof. unfold DayFromYear. intros. Z.div_mod_to_equations. lia. Qed.

(** [YearFromDay d] is the year whose days include day [d]. *)
Lemma YearFromDay_spec d :
  DayFromYear (YearFromDay d) <= d < DayFromYear (YearFromDay d + 1).
Proof.
  unfold YearFromDay.
  set (y := 1970 + 400 * d / 146097).
  assert (H1 : DayFromYear (y - 1) <= d).
  { unfold DayFromYear, y. Z.div_mod_to_equations. lia. }
  assert (H2 : d < DayFromYear (y + 2)).
  { unfold DayFromYear, y. Z.div_mod_to_equations. lia. }
  destruct (Z.ltb_spec d (DayFromYear y)).
  - replace (y - 1 + 1) with y by lia. lia.
  - destruct (Z.leb_spec (DayFromYear (y + 1)) d).
    + replace (y + 1 + 1) with (y + 2) by lia. lia.
    + lia.
Qed.

Lemma YearFromDay_unique d y :
  DayFromYear y <= d < DayFromYear (y + 1) -> YearFromDay d = y.
Proof.
  intros H. pose proof (YearFromDay_spec d) as S.
  destruct (Z.lt_trichotomy (YearFromDay d) y) as [L|[E|G]]; auto.
  - pose proof (DayFromYear_mono (YearFromDay d + 1) y ltac:(lia)). lia.
  - pose proof (DayFromYear_mono (y + 1) (YearFromDay d) ltac:(lia)). lia.
Qed.

Lemma DayWithinYear_range d :
  0 <= DayWithinYear d < 365 + InLeapYear (YearFromDay d).
Proof.
  unfold DayWithinYear. pose proof (YearFromDay_spec d) as S.
  rewrite DayFromYear_succ in S.
  destruct (InLeapYear_cases (YearFromDay d)) as [[-> E]|[-> E]]; lia.
Qed.

Lemma MonthOfDay_range d : 0 <= MonthOfDay d <= 11.
Proof. unfold MonthOfDay. split_ifs; lia. Qed.

Lemma DateOfDay_range d :
  1 <= DateOfDay d
  <= MonthStart (InLeapYear (YearFromDay d)) (MonthOfDay d + 1)
     - MonthStart (InLeapYear (YearFromDay d)) (MonthOfDay d).
Proof.
  pose proof (DayWithinYear_range d) as R.
  unfold DateOfDay, MonthOfDay.
  destruct (InLeapYear_cases (YearFromDay d)) as [[L _]|[L _]]; rewrite L in *;
    split_ifs; eval_MonthStart; lia.
Qed.

Lemma DateOfDay_le_31 d : 1 <= DateOfDay d <= 31.
Proof.
  pose proof (DateOfDay_range d) as R. pose proof (MonthOfDay_range d) as Hm.
  split; [lia|].
  set (m := MonthOfDay d) in *. clearbody m.
  destruct (InLeapYear_cases (YearFromDay d)) as [[L _]|[L _]]; rewrite L in R;
    each_month Hm; eval_MonthStart; lia.
Qed.

Lemma MakeDay_eq y m dd :
  0 <= m <= 11 ->
  MakeDay y m dd = DayFromYear y + MonthStart (InLeapYear y) m + dd - 1.
Proof.
  intros Hm. unfold MakeDay.
  replace (m / 12) with 0 by (Z.div_mod_to_equations; lia).
  replace (m mod 12) with m by (Z.div_mod_to_equations; lia).
  now rewrite Z.add_0_r.
Qed.

Lemma MakeDay_carry y m dd : MakeDay y m dd = MakeDay (y + m / 12) (m mod 12) dd.
Proof.
  unfold MakeDay.
  replace (m mod 12 / 12) with 0 by (Z.div_mod_to_equations; lia).
  replace (m mod 12 mod 12) with (m mod 12) by (Z.div_mod_to_equations; lia).
  now rewrite Z.add_0_r.
Qed.

(** A day, taken apart and put together again. *)
Lemma MakeDay_of_day d :
  MakeDay (YearFromDay d) (MonthOfDay d) (DateOfDay d) = d.
Proof.
  rewrite MakeDay_eq by apply MonthOfDay_range.
  unfold DateOfDay, DayWithinYear. lia.
Qed.

(** A calendar date, put together and taken apart again. *)
Lemma day_of_MakeDay y m dd :
  0 <= m <= 11 ->
  1 <= dd <= MonthStart (InLeapYear y) (m + 1) - MonthStart (InLeapYear y) m ->
  YearFromDay (MakeDay y m dd) = y
  /\ MonthOfDay (MakeDay y m dd) = m
  /\ DateOfDay (MakeDay y m dd) = dd.
Proof.
  intros Hm Hd.
  pose proof (MakeDay_eq y m dd Hm) as E.
  assert (Y : YearFromDay (MakeDay y m dd) = y).
  { apply YearFromDay_unique. rewrite E, DayFromYear_succ.
    destruct (InLeapYear_cases y) as [[L D]|[L D]]; rewrite L in *; rewrite D;
      each_month Hm; eval_MonthStart; lia. }
  assert (M : MonthOfDay (MakeDay y m dd) = m).
  { unfold MonthOfDay, DayWithinYear. rewrite Y, E.
    destruct (InLeapYear_cases y) as [[L D]|[L D]]; rewrite L in *;
      each_month Hm; eval_MonthStart; split_ifs; lia. }
  split; [exact Y|split; [exact M|]].
  unfold DateOfDay, DayWithinYear. rewrite M, Y, E. lia.
Qed.

Lemma month_length_ge_28 leap m :
  0 <= leap <= 1 -> 0 <= m <= 11 -> 28 <= MonthStart leap (m + 1) - MonthStart leap m.
Proof.
  intros Hl Hm. assert (L : leap = 0 \/ leap = 1) by lia.
  destruct L as [-> | ->]; each_month Hm; eval_MonthStart; lia.
Qed.

(** *** Time values *)

Lemma Day_MakeDate d time : 0 <= time < msPerDay -> Day (MakeDate d time) = d.
Proof.
  unfold Day, MakeDate, msPerDay. intros. Z.div_mod_to_equations. lia.
Qed.

Lemma TimeWithinDay_MakeDate d time :
  0 <= time < msPerDay -> TimeWithinDay (MakeDate d time) = time.
Proof.
  unfold TimeWithinDay, MakeDate, msPerDay. intros. Z.div_mod_to_equations. lia.
Qed.

Lemma MakeDate_Day t : MakeDate (Day t) (TimeWithinDay t) = t.
Proof.
  unfold Day, TimeWithinDay, MakeDate, msPerDay. Z.div_mod_to_equations. lia.
Qed.

Lemma TimeWithinDay_range t : 0 <= TimeWithinDay t < msPerDay.
Proof. unfold TimeWithinDay, msPerDay. Z.div_mod_to_equations. lia. Qed.

Lemma Day_add_days t n : Day (t + n * msPerDay) = Day t + n.
Proof. unfold Day, msPerDay. Z.div_mod_to_equations. lia. Qed.

Lemma setMonth_eq t m :
  setMonth t m
  = MakeDate (MakeDay (YearFromTime t) m (DateFromTime t)) (TimeWithinDay t).
Proof.
  unfold setMonth, LocalTime, UTC, LocalTZA. rewrite Z.add_0_r. apply Z.sub_0_r.
Qed.

Lemma getMonth_eq t : getMonth t = MonthFromTime t.
Proof. unfold getMonth, LocalTime, LocalTZA. now rewrite Z.add_0_r. Qed.

Lemma getFullYear_eq t : getFullYear t = YearFromTime t.
Proof. unfold getFullYear, LocalTime, LocalTZA. now rewrite Z.add_0_r. Qed.

Lemma Day_parse s : Day (parse s) = MakeDay (year s) (month s - 1) (day s).
Proof. unfold parse. apply Day_MakeDate. unfold msPerDay. lia. Qed.

(** The fields of the Date object made from a well-formed date string. *)
Lemma fields_of_parse s :
  valid s ->
  YearFromTime (parse s) = year s /\ MonthFromTime (parse s) = month s - 1
  /\ DateFromTime (parse s) = day s /\ TimeWithinDay (parse s) = 0.
Proof.
  intros [Hm Hd]. unfold DaysInMonth in Hd.
  destruct (day_of_MakeDay (year s) (month s - 1) (day s)) as (Y & M & D).
  - lia.
  - replace (month s - 1 + 1) with (month s) by lia. exact Hd.
  - unfold YearFromTime, MonthFromTime, DateFromTime.
    rewrite Day_parse. repeat split; auto.
    unfold parse. apply TimeWithinDay_MakeDate. unfold msPerDay. lia.
Qed.

(** Parsing a well-formed date string and printing the date gives it back. *)
Lemma toISODate_parse s : valid s -> toISODate (parse s) = s.
Proof.
  intros V. destruct (fields_of_parse s V) as (Y & M & D & _).
  unfold toISODate. rewrite Y, M, D. destruct s; cbn [year month day]. f_equal. lia.
Qed.

(** Printing the date of an instant and parsing it gives its midnight. *)
(** The date of [toISOString] is one that [new Date] reads. *)
Lemma parseable_toISODate t : parseable (toISODate t) = true.
Proof.
  unfold parseable, toISODate, MonthFromTime, DateFromTime. cbn [month day].
  pose proof (MonthOfDay_range (Day t)). pose proof (DateOfDay_le_31 (Day t)).
  rewrite !andb_true_iff, !Z.leb_le. lia.
Qed.

Lemma timeValue_toISODate t : timeValue (toISODate t) = Some (parse (toISODate t)).
Proof. unfold timeValue. now rewrite parseable_toISODate. Qed.

Lemma parse_toISODate t : parse (toISODate t) = MakeDate (Day t) 0.
Proof.
  unfold parse, toISODate, YearFromTime, MonthFromTime, DateFromTime.
  cbn [year month day].
  replace (MonthOfDay (Day t) + 1 - 1) with (MonthOfDay (Day t)) by lia.
  now rewrite MakeDay_of_day.
Qed.

Lemma parse_dateAfterDays t n :
  parse (dateAfterDays t n) = MakeDate (Day t + n) 0.
Proof. unfold dateAfterDays. now rewrite parse_toISODate, Day_add_days. Qed.

(** Month arithmetic on the calendar: the day of the month is kept when
    every month has it. *)
Lemma addMonths_civil s n :
  valid s -> day s <= 28 -> addMonths s n = civilAddMonths s n.
Proof.
  intros V H28.
  destruct (fields_of_parse s V) as (PY & PM & PD & PT).
  unfold addMonths. rewrite setMonth_eq, getMonth_eq, PY, PM, PD, PT, MakeDay_carry.
  assert (Hm' : 0 <= (month s - 1 + n) mod 12 <= 11) by (Z.div_mod_to_equations; lia).
  destruct (day_of_MakeDay (year s + (month s - 1 + n) / 12) _ (day s) Hm')
    as (Y & M & D).
  - pose proof (month_length_ge_28 _ _
                  (InLeapYear_range (year s + (month s - 1 + n) / 12)) Hm').
    destruct V. lia.
  - unfold toISODate, YearFromTime, MonthFromTime, DateFromTime.
    rewrite Day_MakeDate by (unfold msPerDay; lia).
    rewrite Y, M, D. reflexivity.
Qed.

(** The day two calendar months on is between 59 and 62 days away. *)
Lemma MakeDay_plus2 d :
  59 <= MakeDay (YearFromDay d) (MonthOfDay d + 2) (DateOfDay d) - d <= 62.
Proof.
  pose proof (MakeDay_of_day d) as E0.
  pose proof (MonthOfDay_range d) as R.
  rewrite MakeDay_eq in E0 by exact R.
  rewrite MakeDay_carry.
  set (y := YearFromDay d) in *. set (m := MonthOfDay d) in *.
  set (dd := DateOfDay d) in *. clearbody y m dd.
  destruct (Z.le_gt_cases m 9) as [Le|Gt].
  - replace ((m + 2) / 12) with 0 by (Z.div_mod_to_equations; lia).
    replace ((m + 2) mod 12) with (m + 2) by (Z.div_mod_to_equations; lia).
    rewrite Z.add_0_r, MakeDay_eq by lia.
    assert (Hm : 0 <= m <= 11) by lia.
    destruct (InLeapYear_cases y) as [[L _]|[L _]]; rewrite L in *;
      each_month Hm; try lia; eval_MonthStart; lia.
  - replace ((m + 2) / 12) with 1 by (Z.div_mod_to_equations; lia).
    replace ((m + 2) mod 12) with (m - 10) by (Z.div_mod_to_equations; lia).
    rewrite MakeDay_eq, DayFromYear_succ by lia.
    assert (Hm : m = 10 \/ m = 11) by lia.
    destruct (InLeapYear_cases y) as [[L D]|[L D]]; rewrite L in *; rewrite D;
      destruct (InLeapYear_cases (y + 1)) as [[L' _]|[L' _]]; rewrite L';
      destruct Hm as [-> | ->]; eval_MonthStart; lia.
Qed.

Lemma setMonth_plus2 t :
  t + 59 * msPerDay <= setMonth t (getMonth t + 2) <= t + 62 * msPerDay.
Proof.
  rewrite setMonth_eq, getMonth_eq.
  unfold YearFromTime, MonthFromTime, DateFromTime.
  pose proof (MakeDay_plus2 (Day t)) as K.
  pose proof (MakeDate_Day t) as E.
  unfold MakeDate, msPerDay in *. lia.
Qed.

(** The 31st, one month on, when that month is shorter: the days left
    over carry into the month after. *)
Example addMonths_carries_days :
  addMonths (mkIsoDate 2025 1 31) 1 = mkIsoDate 2025 3 3
  /\ addMonths (mkIsoDate 2024 1 31) 1 = mkIsoDate 2024 3 2
  /\ addMonths (mkIsoDate 2025 11 30) 3 = mkIsoDate 2026 3 2.
Proof. repeat split; vm_compute; reflexivity. Qed.

Example toISOMonth_of_epoch :
  toISOMonth 0 = "1970-01" /\ toISOMonth 1738454400000 = "2025-02".
Proof. split; vm_compute; reflexivity. Qed.

End CalendarFacts.

Import CalendarFacts.

(** ** Early returns and the record store *)

Module HandlerFacts.

Lemma authenticate_inr {A : Type} h r (deny : Response A) td :
  authenticate h r deny = inr td <-> authorizes h r td.
Proof.
  unfold authenticate, authorizes, bind, orReturn, returnIf.
  destruct (bearerToken h) as [tok|];
    [|split; [discriminate|intros (t & E & _); discriminate]].
  destruct (parseToken tok) as [td'|] eqn:P.
  - destruct (String.eqb_spec (role td') r) as [E|E]; cbn.
    + split.
      * intros [= <-]. exists tok. auto.
      * intros (t & [= <-] & P' & _). rewrite P in P'. now inversion P'.
    + split; [discriminate|].
      intros (t & [= <-] & P' & R). rewrite P in P'. inversion P'. subst. contradiction.
  - split; [discriminate|]. intros (t & [= <-] & P' & _). rewrite P in P'. discriminate.
Qed.

Lemma authenticate_inl {A : Type} h r (deny : Response A) resp :
  success deny = false -> authenticate h r deny = inl resp -> success resp = false.
Proof.
  intros D. unfold authenticate, bind, orReturn, returnIf.
  destruct (bearerToken h); [|intros [= <-]; reflexivity].
  destruct (parseToken s); [|intros [= <-]; exact D].
  destruct (negb _); cbn; [intros [= <-]; exact D|discriminate].
Qed.

Lemma authenticate_ok {A : Type} h r (deny : Response A) td :
  authorizes h r td -> authenticate h r deny = inr td.
Proof. apply authenticate_inr. Qed.

Section Collections.
Context {A : Type} `{HasId A}.

Lemma findById_id (data : list A) id x :
  findById data id = Some x -> id = JStr (id_of x).
Proof.
  unfold findById. intros F. apply find_some in F as [_ F].
  destruct id; cbn in F; try discriminate.
  apply String.eqb_eq in F. now subst.
Qed.

Lemma findById_In (data : list A) id x : findById data id = Some x -> In x data.
Proof. unfold findById. intros F. now apply find_some in F. Qed.

Lemma findById_updateById (data : list A) id id' (f : A -> A) :
  (forall x, id_of (f x) = id_of x) ->
  findById (updateById data id f) id'
  = option_map (fun item => if strict_eq_str (id_of item) id then f item else item)
      (findById data id').
Proof.
  intros Hf. unfold findById, updateById.
  induction data as [|x rest IH]; cbn; [reflexivity|].
  destruct (strict_eq_str (id_of x) id) eqn:E.
  - rewrite Hf. destruct (strict_eq_str (id_of x) id'); [cbn; now rewrite E|exact IH].
  - destruct (strict_eq_str (id_of x) id'); [cbn; now rewrite E|exact IH].
Qed.

Lemma updateById_ids (data : list A) id (f : A -> A) :
  (forall x, id_of (f x) = id_of x) ->
  map id_of (updateById data id f) = map id_of data.
Proof.
  intros Hf. unfold updateById. rewrite map_map. apply map_ext.
  intros x. destruct (strict_eq_str (id_of x) id); auto.
Qed.

(** With distinct ids, an update by id changes one record at most. *)
Lemma filter_updateById_length (p : A -> bool) (data : list A) id (f : A -> A) :
  NoDup (map id_of data) ->
  (List.length (filter p (updateById data id f))
   <= List.length (filter p data) + 1)%nat.
Proof.
  unfold updateById. induction data as [|x rest IH]; cbn; intros ND; [lia|].
  inversion ND as [|? ? NI ND']; subst.
  destruct (strict_eq_str (id_of x) id) eqn:E.
  - assert (R : map (fun item => if strict_eq_str (id_of item) id then f item else item)
                  rest = rest).
    { rewrite <- (map_id rest) at 2. apply map_ext_in. intros y Hy.
      destruct (strict_eq_str (id_of y) id) eqn:E'; auto.
      exfalso. apply NI. destruct id; cbn in E, E'; try discriminate.
      apply String.eqb_eq in E, E'. rewrite E, <- E'. now apply in_map. }
    rewrite R. destruct (p (f x)), (p x); cbn; lia.
  - specialize (IH ND'). destruct (p x); cbn; lia.
Qed.

(** An update by id of records the filter rejects before and after. *)
Lemma filter_updateById_same (p : A -> bool) (data : list A) id (f : A -> A) :
  (forall x, In x data -> strict_eq_str (id_of x) id = true ->
             p x = false /\ p (f x) = false) ->
  filter p (updateById data id f) = filter p data.
Proof.
  unfold updateById. induction data as [|x rest IH]; cbn; intros Hp; [reflexivity|].
  rewrite IH by (intros y Hy; apply Hp; now right).
  destruct (strict_eq_str (id_of x) id) eqn:E; [|reflexivity].
  destruct (Hp x (or_introl eq_refl) E) as [-> ->]. reflexivity.
Qed.

Lemma findById_updateFirst (data : list A) id (f : A -> A) :
  (forall x, id_of (f x) = id_of x) ->
  findById (updateFirst (fun x => strict_eq_str (id_of x) id) f data) id
  = option_map f (findById data id).
Proof.
  intros Hf. unfold findById. induction data as [|x rest IH]; cbn; [reflexivity|].
  destruct (strict_eq_str (id_of x) id) eqn:E; cbn.
  - now rewrite Hf, E.
  - now rewrite E, IH.
Qed.

Lemma NoDup_ids_same (data : list A) x y :
  NoDup (map id_of data) -> In x data -> In y data -> id_of x = id_of y -> x = y.
Proof.
  induction data as [|z rest IH]; cbn; intros ND Hx Hy E; [contradiction|].
  inversion ND as [|? ? NI ND']; subst.
  destruct Hx as [-> | Hx], Hy as [-> | Hy]; auto.
  - exfalso. apply NI. rewrite E. now apply in_map.
  - exfalso. apply NI. rewrite <- E. now apply in_map.
Qed.

End Collections.

Section UpdateFirst.
Context {A : Type}.

Lemma find_updateFirst (p : A -> bool) (f : A -> A) (data : list A) :
  (forall x, p (f x) = p x) ->
  find p (updateFirst p f data) = option_map f (find p data).
Proof.
  intros Hp. induction data as [|x rest IH]; cbn; [reflexivity|].
  destruct (p x) eqn:E; cbn.
  - now rewrite Hp, E.
  - now rewrite E.
Qed.

Lemma updateFirst_twice (p : A -> bool) (f g : A -> A) (data : list A) :
  (forall x, p (f x) = p x) ->
  updateFirst p g (updateFirst p f data) = updateFirst p (fun x => g (f x)) data.
Proof.
  intros Hp. induction data as [|x rest IH]; cbn; [reflexivity|].
  destruct (p x) eqn:E; cbn.
  - now rewrite Hp, E.
  - now rewrite E, IH.
Qed.

Lemma updateFirst_ext (p : A -> bool) (f g : A -> A) (data : list A) x :
  find p data = Some x -> f x = g x -> updateFirst p f data = updateFirst p g data.
Proof.
  induction data as [|y rest IH]; cbn; [discriminate|].
  destruct (p y).
  - intros [= ->] E. now rewrite E.
  - intros F E. now rewrite (IH F E).
Qed.

Lemma find_app (p : A -> bool) (l1 l2 : list A) :
  find p (l1 ++ l2)
  = match find p l1 with Some x => Some x | None => find p l2 end.
Proof.
  induction l1 as [|x rest IH]; cbn; [reflexivity|]. destruct (p x); auto.
Qed.

End UpdateFirst.

(** One early return of a handler body. *)
Ltac handler_step :=
  match goal with
  | |- context [authenticate ?h ?r ?d] => destruct (authenticate h r d) eqn:?
  | |- context [orReturn ?e _] => destruct e eqn:?
  | |- context [returnIf ?c _] => destruct c eqn:?
  end; cbn [bind orReturn returnIf run fst snd success failure succeed].

(** The request was turned away at authentication. *)
Ltac auth_failed :=
  match goal with
  | H : authenticate _ _ _ = inl ?r |- _ =>
      let F := fresh "F" in
      assert (F : success r = false)
        by (eapply authenticate_inl; [|exact H]; reflexivity);
      intros; cbn [fst snd] in *; congruence
  end.

(** The next check of the handler body does not return. *)
Ltac pass_check :=
  match goal with
  | |- context [returnIf ?c _] =>
      let E := fresh "E" in
      assert (E : c = false)
        by (first [ apply Z.leb_gt; lia | apply Z.ltb_ge; lia
                  | rewrite Z.gtb_ltb; apply Z.ltb_ge; lia ]);
      rewrite E; cbn [returnIf bind]
  end.

Ltac handler_step_in H :=
  match type of H with
  | context [authenticate ?h ?r ?d] => destruct (authenticate h r d) eqn:?
  | context [orReturn ?e _] => destruct e eqn:?
  | context [returnIf ?c _] => destruct c eqn:?
  end; cbn [bind orReturn returnIf run fst snd success failure succeed] in H.

(** The stores of the scenario are reached from the empty store. *)
Lemma reachable_approved1 : reachable Scenario.approved1.
Proof.
  apply reachable_step with (db := Scenario.requested2);
    [|apply step_approveRental].
  apply reachable_step with (db := Scenario.requested1);
    [|apply step_requestRental].
  apply reachable_step with (db := Scenario.listed);
    [|apply step_requestRental].
  apply reachable_step with (db := emptyStore);
    [|apply step_createProperty].
  apply reachable_empty.
Defined.

Lemma reachable_approved2 : reachable Scenario.approved2.
Proof.
  apply reachable_step with (db := Scenario.approved1);
    [exact reachable_approved1|apply step_approveRental].
Defined.

End HandlerFacts.
Import HandlerFacts.

(** ** Approve or decline a rental *)

Module ApproveRentalFacts.

(** What a successful decision was checked against, and what it wrote. *)
Lemma approveRental_success env h body db :
  success (fst (approveRental env h body db)) = true ->
  exists tokenData rental property,
    authorizes h "landlord" tokenData
    /\ truthy (ar_rentalId body) = true
    /\ (ar_action body = JStr "approve" \/ ar_action body = JStr "decline")
    /\ findById (rentals db) (ar_rentalId body) = Some rental
    /\ findById (properties db) (JStr (Rental.propertyId rental)) = Some property
    /\ Property.ownerId property = userId tokenData
    /\ Rental.status rental = pending
    /\ snd (approveRental env h body db)
       = if strict_eq_str "approve" (ar_action body)
         then set_properties
                (updateById (properties db) (JStr (Property.id property))
                   (Property.with_available false))
                (set_rentals
                   (updateById (rentals db) (ar_rentalId body) (activate rental)) db)
         else set_rentals
                (updateById (rentals db) (ar_rentalId body)
                   (Rental.with_status cancelled)) db.
Proof.
  unfold approveRental.
  repeat (handler_step; try discriminate); try auth_failed.
  intros _.
  match goal with
  | Ha : authenticate _ _ _ = inr ?td, Hr : findById (rentals db) _ = Some ?r,
    Hp : findById (properties db) _ = Some ?p |- _ =>
      exists td, r, p; apply authenticate_inr in Ha
  end.
  repeat match goal with
         | H : _ || _ = false |- _ => apply orb_false_iff in H as [? ?]
         | H : negb _ = false |- _ => apply negb_false_iff in H
         end.
  repeat split; auto.
  - destruct (ar_action body) as [| |b|n|s|items|fields]; cbn [strict_eq_str negb andb] in *;
      try discriminate.
    destruct (String.eqb_spec "approve" s) as [<-|]; [now left|].
    destruct (String.eqb_spec "decline" s) as [<-|]; [now right|discriminate].
  - now apply String.eqb_eq.
  - match goal with
    | H : RentalStatus_eqb ?s pending = true |- _ =>
        destruct s; cbn in H; auto; discriminate
    end.
  - destruct (strict_eq_str "approve" (ar_action body)); reflexivity.
Qed.

Lemma approveRental_failure env h body db :
  success (fst (approveRental env h body db)) = false ->
  snd (approveRental env h body db) = db.
Proof.
  unfold approveRental.
  repeat (handler_step; try reflexivity).
  destruct (strict_eq_str "approve" (ar_action body)); cbn; discriminate.
Qed.

Lemma approveRental_conflict env h body db rental tokenData property :
  authorizes h "landlord" tokenData ->
  truthy (ar_rentalId body) = true ->
  ar_action body = JStr "approve" \/ ar_action body = JStr "decline" ->
  findById (rentals db) (ar_rentalId body) = Some rental ->
  findById (properties db) (JStr (Rental.propertyId rental)) = Some property ->
  Property.ownerId property = userId tokenData ->
  Rental.status rental <> pending ->
  approveRental env h body db = (notPending, db).
Proof.
  intros Ha Ht Hact Hr Hp Ho Hs. unfold approveRental.
  rewrite (authenticate_ok _ _ _ _ Ha). cbn [bind].
  rewrite Ht. assert (Tact : truthy (ar_action body) = true)
    by (destruct Hact as [-> | ->]; reflexivity).
  rewrite Tact. cbn [negb orb returnIf bind].
  assert (Eact : negb (strict_eq_str "approve" (ar_action body))
                 && negb (strict_eq_str "decline" (ar_action body)) = false)
    by (destruct Hact as [-> | ->]; reflexivity).
  rewrite Eact, Hr. cbn [returnIf orReturn bind]. rewrite Hp. cbn [orReturn bind].
  rewrite Ho, String.eqb_refl. cbn [negb returnIf bind].
  destruct (Rental.status rental); cbn; try reflexivity. contradiction.
Qed.

Lemma blocks_live t propertyId r :
  blocks t propertyId r = true -> isLiveStatus (Rental.status r) = true.
Proof.
  unfold blocks. destruct (negb _); [discriminate|].
  destruct (isLiveStatus _); [reflexivity|discriminate].
Qed.

Lemma blocks_property t propertyId r :
  blocks t propertyId r = true -> Rental.propertyId r = propertyId.
Proof.
  unfold blocks. destruct (String.eqb_spec (Rental.propertyId r) propertyId); auto.
  discriminate.
Qed.

Lemma blocks_other_property t propertyId r :
  Rental.propertyId r <> propertyId -> blocks t propertyId r = false.
Proof.
  intros N. destruct (blocks t propertyId r) eqn:B; auto.
  now apply blocks_property in B.
Qed.

(** The rentals that block a property are among the rentals in a live
    status. *)
Lemma activeRentalsOn_le_live t propertyId rs :
  (List.length (activeRentalsOn t propertyId rs)
   <= List.length (filter (fun r => isLiveStatus (Rental.status r)) rs))%nat.
Proof.
  unfold activeRentalsOn. induction rs as [|r rest IH]; cbn [filter]; [lia|].
  destruct (blocks t propertyId r) eqn:B.
  - apply blocks_live in B. rewrite B. cbn [List.length]. lia.
  - destruct (isLiveStatus (Rental.status r)); cbn [List.length]; lia.
Qed.

End ApproveRentalFacts.
Import ApproveRentalFacts.

(** [C6] A decision on a rental that is not pending is an error: the
    request fails and the store is as before; when the caller is the
    landlord who owns the property, the error is the state conflict
    "Rental is not pending"; and after a decision that succeeded, the same
    decision again is that error, not a success and not a change. *)
Theorem approveRental_not_pending :
  (forall env h body db rental,
      findById (rentals db) (ar_rentalId body) = Some rental ->
      Rental.status rental <> pending ->
      success (fst (approveRental env h body db)) = false
      /\ snd (approveRental env h body db) = db)
  /\ (forall env h body db rental tokenData property,
         authorizes h "landlord" tokenData ->
         truthy (ar_rentalId body) = true ->
         ar_action body = JStr "approve" \/ ar_action body = JStr "decline" ->
         findById (rentals db) (ar_rentalId body) = Some rental ->
         findById (properties db) (JStr (Rental.propertyId rental)) = Some property ->
         Property.ownerId property = userId tokenData ->
         Rental.status rental <> pending ->
         approveRental env h body db = (notPending, db))
  /\ (forall env env' h body db,
         success (fst (approveRental env h body db)) = true ->
         approveRental env' h body (snd (approveRental env h body db))
         = (notPending, snd (approveRental env h body db))).
Proof.
  split; [|split].
  - intros env h body db rental Hr Hs.
    assert (F : success (fst (approveRental env h body db)) = false).
    { destruct (success (fst (approveRental env h body db))) eqn:S; [|reflexivity].
      destruct (approveRental_success _ _ _ _ S)
        as (td & r & p & _ & _ & _ & Hr' & _ & _ & Hp & _).
      rewrite Hr in Hr'. inversion Hr'. subst. contradiction. }
    split; [exact F|now apply approveRental_failure].
  - intros. now apply approveRental_conflict with rental tokenData property.
  - intros env env' h body db S.
    destruct (approveRental_success _ _ _ _ S)
      as (td & r & p & Ha & Ht & Hact & Hr & Hp & Ho & Hs & ->).
    pose proof (findById_id _ _ _ Hr) as Eid.
    destruct Hact as [Eact | Eact]; rewrite Eact; cbn [strict_eq_str String.eqb Ascii.eqb Bool.eqb].
    + apply approveRental_conflict
        with (rental := activate r r) (tokenData := td)
             (property := Property.with_available false p); auto.
      * cbn [rentals set_properties set_rentals].
        rewrite findById_updateById by (intros; reflexivity).
        rewrite Hr. cbn [option_map]. rewrite Eid. cbn [strict_eq_str].
        change (id_of r) with (Rental.id r). now rewrite String.eqb_refl.
      * cbn [properties set_properties Rental.propertyId activate
               Rental.with_endDate Rental.with_status].
        rewrite findById_updateById by (intros; reflexivity).
        rewrite Hp. cbn [option_map strict_eq_str].
        change (id_of p) with (Property.id p). now rewrite String.eqb_refl.
      * cbn. discriminate.
    + apply approveRental_conflict
        with (rental := Rental.with_status cancelled r) (tokenData := td)
             (property := p); auto.
      * cbn [rentals set_rentals].
        rewrite findById_updateById by (intros; reflexivity).
        rewrite Hr. cbn [option_map]. rewrite Eid. cbn [strict_eq_str].
        change (id_of r) with (Rental.id r). now rewrite String.eqb_refl.
      * cbn. discriminate.
Qed.

Lemma approveRental_not_pending_witness :
  (success (fst (approveRental Scenario.env3 Scenario.landlord1
                   (Scenario.approval "r1") Scenario.occupied)) = false
   /\ snd (approveRental Scenario.env3 Scenario.landlord1
             (Scenario.approval "r1") Scenario.occupied) = Scenario.occupied)
  /\ approveRental Scenario.env3 Scenario.landlord1
       (Scenario.approval "r1") Scenario.occupied
     = (notPending, Scenario.occupied)
  /\ approveRental Scenario.env3 Scenario.landlord1
       (Scenario.approval Scenario.rentalId1) Scenario.approved1
     = (notPending, Scenario.approved1).
Proof.
  destruct approveRental_not_pending as (Fails & Conflict & Twice).
  split; [|split].
  - apply (Fails _ _ _ _ (Scenario.rental1 active)); [reflexivity|discriminate].
  - apply (Conflict _ _ _ _ (Scenario.rental1 active) (mkTokenData "l1" "landlord")
             (Scenario.property1 false)); try reflexivity.
    + exists "l1_landlord_1_x". repeat split.
    + now left.
    + discriminate.
  - exact (Twice Scenario.env3 Scenario.env3 Scenario.landlord1
             (Scenario.approval Scenario.rentalId1) Scenario.requested2 eq_refl).
Defined.




(** ** Request rental *)

Module RequestRentalFacts.

(** What an accepted request was checked against, and what it wrote. *)
Lemma requestRental_success env h body db :
  success (fst (requestRental env h body db)) = true ->
  exists tokenData property,
    authorizes h "tenant" tokenData
    /\ truthy (rr_propertyId body) = true
    /\ findById (properties db) (rr_propertyId body) = Some property
    /\ Property.available property = true
    /\ hasPendingRequest tokenData (rr_propertyId body) (rentals db) = false
    /\ openRentalCount tokenData (rentals db) < 20
    /\ durationInBounds
         (chosenDuration (rr_rentalDuration body) (defaultDuration property))
         (defaultDuration property) = true
    /\ exists endDate,
         rentalEndDate (rentalStartDate env property)
           (chosenDuration (rr_rentalDuration body) (defaultDuration property))
         = Some endDate
         /\ requestRental env h body db
            = (succeed
                 "Rental request submitted successfully. Waiting for landlord approval."
                 (newRental env tokenData property endDate),
               set_rentals
                 (rentals db ++ [newRental env tokenData property endDate]) db).
Proof.
  unfold requestRental.
  repeat (handler_step; try discriminate); try auth_failed.
  intros _.
  match goal with
  | Ha : authenticate _ _ _ = inr ?td, Hp : findById (properties db) _ = Some ?p |- _ =>
      exists td, p; apply authenticate_inr in Ha
  end.
  repeat match goal with
         | H : negb _ = false |- _ => apply negb_false_iff in H
         end.
  unfold hasPendingRequest, openRentalCount, durationInBounds.
  repeat match goal with
         | H : lessThan _ _ = false |- _ => rewrite H
         end.
  repeat split; auto; try lia.
  eexists. split; [eassumption|reflexivity].
Qed.

Lemma requestRental_failure env h body db :
  success (fst (requestRental env h body db)) = false ->
  snd (requestRental env h body db) = db.
Proof.
  unfold requestRental.
  repeat (handler_step; try reflexivity). discriminate.
Qed.

(** A request that meets every precondition is accepted. *)
Lemma requestRental_accepts env h body db tokenData property :
  authorizes h "tenant" tokenData ->
  truthy (rr_propertyId body) = true ->
  findById (properties db) (rr_propertyId body) = Some property ->
  Property.available property = true ->
  hasPendingRequest tokenData (rr_propertyId body) (rentals db) = false ->
  openRentalCount tokenData (rentals db) < 20 ->
  durationInBounds
    (chosenDuration (rr_rentalDuration body) (defaultDuration property))
    (defaultDuration property) = true ->
  rentalEndDate (rentalStartDate env property)
    (chosenDuration (rr_rentalDuration body) (defaultDuration property)) <> None ->
  success (fst (requestRental env h body db)) = true.
Proof.
  intros Ha Ht Hp Hav Hpend Hcount Hdur Hend. unfold requestRental.
  rewrite (authenticate_ok _ _ _ _ Ha). cbn [bind].
  rewrite Ht, Hp. cbn [negb returnIf orReturn bind]. rewrite Hav.
  cbn [negb returnIf bind].
  unfold hasPendingRequest in Hpend. rewrite Hpend. cbn [returnIf bind].
  unfold openRentalCount in Hcount.
  apply andb_prop in Hdur. destruct Hdur as [Hlow Hhigh].
  apply negb_true_iff in Hlow, Hhigh.
  repeat pass_check. rewrite Hlow, Hhigh. cbn [returnIf bind].
  destruct (rentalEndDate _ _); [reflexivity|congruence].
Qed.

Lemma authenticate_inl_cases {A : Type} h r (deny : Response A) resp :
  authenticate h r deny = inl resp -> resp = failure 401 "Unauthorized" \/ resp = deny.
Proof.
  unfold authenticate, bind, orReturn, returnIf.
  destruct (bearerToken h); [|intros [= <-]; auto].
  destruct (parseToken s); [|intros [= <-]; auto].
  destruct (negb _); cbn; [intros [= <-]; auto|discriminate].
Qed.

(** With the flag on, whatever the handler answers is not the
    availability rejection. *)
Lemma requestRental_flag_on env h body db property :
  findById (properties db) (rr_propertyId body) = Some property ->
  Property.available property = true ->
  fst (requestRental env h body db) <> notAvailable.
Proof.
  intros Hp Hav. unfold requestRental, notAvailable.
  destruct (authenticate h "tenant" (failure 403 "Only tenants can request rentals"))
    as [r|td] eqn:Ha; cbn [bind run fst].
  { destruct (authenticate_inl_cases _ _ _ _ Ha) as [-> | ->]; discriminate. }
  rewrite Hp. cbn [orReturn bind]. rewrite Hav. cbn [negb returnIf bind].
  unfold internalError.
  repeat (handler_step; try discriminate).
  all: destruct (defaultDuration property); discriminate.
Qed.

Lemma requestRental_flag_off env h body db property tokenData :
  findById (properties db) (rr_propertyId body) = Some property ->
  Property.available property = false ->
  authorizes h "tenant" tokenData ->
  truthy (rr_propertyId body) = true ->
  requestRental env h body db = (notAvailable, db).
Proof.
  intros Hp Hav Ha Ht. unfold requestRental.
  rewrite (authenticate_ok _ _ _ _ Ha). cbn [bind].
  rewrite Ht, Hp. cbn [negb returnIf orReturn bind]. rewrite Hav. reflexivity.
Qed.

End RequestRentalFacts.
Import RequestRentalFacts.

(** [C2] Request Rental tests the property's [available] flag.  With the
    flag off the request is rejected and nothing is written, for a tenant
    who names the property with the answer "Property is not available",
    whether or not a live rental blocks the property; with the flag on and
    no blocking rental the request passes the availability check, and is
    accepted when the other preconditions hold: no pending request of the
    tenant for the property, fewer than 20 open rentals of the tenant, a
    duration that passes the two tests on it, and an end date that can
    be computed from it. *)
Theorem requestRental_available_flag :
  forall env h body db property,
    findById (properties db) (rr_propertyId body) = Some property ->
    (Property.available property = false ->
     success (fst (requestRental env h body db)) = false
     /\ snd (requestRental env h body db) = db
     /\ (forall tokenData,
            authorizes h "tenant" tokenData ->
            truthy (rr_propertyId body) = true ->
            fst (requestRental env h body db) = notAvailable))
    /\ (Property.available property = true ->
        activeRentalsOn (now env) (Property.id property) (rentals db) = [] ->
        fst (requestRental env h body db) <> notAvailable
        /\ (forall tokenData,
               authorizes h "tenant" tokenData ->
               truthy (rr_propertyId body) = true ->
               hasPendingRequest tokenData (rr_propertyId body) (rentals db) = false ->
               openRentalCount tokenData (rentals db) < 20 ->
               durationInBounds
                 (chosenDuration (rr_rentalDuration body) (defaultDuration property))
                 (defaultDuration property) = true ->
               rentalEndDate (rentalStartDate env property)
                 (chosenDuration (rr_rentalDuration body) (defaultDuration property))
               <> None ->
               success (fst (requestRental env h body db)) = true)).
Proof.
  intros env h body db property Hp. split.
  - intros Hav.
    assert (F : success (fst (requestRental env h body db)) = false).
    { destruct (success (fst (requestRental env h body db))) eqn:S; [|reflexivity].
      destruct (requestRental_success _ _ _ _ S) as (td & p & _ & _ & Hp' & Hav' & _).
      rewrite Hp in Hp'. inversion Hp'. subst. congruence. }
    split; [exact F|split; [now apply requestRental_failure|]].
    intros td Ha Ht. now rewrite (requestRental_flag_off _ _ _ _ _ _ Hp Hav Ha Ht).
  - intros Hav _. split.
    + now apply requestRental_flag_on with property.
    + intros td Ha Ht Hpend Hcount Hdur Hend.
      now apply requestRental_accepts with td property.
Qed.

Lemma requestRental_available_flag_witness :
  fst (requestRental Scenario.env1 Scenario.tenant2 (Scenario.requestP1 (Some 2))
         Scenario.vacantUnlisted) = notAvailable
  /\ success (fst (requestRental Scenario.env1 Scenario.tenant1
                     (Scenario.request (Some 2)) Scenario.listed)) = true.
Proof.
  split.
  - refine (proj2 (proj2 (proj1
             (requestRental_available_flag Scenario.env1 Scenario.tenant2
                (Scenario.requestP1 (Some 2)) Scenario.vacantUnlisted
                (Scenario.property1 false) eq_refl) eq_refl))
             (mkTokenData "t2" "tenant") _ eq_refl).
    exists "t2_tenant_1_x". repeat split.
  - refine (proj2 (proj2
             (requestRental_available_flag Scenario.env1 Scenario.tenant1
                (Scenario.request (Some 2)) Scenario.listed _ eq_refl) eq_refl eq_refl)
             (mkTokenData "t1" "tenant") _ eq_refl eq_refl _ eq_refl _).
    + exists "t1_tenant_1_x". repeat split.
    + vm_compute. reflexivity.
    + vm_compute. discriminate.
Defined.

(** [C2] The Availability Resolver does not gate Request Rental: a request
    for a property whose flag is on is accepted while a live rental blocks
    the property, and a request for a property that nothing blocks is
    turned away as not available because its flag is off. *)
Lemma requestRental_not_gated_by_resolver :
  ~ resolverGatesRequest Scenario.env1 Scenario.tenant2 (Scenario.requestP1 (Some 2))
      Scenario.staleFlag
  /\ ~ resolverGatesRequest Scenario.env1 Scenario.tenant2 (Scenario.requestP1 (Some 2))
         Scenario.vacantUnlisted.
Proof.
  split; intros G.
  - destruct (G (Scenario.property1 true) eq_refl) as [Blocked _].
    assert (B : activeRentalsOn (now Scenario.env1) "p1" (rentals Scenario.staleFlag)
                <> []) by (vm_compute; discriminate).
    specialize (Blocked B). vm_compute in Blocked. discriminate Blocked.
  - destruct (G (Scenario.property1 false) eq_refl) as [_ Free].
    apply Free; reflexivity.
Qed.
(** ** The duration of a requested rental *)

Module DurationFacts.

(** A duration given as a number other than 0 is the one that is used. *)
Lemma chosenDuration_number d default :
  d <> 0 -> chosenDuration (JNum d) default = requested (JNum d).
Proof.
  intros Nz. unfold chosenDuration. cbn [truthy].
  destruct (Z.eqb_spec d 0); [contradiction|reflexivity].
Qed.

(** A duration of 0, like none, leaves the default. *)
Lemma chosenDuration_zero default :
  chosenDuration (JNum 0) default = byDefault default.
Proof. reflexivity. Qed.

(** The two tests on a number and a default that is a number. *)
Lemma durationInBounds_number d default :
  durationInBounds (requested (JNum d)) (Some default) = true
  <-> default <= d <= 24.
Proof.
  unfold durationInBounds. cbn [durationNumber ToNumber ToPrimitive lessThan].
  rewrite andb_true_iff, !negb_true_iff, !Z.ltb_ge. reflexivity.
Qed.

(** The end date of a duration given as a number, when there is one. *)
Lemma rentalEndDate_number start d endDate :
  rentalEndDate start (requested (JNum d)) = Some endDate ->
  endDate = addMonths start d.
Proof.
  unfold rentalEndDate, addMonths.
  cbn [monthPlus plusAsNumber ToPrimitive ToNumber option_map].
  unfold TimeClip. destruct (Z.abs _ <=? _); cbn [option_map]; congruence.
Qed.

Lemma rentalEndDate_default start n endDate :
  rentalEndDate start (byDefault (Some n)) = Some endDate ->
  endDate = addMonths start n.
Proof.
  unfold rentalEndDate, addMonths. cbn [monthPlus option_map].
  unfold TimeClip. destruct (Z.abs _ <=? _); cbn [option_map]; congruence.
Qed.

(** The default duration of a window whose two dates parse. *)
Lemma defaultDuration_window property s e :
  Property.startDate property = Some s ->
  Property.endDate property = Some e ->
  parseable s = true -> parseable e = true ->
  defaultDuration property = Some (monthsDiff (parse s) (parse e)).
Proof.
  intros Hs He Ps Pe. unfold defaultDuration, timeValue.
  rewrite Hs, He, Ps, Pe. reflexivity.
Qed.

(** A duration given as text is not added to the month but written after
    it: the request for "3" months against the two-month window from
    March 2025 is accepted, and its rental ends 21 months after its
    start. *)
Lemma requestRental_text_duration :
  let body := mkRequestRentalBody (JStr Scenario.propertyId1) (JStr "3") in
  exists rental,
    payload (fst (requestRental Scenario.env1 Scenario.tenant1 body Scenario.listed))
    = Some rental
    /\ Rental.startDate rental = Scenario.date 2025 3 1
    /\ Rental.endDate rental = Some (Scenario.date 2026 12 1)
    /\ Rental.endDate rental = Some (addMonths (Rental.startDate rental) 21).
Proof.
  eexists. split; [vm_compute; reflexivity|].
  repeat split.
Qed.

End DurationFacts.
Import DurationFacts.

(** [C3] For a property with an offer window whose two dates parse, a
    requested duration that is a whole number other than 0 and is below
    the window's month span or above 24 is rejected and nothing is
    written.  An accepted request with such a duration [d] appends one
    pending rental that starts on the window's start date when that is
    not in the past (else today) and ends [d] months later by [setMonth];
    on the calendar, for a start day up to the 28th, that is the same day
    of the month [d] months on.  A duration of 0 counts as none given:
    the window's month span is used. *)
Theorem requestRental_duration :
  forall env h body db property s e d,
    findById (properties db) (rr_propertyId body) = Some property ->
    Property.startDate property = Some s ->
    Property.endDate property = Some e ->
    parseable s = true ->
    parseable e = true ->
    rr_rentalDuration body = JNum d ->
    (d <> 0 ->
     (d < monthsDiff (parse s) (parse e) \/ d > 24 ->
      success (fst (requestRental env h body db)) = false
      /\ snd (requestRental env h body db) = db)
     /\ (success (fst (requestRental env h body db)) = true ->
         exists rental,
           payload (fst (requestRental env h body db)) = Some rental
           /\ snd (requestRental env h body db)
              = set_rentals (rentals db ++ [rental]) db
           /\ Rental.status rental = pending
           /\ Rental.monthlyRent rental = Property.rent property
           /\ Rental.startDate rental = (if now env <=? parse s then s else today env)
           /\ Rental.endDate rental = Some (addMonths (Rental.startDate rental) d)
           /\ (valid (Rental.startDate rental) ->
               day (Rental.startDate rental) <= 28 ->
               Rental.endDate rental
               = Some (civilAddMonths (Rental.startDate rental) d))))
    /\ (d = 0 ->
        success (fst (requestRental env h body db)) = true ->
        exists rental,
          payload (fst (requestRental env h body db)) = Some rental
          /\ Rental.endDate rental
             = Some (addMonths (Rental.startDate rental)
                       (monthsDiff (parse s) (parse e)))).
Proof.
  intros env h body db property s e d Hp Hs He Ps Pe Hd.
  pose proof (defaultDuration_window _ _ _ Hs He Ps Pe) as Def.
  assert (Start : rentalStartDate env property
                  = if now env <=? parse s then s else today env).
  { unfold rentalStartDate, timeValue. rewrite Hs, Ps. reflexivity. }
  split.
  - intros Nz.
    assert (Ch : chosenDuration (rr_rentalDuration body) (defaultDuration property)
                 = requested (JNum d))
      by (rewrite Hd; now apply chosenDuration_number).
    split.
    + intros Bad.
      assert (F : success (fst (requestRental env h body db)) = false).
      { destruct (success (fst (requestRental env h body db))) eqn:S; [|reflexivity].
        destruct (requestRental_success _ _ _ _ S)
          as (td & p & _ & _ & Hp' & _ & _ & _ & Hdur & _).
        rewrite Hp in Hp'. inversion Hp'; subst p. rewrite Ch, Def in Hdur.
        apply durationInBounds_number in Hdur. lia. }
      split; [exact F|now apply requestRental_failure].
    + intros S.
      destruct (requestRental_success _ _ _ _ S)
        as (td & p & _ & _ & Hp' & _ & _ & _ & _ & endDate & End & E).
      rewrite Hp in Hp'. inversion Hp'; subst p. rewrite E.
      rewrite Ch in End. apply rentalEndDate_number in End. subst endDate.
      exists (requestedRental env td property d).
      cbn [fst snd payload succeed].
      split; [reflexivity|]. split; [reflexivity|].
      cbn [requestedRental newRental Rental.status Rental.monthlyRent
             Rental.startDate Rental.endDate].
      rewrite Start.
      repeat split; auto.
      intros V D28. now rewrite addMonths_civil.
  - intros -> S.
    destruct (requestRental_success _ _ _ _ S)
      as (td & p & _ & _ & Hp' & _ & _ & _ & _ & endDate & End & E).
    rewrite Hp in Hp'. inversion Hp'; subst p.
    rewrite Hd, chosenDuration_zero, Def in End.
    apply rentalEndDate_default in End. subst endDate.
    exists (requestedRental env td property (monthsDiff (parse s) (parse e))).
    split.
    + rewrite E. reflexivity.
    + cbn [requestedRental newRental Rental.endDate Rental.startDate]. reflexivity.
Qed.

Lemma requestRental_duration_witness :
  (success (fst (requestRental Scenario.env1 Scenario.tenant1
                   (Scenario.request (Some 1)) Scenario.listed)) = false
   /\ snd (requestRental Scenario.env1 Scenario.tenant1
             (Scenario.request (Some 1)) Scenario.listed) = Scenario.listed)
  /\ exists rental,
       payload (fst (requestRental Scenario.env1 Scenario.tenant1
                       (Scenario.request (Some 2)) Scenario.listed)) = Some rental
       /\ Rental.status rental = pending
       /\ Rental.startDate rental = Scenario.date 2025 3 1
       /\ Rental.endDate rental = Some (Scenario.date 2025 5 1).
Proof.
  assert (Hp : findById (properties Scenario.listed) (JStr Scenario.propertyId1)
               = Some (Property.mk Scenario.propertyId1 "l1" "12 Mirpur Road" 1000 true
                         (Some "") (Some (Scenario.date 2025 3 1))
                         (Some (Scenario.date 2025 5 1)) (Some (now Scenario.env1))))
    by reflexivity.
  split.
  - refine (proj1 (proj1
             (requestRental_duration Scenario.env1 Scenario.tenant1
                (Scenario.request (Some 1)) Scenario.listed _ _ _ 1
                Hp eq_refl eq_refl eq_refl eq_refl eq_refl) _) _).
    + discriminate.
    + left. vm_compute. reflexivity.
  - destruct (proj2 (proj1
             (requestRental_duration Scenario.env1 Scenario.tenant1
                (Scenario.request (Some 2)) Scenario.listed _ _ _ 2
                Hp eq_refl eq_refl eq_refl eq_refl eq_refl) ltac:(discriminate)) eq_refl)
      as (rental & Pay & _ & St & _ & Start & _ & Civil).
    exists rental. split; [exact Pay|]. split; [exact St|].
    assert (Start' : Rental.startDate rental = Scenario.date 2025 3 1)
      by (rewrite Start; reflexivity).
    split; [exact Start'|].
    rewrite Civil; rewrite Start'.
    + reflexivity.
    + vm_compute. repeat split; discriminate.
    + vm_compute. discriminate.
Defined.

(** [C3] A requested duration of 0 is below every window's month span and
    yet the request is accepted: against the two-month window a rental of
    two months is created. *)
Lemma requestRental_zero_duration_accepted :
  ~ durationRule Scenario.env1 Scenario.tenant1 (Scenario.request (Some 0))
      Scenario.listed.
Proof.
  intros R.
  assert (Hp : findById (properties Scenario.listed) (JStr Scenario.propertyId1)
               = Some (Property.mk Scenario.propertyId1 "l1" "12 Mirpur Road" 1000 true
                         (Some "") (Some (Scenario.date 2025 3 1))
                         (Some (Scenario.date 2025 5 1)) (Some (now Scenario.env1))))
    by reflexivity.
  specialize (R _ _ _ 0 Hp eq_refl eq_refl eq_refl).
  assert (Short : 0 < monthsDiff (parse (Scenario.date 2025 3 1))
                        (parse (Scenario.date 2025 5 1)) \/ 0 > 24)
    by (left; vm_compute; reflexivity).
  specialize (R Short). vm_compute in R. discriminate R.
Qed.

(** ** Request termination *)

Module TerminationFacts.

Lemma twoMonthsFromNow_bounds env :
  now env + 5097600000 <= twoMonthsFromNow env <= now env + 5356800000.
Proof.
  unfold twoMonthsFromNow. pose proof (setMonth_plus2 (now env)) as Two.
  unfold msPerDay in Two. lia.
Qed.

Lemma parse_dateAfterDays_bounds t n :
  t + n * 86400000 - 86400000 < parse (dateAfterDays t n) <= t + n * 86400000.
Proof.
  rewrite parse_dateAfterDays.
  pose proof (MakeDate_Day t) as Now.
  pose proof (TimeWithinDay_range t) as Tod.
  unfold MakeDate, msPerDay in *. lia.
Qed.

Lemma requestTermination_success env h body db :
  success (fst (requestTermination env h body db)) = true ->
  exists tokenData rental requestedEndDate,
    authorizes h "tenant" tokenData
    /\ truthy (tb_rentalId body) = true
    /\ tb_requestedEndDate body = Some requestedEndDate
    /\ findById (rentals db) (tb_rentalId body) = Some rental
    /\ Rental.tenantId rental = userId tokenData
    /\ Rental.status rental = active
    /\ hasPendingTermination (tb_rentalId body) (rental_terminations db) = false
    /\ (parseable requestedEndDate = true ->
        twoMonthsFromNow env <= parse requestedEndDate)
    /\ requestTermination env h body db
       = (succeed "Termination request submitted successfully"
            (requestedTermination env tokenData rental requestedEndDate (tb_reason body)),
          set_rentals
            (updateFirst (fun r => strict_eq_str (Rental.id r) (tb_rentalId body))
               (terminatingRental requestedEndDate) (rentals db))
            (set_rental_terminations
               (rental_terminations db
                ++ [requestedTermination env tokenData rental requestedEndDate
                      (tb_reason body)])
               db)).
Proof.
  unfold requestTermination.
  repeat (handler_step; try discriminate); try auth_failed.
  intros _.
  match goal with
  | Ha : authenticate _ _ _ = inr ?td, Hr : findById (rentals db) _ = Some ?r,
    Hd : tb_requestedEndDate body = Some ?d |- _ =>
      exists td, r, d; apply authenticate_inr in Ha
  end.
  repeat match goal with
         | H : negb _ = false |- _ => apply negb_false_iff in H
         end.
  unfold hasPendingTermination.
  repeat split; auto; try lia.
  - now apply String.eqb_eq.
  - match goal with
    | H : RentalStatus_eqb ?s active = true |- _ =>
        destruct s; cbn in H; auto; discriminate
    end.
  - intros P.
    match goal with
    | H : lessThan (timeValue _) _ = false |- _ =>
        unfold timeValue in H; rewrite P in H; cbn [lessThan] in H;
        apply Z.ltb_ge in H; exact H
    end.
Qed.

Lemma requestTermination_failure env h body db :
  success (fst (requestTermination env h body db)) = false ->
  snd (requestTermination env h body db) = db.
Proof.
  unfold requestTermination.
  repeat (handler_step; try reflexivity). discriminate.
Qed.

Lemma requestTermination_accepts env h body db tokenData rental requestedEndDate :
  authorizes h "tenant" tokenData ->
  truthy (tb_rentalId body) = true ->
  tb_requestedEndDate body = Some requestedEndDate ->
  findById (rentals db) (tb_rentalId body) = Some rental ->
  Rental.tenantId rental = userId tokenData ->
  Rental.status rental = active ->
  hasPendingTermination (tb_rentalId body) (rental_terminations db) = false ->
  (parseable requestedEndDate = true ->
   twoMonthsFromNow env <= parse requestedEndDate) ->
  success (fst (requestTermination env h body db)) = true.
Proof.
  intros Ha Ht Hd Hr Ho Hs Hpend Hn. unfold requestTermination.
  rewrite (authenticate_ok _ _ _ _ Ha). cbn [bind].
  rewrite Ht, Hd, Hr. cbn [negb returnIf orReturn bind].
  rewrite Ho, String.eqb_refl, Hs. cbn [negb RentalStatus_eqb returnIf bind].
  unfold hasPendingTermination in Hpend. rewrite Hpend. cbn [returnIf bind].
  assert (E : lessThan (timeValue requestedEndDate) (Some (twoMonthsFromNow env))
              = false).
  { unfold timeValue. destruct (parseable requestedEndDate); [|reflexivity].
    cbn [lessThan]. apply Z.ltb_ge. now apply Hn. }
  rewrite E. reflexivity.
Qed.

End TerminationFacts.
Import TerminationFacts.

(** [C4] A termination request whose end date is a date earlier than two
    months from now ([setMonth] of now by two) is rejected and nothing is
    written.  An accepted request is for an active rental; it appends one
    pending termination for that rental with the requested end date, and
    at once sets the rental to terminating with the requested end date as
    its end date.  A request by the rental's tenant for an active rental
    with no pending termination is accepted when its end date is at least
    two months away, and also when its end date does not parse as a date:
    the comparison is then false, and the text is stored as given.  A date
    45 days after today is always too early and a date 65 days after
    today never is. *)
Theorem requestTermination_notice :
  forall env h body db requestedEndDate,
    tb_requestedEndDate body = Some requestedEndDate ->
    (parseable requestedEndDate = true ->
     parse requestedEndDate < twoMonthsFromNow env ->
     success (fst (requestTermination env h body db)) = false
     /\ snd (requestTermination env h body db) = db)
    /\ (success (fst (requestTermination env h body db)) = true ->
        exists rental termination,
          findById (rentals db) (tb_rentalId body) = Some rental
          /\ Rental.status rental = active
          /\ payload (fst (requestTermination env h body db)) = Some termination
          /\ RentalTermination.status termination = request_pending
          /\ RentalTermination.rentalId termination = Rental.id rental
          /\ RentalTermination.requestedEndDate termination = requestedEndDate
          /\ rental_terminations (snd (requestTermination env h body db))
             = (rental_terminations db ++ [termination])%list
          /\ rentals (snd (requestTermination env h body db))
             = updateFirst (fun r => strict_eq_str (Rental.id r) (tb_rentalId body))
                 (terminatingRental requestedEndDate) (rentals db)
          /\ findById (rentals (snd (requestTermination env h body db)))
               (tb_rentalId body)
             = Some (Rental.mk (Rental.id rental) (Rental.tenantId rental)
                       (Rental.landlordId rental) (Rental.propertyId rental)
                       (Rental.startDate rental) (Some requestedEndDate) terminating
                       (Rental.monthlyRent rental) (Rental.createdAt rental))
          /\ properties (snd (requestTermination env h body db)) = properties db)
    /\ (forall tokenData rental,
           authorizes h "tenant" tokenData ->
           truthy (tb_rentalId body) = true ->
           findById (rentals db) (tb_rentalId body) = Some rental ->
           Rental.tenantId rental = userId tokenData ->
           Rental.status rental = active ->
           hasPendingTermination (tb_rentalId body) (rental_terminations db) = false ->
           (parseable requestedEndDate = true ->
            twoMonthsFromNow env <= parse requestedEndDate) ->
           success (fst (requestTermination env h body db)) = true)
    /\ (requestedEndDate = dateAfterDays (now env) 45 ->
        success (fst (requestTermination env h body db)) = false)
    /\ (requestedEndDate = dateAfterDays (now env) 65 ->
        parseable requestedEndDate = true
        /\ twoMonthsFromNow env <= parse requestedEndDate).
Proof.
  intros env h body db requestedEndDate Hd.
  assert (Early : parseable requestedEndDate = true ->
                  parse requestedEndDate < twoMonthsFromNow env ->
                  success (fst (requestTermination env h body db)) = false).
  { intros P Lt.
    destruct (success (fst (requestTermination env h body db))) eqn:S; [|reflexivity].
    destruct (requestTermination_success _ _ _ _ S)
      as (td & r & d & _ & _ & Hd' & _ & _ & _ & _ & Ge & _).
    rewrite Hd in Hd'. inversion Hd'; subst d. specialize (Ge P). lia. }
  pose proof (twoMonthsFromNow_bounds env) as Two.
  split; [|split; [|split; [|split]]].
  - intros P Lt. split; [now apply Early|].
    now apply requestTermination_failure, Early.
  - intros S.
    destruct (requestTermination_success _ _ _ _ S)
      as (td & r & d & _ & _ & Hd' & Hr & _ & Hs & _ & _ & E).
    rewrite Hd in Hd'. inversion Hd'; subst d. clear Hd'.
    exists r, (requestedTermination env td r requestedEndDate (tb_reason body)).
    rewrite E. cbn [fst snd payload succeed rentals rental_terminations properties
                     set_rentals set_rental_terminations].
    repeat split; auto.
    transitivity (option_map (terminatingRental requestedEndDate)
                    (findById (rentals db) (tb_rentalId body))).
    + apply (findById_updateFirst (rentals db) (tb_rentalId body)
               (terminatingRental requestedEndDate)). reflexivity.
    + rewrite Hr. reflexivity.
  - intros td r Ha Ht Hr Ho Hs Hpend Ge.
    now apply requestTermination_accepts with td r requestedEndDate.
  - intros ->. apply Early; [apply parseable_toISODate|].
    pose proof (parse_dateAfterDays_bounds (now env) 45). lia.
  - intros ->. split; [apply parseable_toISODate|].
    pose proof (parse_dateAfterDays_bounds (now env) 65). lia.
Qed.

Lemma requestTermination_notice_witness :
  success (fst (requestTermination Scenario.env3 Scenario.tenant1
                  (Scenario.terminate (Scenario.date 2025 4 1))
                  Scenario.occupied)) = false
  /\ success (fst (requestTermination Scenario.env3 Scenario.tenant1
                     (Scenario.terminate (Scenario.date 2025 4 2))
                     Scenario.occupied)) = true
  /\ success (fst (requestTermination Scenario.env3 Scenario.tenant1
                     (Scenario.terminate (Scenario.date 2025 13 1))
                     Scenario.occupied)) = true.
Proof.
  split; [|split].
  - refine (proj1 (proj1
             (requestTermination_notice Scenario.env3 Scenario.tenant1
                (Scenario.terminate (Scenario.date 2025 4 1))
                Scenario.occupied _ eq_refl) eq_refl _)).
    vm_compute. reflexivity.
  - refine (proj1 (proj2 (proj2
             (requestTermination_notice Scenario.env3 Scenario.tenant1
                (Scenario.terminate (Scenario.date 2025 4 2))
                Scenario.occupied _ eq_refl)))
             (mkTokenData "t1" "tenant") (Scenario.rental1 active)
             _ eq_refl eq_refl eq_refl eq_refl eq_refl _).
    + exists "t1_tenant_1_x". repeat split.
    + intros _. vm_compute. discriminate.
  - refine (proj1 (proj2 (proj2
             (requestTermination_notice Scenario.env3 Scenario.tenant1
                (Scenario.terminate (Scenario.date 2025 13 1))
                Scenario.occupied _ eq_refl)))
             (mkTokenData "t1" "tenant") (Scenario.rental1 active)
             _ eq_refl eq_refl eq_refl eq_refl eq_refl _).
    + exists "t1_tenant_1_x". repeat split.
    + intros P. vm_compute in P. discriminate P.
Defined.

(** ** Approve or reject a termination *)

Module DecideTerminationFacts.

Lemma with_landlordId_same t l :
  RentalTermination.landlordId t = l -> RentalTermination.with_landlordId l t = t.
Proof. destruct t. cbn. now intros ->. Qed.

(** What a decision on a termination was checked against, and what it
    wrote. *)
Lemma approveTermination_success env h body db :
  success (fst (approveTermination env h body db)) = true ->
  exists tokenData approve termination rental property,
    authorizes h "landlord" tokenData
    /\ truthy (at_terminationId body) = true
    /\ at_approve body = JBool approve
    /\ findById (rental_terminations db) (at_terminationId body) = Some termination
    /\ findById (rentals db) (JStr (RentalTermination.rentalId termination))
       = Some rental
    /\ findById (properties db) (JStr (Rental.propertyId rental)) = Some property
    /\ Property.ownerId property = userId tokenData
    /\ RentalTermination.status termination = request_pending
    /\ snd (approveTermination env h body db)
       = set_properties (properties db)
           (set_rentals
              (updateFirst
                 (fun r => String.eqb (Rental.id r)
                             (RentalTermination.rentalId termination))
                 (afterTermination approve termination) (rentals db))
              (set_rental_terminations
                 (updateFirst
                    (fun t => strict_eq_str (RentalTermination.id t)
                                (at_terminationId body))
                    (decidedTermination env property approve)
                    (rental_terminations db))
                 db)).
Proof.
  unfold approveTermination.
  repeat (handler_step; try discriminate); try auth_failed.
  intros _.
  match goal with
  | Ha : authenticate _ _ _ = inr ?td,
    Ht : findById (rental_terminations db) _ = Some ?t,
    Hr : findById (rentals db) _ = Some ?r,
    Hp : findById (properties db) _ = Some ?p,
    Hb : match at_approve body with _ => _ end = Some ?b |- _ =>
      exists td, b, t, r, p; apply authenticate_inr in Ha;
      rename t into termination; rename p into property; rename b into approve;
      rename Ht into Hterm; rename Hb into Happ
  end.
  repeat match goal with
         | H : negb _ = false |- _ => apply negb_false_iff in H
         end.
  repeat split; auto.
  - destruct (at_approve body); try discriminate. now inversion Happ.
  - now apply String.eqb_eq.
  - match goal with
    | H : RequestStatus_eqb ?s request_pending = true |- _ =>
        destruct s; cbn in H; auto; discriminate
    end.
  - cbn [snd]. f_equal. f_equal.
    + unfold afterTermination. destruct approve; reflexivity.
    + f_equal.
      set (isT := fun t => strict_eq_str (RentalTermination.id t) (at_terminationId body)).
      assert (Ft : find isT (rental_terminations db) = Some termination) by exact Hterm.
      match goal with
      | |- updateFirst isT ?g (if ?c then _ else _) = _ =>
          destruct c eqn:C
      end.
      * rewrite updateFirst_twice by (intros; reflexivity).
        apply updateFirst_ext with termination; [exact Ft|].
        destruct termination; reflexivity.
      * apply updateFirst_ext with termination; [exact Ft|].
        apply orb_false_iff in C as [_ C]. apply negb_false_iff, String.eqb_eq in C.
        destruct termination; cbn in *. now rewrite C.
Qed.

Lemma approveTermination_failure env h body db :
  success (fst (approveTermination env h body db)) = false ->
  snd (approveTermination env h body db) = db.
Proof.
  unfold approveTermination.
  repeat (handler_step; try reflexivity). discriminate.
Qed.

Lemma approveTermination_accepts env h body db tokenData approve termination
    rental property :
  authorizes h "landlord" tokenData ->
  truthy (at_terminationId body) = true ->
  at_approve body = JBool approve ->
  findById (rental_terminations db) (at_terminationId body) = Some termination ->
  findById (rentals db) (JStr (RentalTermination.rentalId termination)) = Some rental ->
  findById (properties db) (JStr (Rental.propertyId rental)) = Some property ->
  Property.ownerId property = userId tokenData ->
  RentalTermination.status termination = request_pending ->
  success (fst (approveTermination env h body db)) = true.
Proof.
  intros Ha Ht Happ Hterm Hr Hp Ho Hs. unfold approveTermination.
  rewrite (authenticate_ok _ _ _ _ Ha). cbn [bind].
  rewrite Ht, Happ, Hterm. cbn [negb returnIf orReturn bind].
  rewrite Hr. cbn [orReturn bind]. rewrite Hp. cbn [orReturn bind].
  rewrite Ho, String.eqb_refl, Hs. reflexivity.
Qed.

End DecideTerminationFacts.
Import DecideTerminationFacts.

(** [C5] A decision on a termination succeeds only on a pending
    termination, and a decision by the landlord who owns the property on a
    pending termination succeeds.  Its effects: the termination, with its
    landlord set to the property's owner and its update time to now,
    becomes approved or rejected; on approval the rental becomes completed
    with the termination's requested end date as its end date, on
    rejection it becomes active with the end date it had; every other
    termination and rental, every property, and the other collections are
    as before. *)
Theorem approveTermination_effects :
  forall env h body db,
    (success (fst (approveTermination env h body db)) = true ->
     exists approve termination rental property,
       at_approve body = JBool approve
       /\ findById (rental_terminations db) (at_terminationId body) = Some termination
       /\ RentalTermination.status termination = request_pending
       /\ findById (rentals db) (JStr (RentalTermination.rentalId termination))
          = Some rental
       /\ findById (properties db) (JStr (Rental.propertyId rental)) = Some property
       /\ rental_terminations (snd (approveTermination env h body db))
          = updateFirst
              (fun t => strict_eq_str (RentalTermination.id t) (at_terminationId body))
              (decidedTermination env property approve) (rental_terminations db)
       /\ findById (rental_terminations (snd (approveTermination env h body db)))
            (at_terminationId body)
          = Some (decidedTermination env property approve termination)
       /\ RentalTermination.status (decidedTermination env property approve termination)
          = (if approve then approved else rejected)
       /\ rentals (snd (approveTermination env h body db))
          = updateFirst
              (fun r => String.eqb (Rental.id r) (RentalTermination.rentalId termination))
              (afterTermination approve termination) (rentals db)
       /\ findById (rentals (snd (approveTermination env h body db)))
            (JStr (RentalTermination.rentalId termination))
          = Some (Rental.mk (Rental.id rental) (Rental.tenantId rental)
                    (Rental.landlordId rental) (Rental.propertyId rental)
                    (Rental.startDate rental)
                    (if approve
                     then Some (RentalTermination.requestedEndDate termination)
                     else Rental.endDate rental)
                    (if approve then completed else active)
                    (Rental.monthlyRent rental) (Rental.createdAt rental))
       /\ properties (snd (approveTermination env h body db)) = properties db
       /\ users (snd (approveTermination env h body db)) = users db
       /\ payments (snd (approveTermination env h body db)) = payments db
       /\ rental_renewals (snd (approveTermination env h body db)) = rental_renewals db)
    /\ (success (fst (approveTermination env h body db)) = false ->
        snd (approveTermination env h body db) = db)
    /\ (forall tokenData approve termination rental property,
           authorizes h "landlord" tokenData ->
           truthy (at_terminationId body) = true ->
           at_approve body = JBool approve ->
           findById (rental_terminations db) (at_terminationId body) = Some termination ->
           findById (rentals db) (JStr (RentalTermination.rentalId termination))
           = Some rental ->
           findById (properties db) (JStr (Rental.propertyId rental)) = Some property ->
           Property.ownerId property = userId tokenData ->
           RentalTermination.status termination = request_pending ->
           success (fst (approveTermination env h body db)) = true).
Proof.
  intros env h body db. split; [|split].
  - intros S.
    destruct (approveTermination_success _ _ _ _ S)
      as (td & approve & t & r & p & _ & _ & Happ & Ht & Hr & Hp & _ & Hs & E).
    exists approve, t, r, p. rewrite E.
    cbn [rental_terminations rentals properties users payments rental_renewals
           set_properties set_rentals set_rental_terminations].
    repeat split; auto.
    + transitivity (option_map (decidedTermination env p approve)
                      (findById (rental_terminations db) (at_terminationId body))).
      * apply (findById_updateFirst (rental_terminations db) (at_terminationId body)
                 (decidedTermination env p approve)). reflexivity.
      * now rewrite Ht.
    + transitivity (option_map (afterTermination approve t)
                      (findById (rentals db) (JStr (RentalTermination.rentalId t)))).
      * apply (findById_updateFirst (rentals db) (JStr (RentalTermination.rentalId t))
                 (afterTermination approve t)).
        intros x. unfold afterTermination. destruct approve; reflexivity.
      * rewrite Hr. unfold afterTermination. destruct approve; reflexivity.
  - apply approveTermination_failure.
  - intros. now apply approveTermination_accepts
      with tokenData approve termination rental property.
Qed.

Lemma approveTermination_effects_witness :
  success (fst (approveTermination Scenario.env3 Scenario.landlord1
                  (Scenario.decide false) Scenario.terminationRequested)) = true
  /\ snd (approveTermination Scenario.env3 Scenario.tenant1
            (Scenario.decide true) Scenario.terminationRequested)
     = Scenario.terminationRequested
  /\ exists rental,
       findById (rentals (snd (approveTermination Scenario.env3 Scenario.landlord1
                                 (Scenario.decide true) Scenario.terminationRequested)))
         (JStr "r1") = Some rental
       /\ Rental.status rental = completed
       /\ Rental.endDate rental = Some (Scenario.date 2025 4 2).
Proof.
  split; [|split].
  - refine (proj2 (proj2
             (approveTermination_effects Scenario.env3 Scenario.landlord1
                (Scenario.decide false) Scenario.terminationRequested))
             (mkTokenData "l1" "landlord") false Scenario.termination1
             (terminatingRental (Scenario.date 2025 4 2) (Scenario.rental1 active))
             (Scenario.property1 false) _ eq_refl eq_refl eq_refl eq_refl eq_refl
             eq_refl eq_refl).
    exists "l1_landlord_1_x". repeat split.
  - exact (proj1 (proj2
             (approveTermination_effects Scenario.env3 Scenario.tenant1
                (Scenario.decide true) Scenario.terminationRequested)) eq_refl).
  - destruct (proj1
             (approveTermination_effects Scenario.env3 Scenario.landlord1
                (Scenario.decide true) Scenario.terminationRequested) eq_refl)
      as (approve & t & r & p & Happ & Ht & _ & Hr & _ & _ & _ & _ & _ & Hr' & _).
    injection Happ as <-.
    assert (E1 : findById (rental_terminations Scenario.terminationRequested)
                   (JStr Scenario.terminationId1) = Some Scenario.termination1)
      by (vm_compute; reflexivity).
    unfold Scenario.decide in Ht. cbn [at_terminationId] in Ht.
    rewrite E1 in Ht.
    injection Ht as <-.
    assert (E2 : findById (rentals Scenario.terminationRequested) (JStr "r1")
                 = Some (terminatingRental (Scenario.date 2025 4 2)
                           (Scenario.rental1 active)))
      by (vm_compute; reflexivity).
    change (RentalTermination.rentalId Scenario.termination1) with "r1" in Hr.
    rewrite E2 in Hr.
    injection Hr as <-.
    eexists. split; [exact Hr'|]. split; reflexivity.
Defined.

(** ** Request renewal *)

Module RenewalFacts.

Lemma requestRenewal_success env h body db :
  success (fst (requestRenewal env h body db)) = true ->
  exists tokenData rental n renewal,
    authorizes h "tenant" tokenData
    /\ rb_renewalDuration body = JNum n
    /\ 1 <= n <= 24
    /\ findById (rentals db) (rb_rentalId body) = Some rental
    /\ Rental.tenantId rental = userId tokenData
    /\ Rental.status rental = active
    /\ hasPendingRenewal (rb_rentalId body) (rental_renewals db) = false
    /\ currentEndDate rental <> None
    /\ payload (fst (requestRenewal env h body db)) = Some renewal
    /\ RentalRenewal.status renewal = request_pending
    /\ RentalRenewal.renewalDuration renewal = n
    /\ RentalRenewal.rentalId renewal = Rental.id rental
    /\ snd (requestRenewal env h body db)
       = set_rentals
           (updateFirst (fun r => strict_eq_str (Rental.id r) (rb_rentalId body))
              (Rental.with_status renewal_pending) (rentals db))
           (set_rental_renewals (rental_renewals db ++ [renewal]) db).
Proof.
  unfold requestRenewal.
  repeat (handler_step; try discriminate); try auth_failed.
  intros _.
  match goal with
  | Ha : authenticate _ _ _ = inr ?td, Hr : findById (rentals db) _ = Some ?r,
    Hn : match rb_renewalDuration body with _ => _ end = Some ?n |- _ =>
      exists td, r, n; apply authenticate_inr in Ha; rename Hn into Hdur
  end.
  eexists.
  repeat match goal with
         | H : negb _ = false |- _ => apply negb_false_iff in H
         end.
  unfold hasPendingRenewal.
  destruct (rb_renewalDuration body) as [| |b|m|s|items|fields]; try discriminate.
  destruct ((m <? 1) || (m >? 24)) eqn:R; [discriminate|].
  inversion Hdur; subst m. apply orb_false_iff in R as [R1 R2].
  apply Z.ltb_ge in R1. rewrite Z.gtb_ltb in R2. apply Z.ltb_ge in R2.
  cbn [fst snd payload succeed].
  repeat split; auto; try congruence.
  - now apply String.eqb_eq.
  - match goal with
    | H : RentalStatus_eqb ?s active = true |- _ =>
        destruct s; cbn in H; auto; discriminate
    end.
Qed.

Lemma requestRenewal_failure env h body db :
  success (fst (requestRenewal env h body db)) = false ->
  snd (requestRenewal env h body db) = db.
Proof.
  unfold requestRenewal.
  repeat (handler_step; try reflexivity). discriminate.
Qed.

Lemma requestRenewal_accepts env h body db tokenData rental n :
  authorizes h "tenant" tokenData ->
  truthy (rb_rentalId body) = true ->
  rb_renewalDuration body = JNum n ->
  1 <= n <= 24 ->
  findById (rentals db) (rb_rentalId body) = Some rental ->
  Rental.tenantId rental = userId tokenData ->
  Rental.status rental = active ->
  hasPendingRenewal (rb_rentalId body) (rental_renewals db) = false ->
  currentEndDate rental <> None ->
  success (fst (requestRenewal env h body db)) = true.
Proof.
  intros Ha Ht Hn Hb Hr Ho Hs Hpend Hend. unfold requestRenewal.
  rewrite (authenticate_ok _ _ _ _ Ha). cbn [bind].
  rewrite Ht, Hn. cbn [truthy].
  replace (n =? 0) with false by (symmetry; apply Z.eqb_neq; lia).
  cbn [negb orb returnIf bind].
  replace ((n <? 1) || (n >? 24)) with false
    by (symmetry; apply orb_false_iff; split;
        [apply Z.ltb_ge; lia|rewrite Z.gtb_ltb; apply Z.ltb_ge; lia]).
  cbn [orReturn bind]. rewrite Hr. cbn [orReturn bind].
  rewrite Ho, String.eqb_refl, Hs. cbn [negb RentalStatus_eqb returnIf bind].
  unfold hasPendingRenewal in Hpend. rewrite Hpend. cbn [returnIf bind].
  destruct (currentEndDate rental); [reflexivity|congruence].
Qed.

(** A request that meets the other preconditions for a rental whose end
    date does not parse is answered with 500, and nothing is written. *)
Lemma requestRenewal_throws env h body db tokenData rental n :
  authorizes h "tenant" tokenData ->
  truthy (rb_rentalId body) = true ->
  rb_renewalDuration body = JNum n ->
  1 <= n <= 24 ->
  findById (rentals db) (rb_rentalId body) = Some rental ->
  Rental.tenantId rental = userId tokenData ->
  Rental.status rental = active ->
  hasPendingRenewal (rb_rentalId body) (rental_renewals db) = false ->
  currentEndDate rental = None ->
  requestRenewal env h body db = (internalError, db).
Proof.
  intros Ha Ht Hn Hb Hr Ho Hs Hpend Hend. unfold requestRenewal.
  rewrite (authenticate_ok _ _ _ _ Ha). cbn [bind].
  rewrite Ht, Hn. cbn [truthy].
  replace (n =? 0) with false by (symmetry; apply Z.eqb_neq; lia).
  cbn [negb orb returnIf bind].
  replace ((n <? 1) || (n >? 24)) with false
    by (symmetry; apply orb_false_iff; split;
        [apply Z.ltb_ge; lia|rewrite Z.gtb_ltb; apply Z.ltb_ge; lia]).
  cbn [orReturn bind]. rewrite Hr. cbn [orReturn bind].
  rewrite Ho, String.eqb_refl, Hs. cbn [negb RentalStatus_eqb returnIf bind].
  unfold hasPendingRenewal in Hpend. rewrite Hpend. cbn [returnIf bind].
  rewrite Hend. reflexivity.
Qed.

(** The store in which the approved rental has an end date that is no
    date is reached from the empty store. *)
Lemma reachable_unreadableRejected : reachable Scenario.unreadableRejected.
Proof.
  apply reachable_step with (db := Scenario.unreadableRequested);
    [|apply step_approveTermination].
  apply reachable_step with (db := Scenario.approved1);
    [exact reachable_approved1|apply step_requestTermination].
Qed.

End RenewalFacts.
Import RenewalFacts.

(** [C7] A renewal request whose duration is not a number from 1 to 24 (0
    and 25 among them) is rejected and nothing is written; a request with a
    duration from 1 to 24 (1 and 24 among them) by the tenant of an active
    rental with no pending renewal is accepted when the rental's end date,
    or its start date when it has none, parses as a date: it records a
    pending renewal of that duration and sets the rental to
    renewal_pending.  When that date does not parse, the request is
    answered with status 500 and nothing is written. *)
Theorem requestRenewal_duration_bounds :
  forall env h body db,
    ((forall n, rb_renewalDuration body = JNum n -> n < 1 \/ n > 24) ->
     success (fst (requestRenewal env h body db)) = false
     /\ snd (requestRenewal env h body db) = db)
    /\ (rb_renewalDuration body = JNum 0 \/ rb_renewalDuration body = JNum 25 ->
        success (fst (requestRenewal env h body db)) = false
        /\ snd (requestRenewal env h body db) = db)
    /\ (forall tokenData rental n,
           rb_renewalDuration body = JNum n ->
           1 <= n <= 24 ->
           authorizes h "tenant" tokenData ->
           truthy (rb_rentalId body) = true ->
           findById (rentals db) (rb_rentalId body) = Some rental ->
           Rental.tenantId rental = userId tokenData ->
           Rental.status rental = active ->
           hasPendingRenewal (rb_rentalId body) (rental_renewals db) = false ->
           (currentEndDate rental = None ->
            requestRenewal env h body db = (internalError, db))
           /\ (currentEndDate rental <> None ->
           success (fst (requestRenewal env h body db)) = true
           /\ exists renewal,
                payload (fst (requestRenewal env h body db)) = Some renewal
                /\ RentalRenewal.status renewal = request_pending
                /\ RentalRenewal.renewalDuration renewal = n
                /\ rental_renewals (snd (requestRenewal env h body db))
                   = (rental_renewals db ++ [renewal])%list
                /\ findById (rentals (snd (requestRenewal env h body db)))
                     (rb_rentalId body)
                   = Some (Rental.with_status renewal_pending rental))).
Proof.
  intros env h body db.
  assert (Out : (forall n, rb_renewalDuration body = JNum n -> n < 1 \/ n > 24) ->
                success (fst (requestRenewal env h body db)) = false
                /\ snd (requestRenewal env h body db) = db).
  { intros Bad.
    assert (F : success (fst (requestRenewal env h body db)) = false).
    { destruct (success (fst (requestRenewal env h body db))) eqn:S; [|reflexivity].
      destruct (requestRenewal_success _ _ _ _ S) as (td & r & n & w & _ & Hn & Hb & _).
      specialize (Bad n Hn). lia. }
    split; [exact F|now apply requestRenewal_failure]. }
  split; [exact Out|split].
  - intros [E | E]; apply Out; intros n Hn; rewrite E in Hn; inversion Hn; lia.
  - intros td rental n Hn Hb Ha Ht Hr Ho Hs Hpend.
    split; [intros Hend; now apply (requestRenewal_throws env h body db td rental n)|].
    intros Hend.
    pose proof (requestRenewal_accepts env _ _ _ _ _ _ Ha Ht Hn Hb Hr Ho Hs Hpend Hend)
      as S.
    split; [exact S|].
    destruct (requestRenewal_success _ _ _ _ S)
      as (td' & r & n' & w & _ & Hn' & _ & Hr' & _ & _ & _ & _ & Hw & Hst & Hdur & _ & E).
    rewrite Hn in Hn'. inversion Hn'; subst n'.
    rewrite Hr in Hr'. inversion Hr'; subst r.
    exists w. rewrite E.
    cbn [rental_renewals rentals set_rentals set_rental_renewals].
    repeat split; auto.
    transitivity (option_map (Rental.with_status renewal_pending)
                    (findById (rentals db) (rb_rentalId body))).
    + apply (findById_updateFirst (rentals db) (rb_rentalId body)
               (Rental.with_status renewal_pending)). reflexivity.
    + now rewrite Hr.
Qed.

Lemma requestRenewal_duration_bounds_witness :
  (success (fst (requestRenewal Scenario.env3 Scenario.tenant1 (Scenario.renew 0)
                   Scenario.occupied)) = false
   /\ success (fst (requestRenewal Scenario.env3 Scenario.tenant1 (Scenario.renew 25)
                      Scenario.occupied)) = false)
  /\ success (fst (requestRenewal Scenario.env3 Scenario.tenant1 (Scenario.renew 1)
                     Scenario.occupied)) = true
  /\ success (fst (requestRenewal Scenario.env3 Scenario.tenant1 (Scenario.renew 24)
                     Scenario.occupied)) = true
  /\ requestRenewal Scenario.env3 Scenario.tenant1 (Scenario.renewRental1 1)
       Scenario.unreadableRejected
     = (internalError, Scenario.unreadableRejected).
Proof.
  assert (Ha : authorizes Scenario.tenant1 "tenant" (mkTokenData "t1" "tenant"))
    by (exists "t1_tenant_1_x"; repeat split).
  split; [split|split; [|split]].
  - apply (proj1 (proj2 (requestRenewal_duration_bounds Scenario.env3 Scenario.tenant1
                           (Scenario.renew 0) Scenario.occupied))). now left.
  - apply (proj1 (proj2 (requestRenewal_duration_bounds Scenario.env3 Scenario.tenant1
                           (Scenario.renew 25) Scenario.occupied))). now right.
  - refine (proj1 (proj2 (proj2 (proj2 (requestRenewal_duration_bounds Scenario.env3
                           Scenario.tenant1 (Scenario.renew 1) Scenario.occupied))
             (mkTokenData "t1" "tenant") (Scenario.rental1 active) 1
             eq_refl ltac:(lia) Ha eq_refl eq_refl eq_refl eq_refl eq_refl) _)).
    vm_compute. discriminate.
  - refine (proj1 (proj2 (proj2 (proj2 (requestRenewal_duration_bounds Scenario.env3
                           Scenario.tenant1 (Scenario.renew 24) Scenario.occupied))
             (mkTokenData "t1" "tenant") (Scenario.rental1 active) 24
             eq_refl ltac:(lia) Ha eq_refl eq_refl eq_refl eq_refl eq_refl) _)).
    vm_compute. discriminate.
  - assert (Hr : findById (rentals Scenario.unreadableRejected) (JStr Scenario.rentalId1)
                 = Some (Rental.mk Scenario.rentalId1 "t1" "l1" Scenario.propertyId1
                           (Scenario.date 2025 3 1) (Some (Scenario.date 2025 13 1))
                           active 1000 (Some (now Scenario.env1))))
      by (vm_compute; reflexivity).
    exact (proj1 (proj2 (proj2 (requestRenewal_duration_bounds Scenario.env3
                           Scenario.tenant1 (Scenario.renewRental1 1)
                           Scenario.unreadableRejected))
             (mkTokenData "t1" "tenant") _ 1
             eq_refl ltac:(lia) Ha eq_refl Hr eq_refl eq_refl eq_refl) eq_refl).
Defined.

(** [C7] The listed preconditions do not suffice: the rental that tenant
    t1 asked to end on "2025-13-01" and that the landlord's rejection made
    active again is the caller's, is active and has no pending renewal,
    and a request to renew it for 1 month is not accepted; it is answered
    with status 500.  That store is reached from the empty store. *)
Lemma requestRenewal_unreadable_end_date :
  reachable Scenario.unreadableRejected
  /\ ~ renewalAccepted Scenario.env3 Scenario.tenant1 (Scenario.renewRental1 1)
        Scenario.unreadableRejected.
Proof.
  split; [exact reachable_unreadableRejected|].
  intros R.
  assert (Hr : findById (rentals Scenario.unreadableRejected) (JStr Scenario.rentalId1)
               = Some (Rental.mk Scenario.rentalId1 "t1" "l1" Scenario.propertyId1
                         (Scenario.date 2025 3 1) (Some (Scenario.date 2025 13 1))
                         active 1000 (Some (now Scenario.env1))))
    by (vm_compute; reflexivity).
  assert (Ha : authorizes Scenario.tenant1 "tenant" (mkTokenData "t1" "tenant"))
    by (exists "t1_tenant_1_x"; repeat split).
  specialize (R _ _ (or_introl eq_refl) Ha Hr eq_refl eq_refl eq_refl).
  vm_compute in R. discriminate R.
Qed.

(** ** Create payment *)

Module PaymentFacts.

Lemma createPayment_success env h body db :
  success (fst (createPayment env h body db)) = true ->
  exists tokenData rental month amount,
    authorizes h "tenant" tokenData
    /\ pb_month body = month
    /\ monthRegex (ToString month) = true
    /\ pb_amount body = JNum amount
    /\ findById (rentals db) (pb_rentalId body) = Some rental
    /\ Rental.tenantId rental = userId tokenData
    /\ Rental.status rental = active
    /\ existingPayment (pb_rentalId body) month (payments db) = None
    /\ amount = Rental.monthlyRent rental
    /\ createPayment env h body db
       = (succeed "Payment processed successfully"
            (newPayment env rental month amount (pb_method body)),
          set_payments
            (payments db ++ [newPayment env rental month amount (pb_method body)]) db).
Proof.
  unfold createPayment.
  repeat (handler_step; try discriminate); try auth_failed.
  intros _.
  match goal with
  | Ha : authenticate _ _ _ = inr ?td, Hr : findById (rentals db) _ = Some ?r,
    Hn : match pb_amount body with _ => _ end = Some ?n |- _ =>
      exists td, r, (pb_month body), n; apply authenticate_inr in Ha;
      rename Hn into Hamount
  end.
  repeat match goal with
         | H : negb _ = false |- _ => apply negb_false_iff in H
         end.
  unfold existingPayment.
  destruct (pb_amount body) as [| |b2|k2|s2|items2|fields2]; try discriminate.
  destruct (k2 <=? 0); [discriminate|]. inversion Hamount; subst k2.
  match goal with H : (_ =? _) = true |- _ => apply Z.eqb_eq in H end.
  match goal with
  | H : match find ?f ?l with _ => _ end = false |- _ =>
      destruct (find f l) eqn:Hfind; [discriminate H|]
  end.
  repeat split; auto.
  - now apply String.eqb_eq.
  - match goal with
    | H : RentalStatus_eqb ?s active = true |- _ =>
        destruct s; cbn in H; auto; discriminate
    end.
Qed.

Lemma createPayment_failure env h body db :
  success (fst (createPayment env h body db)) = false ->
  snd (createPayment env h body db) = db.
Proof.
  unfold createPayment.
  repeat (handler_step; try reflexivity). discriminate.
Qed.

(** The checks of Create Payment on the fields of a request whose month
    is a text. *)
Ltac text_month_checks Ha Ht Hm Hre Hn :=
  unfold createPayment;
  rewrite (authenticate_ok _ _ _ _ Ha); cbn [bind];
  rewrite Ht, Hm, Hn; cbn [truthy noPrimitive ToString];
  match goal with
  | |- context [String.eqb ?month ""] =>
      let M := fresh "M" in
      assert (M : String.eqb month "" = false)
        by (destruct month; [discriminate Hre|reflexivity]);
      rewrite M
  end.

(** The checks of Create Payment up to the one on the rental's status. *)
Lemma createPayment_not_active env h body db tokenData rental month amount :
  authorizes h "tenant" tokenData ->
  truthy (pb_rentalId body) = true ->
  pb_month body = JStr month -> monthRegex month = true ->
  pb_amount body = JNum amount -> 0 < amount ->
  findById (rentals db) (pb_rentalId body) = Some rental ->
  Rental.tenantId rental = userId tokenData ->
  Rental.status rental <> active ->
  createPayment env h body db = (notActive, db).
Proof.
  intros Ha Ht Hm Hre Hn Hpos Hr Ho Hs.
  text_month_checks Ha Ht Hm Hre Hn.
  replace (amount =? 0) with false by (symmetry; apply Z.eqb_neq; lia).
  cbn [negb orb returnIf bind]. rewrite Hre. cbn [negb returnIf orReturn bind].
  replace (amount <=? 0) with false by (symmetry; apply Z.leb_gt; lia).
  cbn [orReturn bind]. rewrite Hr. cbn [orReturn bind].
  rewrite Ho, String.eqb_refl. cbn [negb returnIf bind].
  destruct (Rental.status rental); cbn; try reflexivity. contradiction.
Qed.

Lemma createPayment_wrong_amount env h body db tokenData rental month amount :
  authorizes h "tenant" tokenData ->
  truthy (pb_rentalId body) = true ->
  pb_month body = JStr month -> monthRegex month = true ->
  pb_amount body = JNum amount -> 0 < amount ->
  findById (rentals db) (pb_rentalId body) = Some rental ->
  Rental.tenantId rental = userId tokenData ->
  Rental.status rental = active ->
  hasPayment (pb_rentalId body) month (payments db) = false ->
  amount <> Rental.monthlyRent rental ->
  createPayment env h body db = (notExactAmount, db).
Proof.
  intros Ha Ht Hm Hre Hn Hpos Hr Ho Hs Hpay Hne.
  text_month_checks Ha Ht Hm Hre Hn.
  replace (amount =? 0) with false by (symmetry; apply Z.eqb_neq; lia).
  cbn [negb orb returnIf bind]. rewrite Hre. cbn [negb returnIf orReturn bind].
  replace (amount <=? 0) with false by (symmetry; apply Z.leb_gt; lia).
  cbn [orReturn bind]. rewrite Hr. cbn [orReturn bind].
  rewrite Ho, String.eqb_refl, Hs. cbn [negb RentalStatus_eqb returnIf bind].
  unfold hasPayment in Hpay. unfold strict_eq.
  change (fun p : Payment.t =>
            strict_eq_str (Payment.rentalId p) (pb_rentalId body)
            && match Payment.month p with
               | JStr x => String.eqb month x
               | _ => false
               end)
    with (fun p : Payment.t =>
            strict_eq_str (Payment.rentalId p) (pb_rentalId body)
            && strict_eq_str month (Payment.month p)).
  rewrite Hpay. cbn [returnIf bind].
  replace (amount =? Rental.monthlyRent rental) with false
    by (symmetry; now apply Z.eqb_neq).
  reflexivity.
Qed.

Lemma createPayment_accepts env h body db tokenData rental month :
  authorizes h "tenant" tokenData ->
  truthy (pb_rentalId body) = true ->
  pb_month body = JStr month -> monthRegex month = true ->
  pb_amount body = JNum (Rental.monthlyRent rental) -> 0 < Rental.monthlyRent rental ->
  findById (rentals db) (pb_rentalId body) = Some rental ->
  Rental.tenantId rental = userId tokenData ->
  Rental.status rental = active ->
  hasPayment (pb_rentalId body) month (payments db) = false ->
  success (fst (createPayment env h body db)) = true.
Proof.
  intros Ha Ht Hm Hre Hn Hpos Hr Ho Hs Hpay.
  text_month_checks Ha Ht Hm Hre Hn.
  replace (Rental.monthlyRent rental =? 0) with false
    by (symmetry; apply Z.eqb_neq; lia).
  cbn [negb orb returnIf bind]. rewrite Hre. cbn [negb returnIf orReturn bind].
  replace (Rental.monthlyRent rental <=? 0) with false
    by (symmetry; apply Z.leb_gt; lia).
  cbn [orReturn bind]. rewrite Hr. cbn [orReturn bind].
  rewrite Ho, String.eqb_refl, Hs. cbn [negb RentalStatus_eqb returnIf bind].
  unfold hasPayment in Hpay. unfold strict_eq.
  change (fun p : Payment.t =>
            strict_eq_str (Payment.rentalId p) (pb_rentalId body)
            && match Payment.month p with
               | JStr x => String.eqb month x
               | _ => false
               end)
    with (fun p : Payment.t =>
            strict_eq_str (Payment.rentalId p) (pb_rentalId body)
            && strict_eq_str month (Payment.month p)).
  rewrite Hpay. cbn [returnIf bind].
  rewrite Z.eqb_refl. reflexivity.
Qed.

(** The payments for a rental and a month given as text, after one more
    payment. *)
Lemma paymentsFor_snoc rentalId month ps p :
  paymentsFor rentalId month (ps ++ [p])
  = (paymentsFor rentalId month ps
     ++ (if String.eqb (Payment.rentalId p) rentalId
            && strict_eq_str month (Payment.month p)
         then [p] else []))%list.
Proof. unfold paymentsFor. rewrite filter_app. reflexivity. Qed.

(** No payment on record is the one that the handler looked for. *)
Lemma existingPayment_none rentalId month ps :
  existingPayment (JStr rentalId) (JStr month) ps = None ->
  paymentsFor rentalId month ps = [].
Proof.
  unfold existingPayment, paymentsFor. intros F.
  induction ps as [|p rest IH]; [reflexivity|].
  cbn [find filter] in *. cbn [strict_eq_str strict_eq] in F.
  unfold strict_eq_str at 1.
  destruct (String.eqb (Payment.rentalId p) rentalId); cbn [andb] in *.
  - destruct (Payment.month p) as [| |b|n|s|items|fields]; cbn [andb] in *;
      try (now apply IH).
    destruct (String.eqb month s); [discriminate F|now apply IH].
  - now apply IH.
Qed.

(** The handlers other than Create Payment leave the payments alone. *)
Ltac payments_untouched :=
  repeat (handler_step; try reflexivity);
  repeat match goal with
         | |- context [if ?b then _ else _] => destruct b
         end; reflexivity.

Lemma createProperty_payments env h body db :
  payments (snd (createProperty env h body db)) = payments db.
Proof. unfold createProperty. payments_untouched. Qed.

Lemma requestRental_payments env h body db :
  payments (snd (requestRental env h body db)) = payments db.
Proof. unfold requestRental. payments_untouched. Qed.

Lemma approveRental_payments env h body db :
  payments (snd (approveRental env h body db)) = payments db.
Proof. unfold approveRental. payments_untouched. Qed.

Lemma requestTermination_payments env h body db :
  payments (snd (requestTermination env h body db)) = payments db.
Proof. unfold requestTermination. payments_untouched. Qed.

Lemma approveTermination_payments env h body db :
  payments (snd (approveTermination env h body db)) = payments db.
Proof. unfold approveTermination. payments_untouched. Qed.

Lemma requestRenewal_payments env h body db :
  payments (snd (requestRenewal env h body db)) = payments db.
Proof. unfold requestRenewal. payments_untouched. Qed.

(** For a month given as text the rule holds: Create Payment leaves at
    most one payment for a rental and such a month. *)
Lemma createPayment_text_month env h body db :
  (forall rentalId month,
      (List.length (paymentsFor rentalId month (payments db)) <= 1)%nat) ->
  forall rentalId month,
    (List.length (paymentsFor rentalId month
                    (payments (snd (createPayment env h body db)))) <= 1)%nat.
Proof.
  intros U rentalId month.
  destruct (success (fst (createPayment env h body db))) eqn:S.
  - destruct (createPayment_success _ _ _ _ S)
      as (td & r & m & a & _ & _ & _ & _ & Hr & _ & _ & Hpay & _ & E).
    rewrite E. cbn [snd payments set_payments].
    rewrite paymentsFor_snoc.
    cbn [newPayment Payment.rentalId Payment.month].
    destruct (String.eqb_spec (Rental.id r) rentalId) as [Eid|];
      cbn [andb]; [|rewrite app_nil_r; apply U].
    destruct m as [| |b|n|s|items|fields]; cbn [strict_eq_str];
      try (rewrite app_nil_r; apply U).
    destruct (String.eqb_spec month s) as [->|]; [|rewrite app_nil_r; apply U].
    rewrite (findById_id _ _ _ Hr) in Hpay.
    change (id_of r) with (Rental.id r) in Hpay. rewrite Eid in Hpay.
    rewrite (existingPayment_none _ _ _ Hpay). cbn. lia.
  - rewrite (createPayment_failure _ _ _ _ S). apply U.
Qed.

(** In every store reached from the empty one there is at most one
    payment for a rental and a month given as text. *)
Lemma reachable_text_month db :
  reachable db ->
  forall rentalId month,
    (List.length (paymentsFor rentalId month (payments db)) <= 1)%nat.
Proof.
  intros R. induction R as [|db db' R IH St].
  - intros. cbn. lia.
  - destruct St.
    + now rewrite createProperty_payments.
    + now rewrite requestRental_payments.
    + now rewrite approveRental_payments.
    + now rewrite requestTermination_payments.
    + now rewrite approveTermination_payments.
    + now rewrite requestRenewal_payments.
    + now apply createPayment_text_month.
Qed.

Lemma reachable_paidTwice : reachable Scenario.paidTwice.
Proof.
  apply reachable_step with (db := Scenario.paidOnce);
    [|apply step_createPayment].
  apply reachable_step with (db := Scenario.approved1);
    [exact reachable_approved1|apply step_createPayment].
Qed.

End PaymentFacts.
Import PaymentFacts.

(** [C8] Create Payment does not keep the (rentalId, month) pairs of the
    payments distinct.  It tests the month with a pattern, which reads an
    array of one text as that text, and looks for a payment on record
    with [===], which no array satisfies: the tenant of the approved
    rental who sends the month as the array of "2025-02" twice is
    accepted twice, and the store, reached from the empty one, then holds
    two payments with the same rental and the same month. *)
Theorem createPayment_not_unique :
  reachable Scenario.paidTwice
  /\ success (fst (createPayment Scenario.env3 Scenario.tenant1 Scenario.payInArray
                     Scenario.approved1)) = true
  /\ success (fst (createPayment Scenario.env4 Scenario.tenant1 Scenario.payInArray
                     Scenario.paidOnce)) = true
  /\ (exists p1 p2,
         payments Scenario.paidTwice = [p1; p2]
         /\ Payment.id p1 <> Payment.id p2
         /\ Payment.rentalId p1 = Payment.rentalId p2
         /\ Payment.month p1 = Payment.month p2)
  /\ ~ uniquePayments (payments Scenario.paidTwice).
Proof.
  split; [exact reachable_paidTwice|].
  split; [vm_compute; reflexivity|].
  split; [vm_compute; reflexivity|].
  assert (E : map paymentKey (payments Scenario.paidTwice)
              = [(Scenario.rentalId1, JArr [JStr "2025-02"]);
                 (Scenario.rentalId1, JArr [JStr "2025-02"])])
    by (vm_compute; reflexivity).
  split.
  - eexists. eexists. split; [vm_compute; reflexivity|].
    cbn [Payment.id Payment.rentalId Payment.month].
    split; [discriminate|split; reflexivity].
  - unfold uniquePayments. rewrite E. intros U.
    inversion U as [|? ? NI _]. apply NI. now left.
Qed.

(** ** Rent due on the landlord dashboard *)

Module RentDueFacts.

Lemma keepOverdue_In item items :
  In (Some item) items -> daysOverdue item > 0 -> In item (keepOverdue items).
Proof.
  intros Hin Pos. induction items as [|x rest IH]; [contradiction|].
  destruct Hin as [-> | Hin]; cbn [keepOverdue].
  - replace (daysOverdue item >? 0) with true
      by (symmetry; rewrite Z.gtb_ltb; apply Z.ltb_lt; lia).
    now left.
  - destruct x as [y|]; [|now apply IH].
    destruct (daysOverdue y >? 0); [right|]; now apply IH.
Qed.

Lemma findById_exists {A : Type} `{HasId A} (data : list A) x :
  In x data -> exists y, findById data (JStr (id_of x)) = Some y.
Proof.
  intros Hin. unfold findById.
  destruct (find _ data) as [y|] eqn:E; [now exists y|].
  pose proof (find_none _ _ E x Hin) as N. cbn [strict_eq_str] in N.
  now rewrite String.eqb_refl in N.
Qed.

(** A rental in a live status that has not run out, on a property of the
    landlord and with a known tenant, is on the landlord's rent-due list
    once a day of the month has passed without a payment for the month. *)
Lemma landlordDashboard_rentDue env h db tokenData user rental property tenant :
  authorizes h "landlord" tokenData ->
  findById (users db) (JStr (userId tokenData)) = Some user ->
  In rental (rentals db) ->
  isActiveNow (now env) rental = true ->
  In property (properties db) ->
  Property.ownerId property = User.id user ->
  Property.id property = Rental.propertyId rental ->
  findById (users db) (JStr (Rental.tenantId rental)) = Some tenant ->
  hasPayment (JStr (Rental.id rental)) (toISOMonth (now env)) (payments db) = false ->
  firstOfCurrentMonth env + msPerDay <= now env ->
  exists data item,
    payload (fst (landlordDashboard env h db)) = Some data
    /\ In item (ld_rentDue data)
    /\ due_rental item = rental
    /\ due_amount item = Rental.monthlyRent rental
    /\ daysOverdue item > 0.
Proof.
  intros Ha Hu Hin Hact Hpin Hown Hpid Hten Hpay Hday.
  unfold landlordDashboard.
  rewrite (authenticate_ok _ _ _ _ Ha). cbn [bind]. rewrite Hu.
  cbn [orReturn bind run fst payload succeed].
  destruct (findById_exists (properties db) property Hpin) as (p' & Hp').
  change (id_of property) with (Property.id property) in Hp'. rewrite Hpid in Hp'.
  set (days := (now env - firstOfCurrentMonth env) / msPerDay).
  assert (Pos : days > 0).
  { unfold days, msPerDay in *. Z.div_mod_to_equations. lia. }
  eexists.
  exists (mkRentDueItem rental tenant (Rental.monthlyRent rental)
            (toISOMonth (now env)) days payment_pending).
  split; [reflexivity|].
  cbn [ld_rentDue due_rental due_amount daysOverdue].
  repeat split; auto.
  apply keepOverdue_In; [|exact Pos].
  apply in_map_iff. exists rental. split.
  - unfold rentDueItem. rewrite Hp', Hten.
    unfold hasPayment in Hpay. cbn [strict_eq_str] in Hpay.
    destruct (find _ (payments db)); [discriminate|].
    fold days.
    replace (days >? 0) with true
      by (symmetry; rewrite Z.gtb_ltb; apply Z.ltb_lt; lia).
    reflexivity.
  - apply filter_In. split; [|exact Hact].
    apply filter_In. split; [exact Hin|].
    apply existsb_exists. exists property. split.
    + apply filter_In. split; [exact Hpin|]. now apply String.eqb_eq.
    + now apply String.eqb_eq.
Qed.

End RentDueFacts.
Import RentDueFacts.



(** ** Ministry dashboard *)

Module ComplianceFacts.

Lemma find_existsb {A : Type} (p : A -> bool) (l : list A) :
  match find p l with Some _ => true | None => false end = existsb p l.
Proof.
  induction l as [|x rest IH]; cbn; [reflexivity|]. destruct (p x); auto.
Qed.

Lemma filter_map {A B : Type} (p : B -> bool) (f : A -> B) (l : list A) :
  filter p (map f l) = map f (filter (fun x => p (f x)) l).
Proof.
  induction l as [|x rest IH]; cbn; [reflexivity|].
  destruct (p (f x)); cbn; now rewrite IH.
Qed.

(** The compliant ids are the active rentals with a paid payment for the
    month, one id for each. *)
Lemma compliantRentals_length currentMonth rs ps :
  List.length (compliantRentals currentMonth rs ps)
  = List.length
      (filter (spec_hasPaidPayment currentMonth ps)
         (filter (fun r => RentalStatus_eqb (Rental.status r) active) rs)).
Proof.
  unfold compliantRentals, activeRentalIds. rewrite filter_map, length_map.
  f_equal. apply filter_ext. intros r. unfold spec_hasPaidPayment.
  apply find_existsb.
Qed.

Lemma ministryDashboard_reads_only env h db :
  snd (ministryDashboard env h db) = db.
Proof.
  unfold ministryDashboard. repeat (handler_step; try reflexivity).
Qed.

(** The rate is computed in doubles: of 160 active rentals of which 23
    have paid, the percentage 14.375 comes out as 14.37. *)
Lemma computeComplianceRate_23_of_160 :
  computeComplianceRate 23 160 = Double.div (Double.of_Z 1437) (Double.of_Z 100)
  /\ ~ (Double.to_Q (computeComplianceRate 23 160) == 1438 # 100)%Q.
Proof. split; [vm_compute; reflexivity|vm_compute; discriminate]. Qed.

(** For up to 100 active rentals the rate is within 0.0051 of the exact
    percentage, by computation of every case. *)
Lemma nearPercentage_table :
  forallb (fun count =>
             forallb (fun paid => nearPercentage paid count) (seq 0 (S count)))
          (seq 1 100) = true.
Proof. vm_cast_no_check (eq_refl true). Qed.

Lemma nearPercentage_upto_100 paid count :
  (paid <= count)%nat -> (1 <= count <= 100)%nat ->
  nearPercentage paid count = true.
Proof.
  intros Hp Hc. pose proof nearPercentage_table as All.
  rewrite forallb_forall in All.
  assert (In1 : In count (seq 1 100)) by (apply in_seq; lia).
  specialize (All count In1). rewrite forallb_forall in All.
  apply All. apply in_seq. lia.
Qed.

Lemma filter_length_le {A : Type} (p : A -> bool) (l : list A) :
  (List.length (filter p l) <= List.length l)%nat.
Proof.
  induction l as [|x rest IH]; cbn; [lia|]. destruct (p x); cbn; lia.
Qed.

End ComplianceFacts.
Import ComplianceFacts.




(* ================================================================== *)
(** * Further properties of the code *)

(** ** The record store helpers *)

Module StoreHelperFacts.

Section Collections.
Context {A : Type} `{HasId A}.

Lemma findById_deleteById_same (data : list A) id :
  findById (deleteById data id) id = None.
Proof.
  unfold findById, deleteById. induction data as [|x rest IH]; cbn; [reflexivity|].
  destruct (strict_eq_str (id_of x) id) eqn:E; cbn; [exact IH|].
  now rewrite E.
Qed.

Lemma findById_deleteById_other (data : list A) id s :
  id <> JStr s ->
  findById (deleteById data id) (JStr s) = findById data (JStr s).
Proof.
  intros N. unfold findById, deleteById.
  induction data as [|x rest IH]; cbn; [reflexivity|].
  destruct (strict_eq_str (id_of x) id) eqn:E; cbn.
  - destruct (String.eqb_spec (id_of x) s) as [E'|E']; [|exact IH].
    exfalso. apply N. destruct id; cbn in E; try discriminate.
    apply String.eqb_eq in E. congruence.
  - destruct (String.eqb (id_of x) s); [reflexivity|exact IH].
Qed.

Lemma deleteById_absent (data : list A) id :
  findById data id = None -> deleteById data id = data.
Proof.
  unfold findById, deleteById. induction data as [|x rest IH]; cbn; [reflexivity|].
  destruct (strict_eq_str (id_of x) id); cbn; [discriminate|].
  intros F. now rewrite IH.
Qed.

Lemma deleteById_In (data : list A) id x :
  In x (deleteById data id) <-> In x data /\ strict_eq_str (id_of x) id = false.
Proof.
  unfold deleteById. rewrite filter_In, negb_true_iff. reflexivity.
Qed.

Lemma updateById_absent (data : list A) id (f : A -> A) :
  findById data id = None -> updateById data id f = data.
Proof.
  unfold findById, updateById. induction data as [|x rest IH]; cbn; [reflexivity|].
  destruct (strict_eq_str (id_of x) id); [discriminate|].
  intros F. now rewrite IH.
Qed.

Lemma updateById_length (data : list A) id (f : A -> A) :
  List.length (updateById data id f) = List.length data.
Proof. unfold updateById. apply length_map. Qed.

End Collections.

End StoreHelperFacts.
Import StoreHelperFacts.

(** [X1] Deleting by id and looking up: after [deleteById data id] no
    record is found under [id]; the lookup of every other id gives what
    it gave before; and deleting an id under which nothing is found
    leaves the collection as it is. *)
Theorem deleteById_lookup :
  forall (A : Type) (I : HasId A) (data : list A) (id : JSValue),
    findById (deleteById data id) id = None
    /\ (forall s, id <> JStr s ->
          findById (deleteById data id) (JStr s) = findById data (JStr s))
    /\ (findById data id = None -> deleteById data id = data).
Proof.
  intros A I data id. split; [|split].
  - apply findById_deleteById_same.
  - intros s N. now apply findById_deleteById_other.
  - apply deleteById_absent.
Qed.

Lemma deleteById_lookup_witness :
  findById (deleteById (properties Scenario.listed) (JStr "p2")) (JStr Scenario.propertyId1)
  = findById (properties Scenario.listed) (JStr Scenario.propertyId1)
  /\ deleteById (properties Scenario.listed) (JStr "p2") = properties Scenario.listed.
Proof.
  split.
  - apply (proj1 (proj2 (deleteById_lookup Property.t Property_HasId
                           (properties Scenario.listed) (JStr "p2")))).
    discriminate.
  - apply (proj2 (proj2 (deleteById_lookup Property.t Property_HasId
                           (properties Scenario.listed) (JStr "p2")))).
    reflexivity.
Defined.

(** [X2] Updating by id and looking up, for an update that leaves the
    [id] field alone: the record found under the updated id is the
    update of the record found before; the lookup of every other id gives
    what it gave before; the collection keeps its length; and an update
    under an id that finds nothing changes nothing. *)
Theorem updateById_lookup :
  forall (A : Type) (I : HasId A) (data : list A) (id : JSValue) (updates : A -> A),
    (forall x, id_of (updates x) = id_of x) ->
    findById (updateById data id updates) id = option_map updates (findById data id)
    /\ (forall s, id <> JStr s ->
          findById (updateById data id updates) (JStr s) = findById data (JStr s))
    /\ List.length (updateById data id updates) = List.length data
    /\ (findById data id = None -> updateById data id updates = data).
Proof.
  intros A I data id updates Hid. split; [|split; [|split]].
  - rewrite findById_updateById by exact Hid.
    destruct (findById data id) as [x|] eqn:F; [|reflexivity].
    cbn. apply findById_id in F. rewrite F. cbn. now rewrite String.eqb_refl.
  - intros s N. rewrite findById_updateById by exact Hid.
    destruct (findById data (JStr s)) as [x|] eqn:F; [|reflexivity].
    cbn. apply findById_id in F. injection F as F.
    destruct (strict_eq_str (id_of x) id) eqn:E; [|reflexivity].
    exfalso. apply N. destruct id; cbn in E; try discriminate.
    apply String.eqb_eq in E. congruence.
  - apply updateById_length.
  - apply updateById_absent.
Qed.

Lemma updateById_lookup_witness :
  findById (updateById (properties Scenario.listed) (JStr Scenario.propertyId1)
              (Property.with_available false))
           (JStr Scenario.propertyId1)
  = option_map (Property.with_available false)
      (findById (properties Scenario.listed) (JStr Scenario.propertyId1)).
Proof.
  apply (proj1 (updateById_lookup Property.t Property_HasId
                  (properties Scenario.listed) (JStr Scenario.propertyId1)
                  (Property.with_available false) (fun x => eq_refl))).
Defined.

(** ** Identifiers and tokens *)

Module TokenFacts.

Lemma toString_inj a b : toString a = toString b -> a = b.
Proof.
  unfold toString. intros E.
  assert (N : forall n, Z.to_int n <> Decimal.Pos Decimal.Nil
                        /\ Z.to_int n <> Decimal.Neg Decimal.Nil).
  { intros n. split; intros C; pose proof (f_equal Z.of_int C) as C';
      rewrite DecimalZ.of_to in C'; cbn in C'; subst n; discriminate C. }
  pose proof (NilZero.isi (Z.to_int a) (proj1 (N a)) (proj2 (N a))) as Ia.
  pose proof (NilZero.isi (Z.to_int b) (proj1 (N b)) (proj2 (N b))) as Ib.
  rewrite E in Ia. rewrite Ia in Ib. injection Ib as Ib.
  now apply DecimalZ.to_int_inj.
Qed.

Lemma append_inj_prefix (p a b : string) :
  String.append p a = String.append p b -> a = b.
Proof. induction p as [|c p IH]; cbn; [auto|]. intros [= E]. auto. Qed.

Lemma append_inj_length (a b c d : string) :
  String.length a = String.length b ->
  String.append a c = String.append b d -> a = b /\ c = d.
Proof.
  revert b. induction a as [|x a IH]; intros [|y b]; cbn; try discriminate.
  - auto.
  - intros [= L] [= -> E]. destruct (IH b L E) as [-> ->]. auto.
Qed.

Lemma append_assoc (a b c : string) :
  String.append (String.append a b) c = String.append a (String.append b c).
Proof. induction a as [|x a IH]; cbn; [reflexivity|]. now rewrite IH. Qed.

Lemma append_empty_r (a : string) : String.append a "" = a.
Proof. induction a as [|x a IH]; cbn; [reflexivity|]. now rewrite IH. Qed.

(** Splitting reads a part without separator up to the next separator. *)
Lemma split_aux_part (sep : ascii) (cur part rest : string) :
  (forall c, In c (list_ascii_of_string part) -> c <> sep) ->
  split_aux sep cur (String.append part (String sep rest))
  = String.append cur part :: split_aux sep "" rest.
Proof.
  revert cur. induction part as [|c part IH]; intros cur Hp; cbn.
  - rewrite Ascii.eqb_refl. now rewrite append_empty_r.
  - destruct (Ascii.eqb_spec c sep) as [E|E].
    + exfalso. apply (Hp c); [now left|exact E].
    + rewrite IH by (intros c' Hc'; apply Hp; now right).
      now rewrite append_assoc.
Qed.

Lemma noUnderscore_spec s :
  noUnderscore s = true ->
  forall c, In c (list_ascii_of_string s) -> c <> "_"%char.
Proof.
  induction s as [|x s IH]; cbn; [contradiction|].
  intros N c [<- | Hc].
  - apply andb_true_iff in N as [N _]. apply negb_true_iff in N.
    now apply Ascii.eqb_neq.
  - apply andb_true_iff in N as [_ N]. now apply IH.
Qed.

Lemma split_aux_nonempty (sep : ascii) (cur s : string) : exists p ps, split_aux sep cur s = p :: ps.
Proof.
  revert cur. induction s as [|c s IH]; intros cur; cbn; [eauto|].
  destruct (Ascii.eqb c sep); eauto.
Qed.

Lemma substring_all s : String.substring 0 (String.length s) s = s.
Proof. induction s as [|c s IH]; cbn; [reflexivity|]. now rewrite IH. Qed.

Lemma bearerToken_Bearer token :
  bearerToken (Some (String.append "Bearer " token)) = Some token.
Proof.
  unfold bearerToken, startsWith, substring_from. cbn.
  assert (P : String.prefix "" token = true) by (destruct token; reflexivity).
  now rewrite P, Nat.sub_0_r, substring_all.
Qed.

Lemma parseToken_parts userId role rest :
  noUnderscore userId = true -> noUnderscore role = true ->
  parseToken (String.append userId (String "_" (String.append role (String "_" rest))))
  = Some (mkTokenData userId role).
Proof.
  intros Hu Hr. unfold parseToken, split.
  rewrite split_aux_part by now apply noUnderscore_spec.
  rewrite split_aux_part by now apply noUnderscore_spec.
  reflexivity.
Qed.

End TokenFacts.
Import TokenFacts.

(** [X3] Two identifiers made with the same prefix at instants whose
    timestamps have the same number of digits are different as soon as
    the instants or the random numbers differ. *)
Theorem generateId_injective :
  forall (env1 env2 : Env) (prefix : string),
    String.length (toString (now env1)) = String.length (toString (now env2)) ->
    now env1 <> now env2 \/ random env1 <> random env2 ->
    generateId env1 prefix <> generateId env2 prefix.
Proof.
  intros env1 env2 prefix L D E. unfold generateId in E.
  apply append_inj_prefix in E.
  destruct (append_inj_length _ _ _ _ L E) as [E1 E2].
  apply toString_inj in E1, E2. destruct D as [D|D]; contradiction.
Qed.

Lemma generateId_injective_witness :
  String.length (toString (now Scenario.env1))
  = String.length (toString (now Scenario.env2))
  /\ generateId Scenario.env1 "r" <> generateId Scenario.env2 "r".
Proof.
  split; [reflexivity|].
  apply (generateId_injective Scenario.env1 Scenario.env2 "r").
  - reflexivity.
  - left. discriminate.
Defined.

(** [X4] A token made for a user id and a role that contain no
    underscore parses back to that user id and that role, whatever the
    instant and the random part. *)
Theorem parseToken_generateToken :
  forall (env : Env) (randomString userId role : string),
    noUnderscore userId = true ->
    noUnderscore role = true ->
    parseToken (generateToken env randomString userId role)
    = Some (mkTokenData userId role).
Proof.
  intros env randomString userId role Hu Hr. unfold generateToken.
  change (String.append "_" ?x) with (String "_" x).
  cbn [String.append]. now apply parseToken_parts.
Qed.

Lemma parseToken_generateToken_witness :
  parseToken (generateToken Scenario.env1 "k3x9" "l1" "landlord")
  = Some (mkTokenData "l1" "landlord").
Proof.
  apply (parseToken_generateToken Scenario.env1 "k3x9" "l1" "landlord");
    reflexivity.
Defined.

(** [X5] A handler that requires a role lets in the bearer of a token
    made for that role, as the user the token was made for, and turns
    away the bearer of a token made for another role. *)
Theorem authenticate_generateToken :
  forall (A : Type) (env : Env) (randomString userId userRole requiredRole : string)
         (deny : Response A),
    noUnderscore userId = true ->
    noUnderscore userRole = true ->
    authenticate
      (Some (String.append "Bearer " (generateToken env randomString userId userRole)))
      requiredRole deny
    = if String.eqb userRole requiredRole then inr (mkTokenData userId userRole)
      else inl deny.
Proof.
  intros A env randomString userId userRole requiredRole deny Hu Hr.
  unfold authenticate. rewrite bearerToken_Bearer. cbn [orReturn bind].
  unfold generateToken. cbn [String.append].
  rewrite parseToken_parts by assumption. cbn [orReturn bind role].
  destruct (String.eqb userRole requiredRole); reflexivity.
Qed.

Lemma authenticate_generateToken_witness :
  authenticate
    (Some (String.append "Bearer "
             (generateToken Scenario.env1 "k3x9" "t1" "tenant")))
    "landlord" (failure (A := Rental.t) 403 "Only landlords can approve rentals")
  = inl (failure 403 "Only landlords can approve rentals").
Proof.
  apply (authenticate_generateToken Rental.t Scenario.env1 "k3x9" "t1" "tenant"
           "landlord" (failure 403 "Only landlords can approve rentals"));
    reflexivity.
Defined.

(** ** Approve or reject a renewal *)

Module RenewalDecisionFacts.

(** What a decision on a renewal was checked against, and what it wrote. *)
Lemma approveRenewal_success env h body db :
  success (fst (approveRenewal env h body db)) = true ->
  exists tokenData approve renewal rental property,
    authorizes h "landlord" tokenData
    /\ truthy (an_renewalId body) = true
    /\ an_approve body = JBool approve
    /\ findById (rental_renewals db) (an_renewalId body) = Some renewal
    /\ findById (rentals db) (JStr (RentalRenewal.rentalId renewal)) = Some rental
    /\ findById (properties db) (JStr (Rental.propertyId rental)) = Some property
    /\ Property.ownerId property = userId tokenData
    /\ RentalRenewal.status renewal = request_pending
    /\ snd (approveRenewal env h body db)
       = set_properties (properties db)
           (set_rentals
              (updateFirst
                 (fun r => String.eqb (Rental.id r) (RentalRenewal.rentalId renewal))
                 (afterRenewal approve renewal) (rentals db))
              (set_rental_renewals
                 (updateFirst
                    (fun r => strict_eq_str (RentalRenewal.id r) (an_renewalId body))
                    (decidedRenewal env property approve)
                    (rental_renewals db))
                 db)).
Proof.
  unfold approveRenewal.
  repeat (handler_step; try discriminate); try auth_failed.
  intros _.
  match goal with
  | Ha : authenticate _ _ _ = inr ?td,
    Ht : findById (rental_renewals db) _ = Some ?t,
    Hr : findById (rentals db) _ = Some ?r,
    Hp : findById (properties db) _ = Some ?p,
    Hb : match an_approve body with _ => _ end = Some ?b |- _ =>
      exists td, b, t, r, p; apply authenticate_inr in Ha;
      rename t into renewal; rename p into property; rename b into approve;
      rename Ht into Hren; rename Hb into Happ
  end.
  repeat match goal with
         | H : negb _ = false |- _ => apply negb_false_iff in H
         end.
  repeat split; auto.
  - destruct (an_approve body); try discriminate. now inversion Happ.
  - now apply String.eqb_eq.
  - match goal with
    | H : RequestStatus_eqb ?s request_pending = true |- _ =>
        destruct s; cbn in H; auto; discriminate
    end.
  - cbn [snd]. f_equal. f_equal.
    + unfold afterRenewal. destruct approve; reflexivity.
    + f_equal.
      set (isR := fun r => strict_eq_str (RentalRenewal.id r) (an_renewalId body)).
      assert (Ft : find isR (rental_renewals db) = Some renewal) by exact Hren.
      match goal with
      | |- updateFirst isR ?g (if ?c then _ else _) = _ =>
          destruct c eqn:C
      end.
      * rewrite updateFirst_twice by (intros; reflexivity).
        apply updateFirst_ext with renewal; [exact Ft|].
        destruct renewal; reflexivity.
      * apply updateFirst_ext with renewal; [exact Ft|].
        apply orb_false_iff in C as [_ C]. apply negb_false_iff, String.eqb_eq in C.
        destruct renewal; cbn in *. now rewrite C.
Qed.

Lemma approveRenewal_failure env h body db :
  success (fst (approveRenewal env h body db)) = false ->
  snd (approveRenewal env h body db) = db.
Proof.
  unfold approveRenewal.
  repeat (handler_step; try reflexivity). discriminate.
Qed.

Lemma approveRenewal_accepts env h body db tokenData approve renewal rental property :
  authorizes h "landlord" tokenData ->
  truthy (an_renewalId body) = true ->
  an_approve body = JBool approve ->
  findById (rental_renewals db) (an_renewalId body) = Some renewal ->
  findById (rentals db) (JStr (RentalRenewal.rentalId renewal)) = Some rental ->
  findById (properties db) (JStr (Rental.propertyId rental)) = Some property ->
  Property.ownerId property = userId tokenData ->
  RentalRenewal.status renewal = request_pending ->
  success (fst (approveRenewal env h body db)) = true.
Proof.
  intros Ha Ht Happ Hren Hr Hp Ho Hs. unfold approveRenewal.
  rewrite (authenticate_ok _ _ _ _ Ha). cbn [bind].
  rewrite Ht, Happ, Hren. cbn [negb returnIf orReturn bind].
  rewrite Hr. cbn [orReturn bind]. rewrite Hp. cbn [orReturn bind].
  rewrite Ho, String.eqb_refl, Hs. reflexivity.
Qed.

(** The date a renewal starts from, when it parses. *)
Lemma currentEndDate_rentalDate rental t :
  currentEndDate rental = Some t -> t = rentalDate rental.
Proof.
  unfold currentEndDate, rentalDate, timeValue.
  destruct (Rental.endDate rental) as [e|].
  - destruct (parseable e); congruence.
  - destruct (parseable (Rental.startDate rental)); congruence.
Qed.

(** A decided renewal is turned away, whoever asks. *)
Lemma approveRenewal_decided env h body db renewal :
  findById (rental_renewals db) (an_renewalId body) = Some renewal ->
  RentalRenewal.status renewal <> request_pending ->
  success (fst (approveRenewal env h body db)) = false.
Proof.
  intros Hren Hs.
  destruct (success (fst (approveRenewal env h body db))) eqn:S; [|reflexivity].
  destruct (approveRenewal_success _ _ _ _ S)
    as (td & b & t & r & p & _ & _ & _ & Ht & _ & _ & _ & Hst & _).
  rewrite Hren in Ht. injection Ht as <-. contradiction.
Qed.

Lemma setDate_next t : setDate t (getDate t + 1) = t + msPerDay.
Proof.
  unfold setDate, getDate, LocalTime, UTC, LocalTZA. rewrite Z.add_0_r, Z.sub_0_r.
  unfold YearFromTime, MonthFromTime, DateFromTime.
  pose proof (MakeDay_of_day (Day t)) as E.
  rewrite MakeDay_eq in E by apply MonthOfDay_range.
  rewrite MakeDay_eq by apply MonthOfDay_range.
  pose proof (MakeDate_Day t) as D. unfold MakeDate in *. lia.
Qed.

Lemma requestRenewal_record env h body db :
  success (fst (requestRenewal env h body db)) = true ->
  exists tokenData rental n landlordId,
    findById (rentals db) (rb_rentalId body) = Some rental
    /\ Rental.status rental = active
    /\ rb_renewalDuration body = JNum n
    /\ payload (fst (requestRenewal env h body db))
       = Some (requestedRenewal env tokenData rental landlordId n)
    /\ snd (requestRenewal env h body db)
       = set_rentals
           (updateFirst (fun r => strict_eq_str (Rental.id r) (rb_rentalId body))
              (Rental.with_status renewal_pending) (rentals db))
           (set_rental_renewals
              (rental_renewals db
               ++ [requestedRenewal env tokenData rental landlordId n]) db).
Proof.
  unfold requestRenewal.
  repeat (handler_step; try discriminate); try auth_failed.
  intros _.
  match goal with
  | Ha : authenticate _ _ _ = inr ?td, Hr : findById (rentals db) _ = Some ?r,
    Hn : match rb_renewalDuration body with _ => _ end = Some ?n |- _ =>
      exists td, r, n; rename Hn into Hdur; rename r into rental
  end.
  eexists.
  destruct (rb_renewalDuration body) as [| |b|m|s|items|fields]; try discriminate.
  destruct ((m <? 1) || (m >? 24)) eqn:R; [discriminate|].
  inversion Hdur; subst m. apply orb_false_iff in R as [R1 R2].
  apply Z.ltb_ge in R1. rewrite Z.gtb_ltb in R2. apply Z.ltb_ge in R2.
  match goal with
  | H : currentEndDate rental = Some ?t |- _ =>
      apply currentEndDate_rentalDate in H; subst t
  end.
  assert (D : toISODate
                (setDate (rentalDate rental) (getDate (rentalDate rental) + 1))
              = dateAfterDays (rentalDate rental) 1).
  { rewrite setDate_next. unfold dateAfterDays. f_equal; lia. }
  cbn [fst snd payload succeed]. rewrite D.
  repeat split; auto.
  match goal with
  | H : negb (RentalStatus_eqb ?s active) = false |- _ =>
      apply negb_false_iff in H; destruct s; cbn in H; auto; discriminate
  end.
Qed.

Section UpdateFirstMore.
Context {A : Type}.

Lemma updateFirst_pred_ext (p q : A -> bool) (f : A -> A) (data : list A) :
  (forall x, p x = q x) -> updateFirst p f data = updateFirst q f data.
Proof.
  intros E. induction data as [|x rest IH]; cbn; [reflexivity|].
  rewrite <- E. destruct (p x); [reflexivity|now rewrite IH].
Qed.

Lemma updateFirst_fixed (p : A -> bool) (f : A -> A) (data : list A) x :
  find p data = Some x -> f x = x -> updateFirst p f data = data.
Proof.
  induction data as [|y rest IH]; cbn; [discriminate|].
  destruct (p y).
  - intros [= ->] E. now rewrite E.
  - intros F E. now rewrite (IH F E).
Qed.

Lemma updateFirst_none (p : A -> bool) (f : A -> A) (data : list A) :
  find p data = None -> updateFirst p f data = data.
Proof.
  induction data as [|y rest IH]; cbn; [reflexivity|].
  destruct (p y); [discriminate|]. intros F. now rewrite IH.
Qed.

End UpdateFirstMore.

(** A decision on the renewal that a request has just recorded, when the
    id of the renewal was fresh: what it does to the rentals as they were
    before the request. *)
Lemma decide_after_request env h body db env' h' approve :
  success (fst (requestRenewal env h body db)) = true ->
  findById (rental_renewals db) (JStr (generateId env "renew")) = None ->
  success (fst (approveRenewal env' h'
                  (mkApproveRenewalBody (JStr (generateId env "renew")) (JBool approve))
                  (snd (requestRenewal env h body db)))) = true ->
  exists tokenData rental n landlordId,
    findById (rentals db) (rb_rentalId body) = Some rental
    /\ Rental.status rental = active
    /\ rb_renewalDuration body = JNum n
    /\ rentals (snd (approveRenewal env' h'
                       (mkApproveRenewalBody (JStr (generateId env "renew"))
                          (JBool approve))
                       (snd (requestRenewal env h body db))))
       = updateFirst (fun r => strict_eq_str (Rental.id r) (rb_rentalId body))
           (fun r => afterRenewal approve
                       (requestedRenewal env tokenData rental landlordId n)
                       (Rental.with_status renewal_pending r))
           (rentals db).
Proof.
  intros S1 Fresh S2.
  destruct (requestRenewal_record _ _ _ _ S1)
    as (td & rental & n & l & Hr & Hst & Hn & Hpay & E1).
  exists td, rental, n, l. split; [exact Hr|]. split; [exact Hst|].
  split; [exact Hn|].
  destruct (approveRenewal_success _ _ _ _ S2)
    as (td' & b & x & r' & p & _ & _ & Hb & Hx & _ & _ & _ & _ & E2).
  cbn [an_approve an_renewalId] in Hb, Hx, E2. injection Hb as <-.
  rewrite E2. cbn [rentals set_properties set_rentals].
  rewrite E1 in Hx |- *. cbn [rentals rental_renewals set_rentals set_rental_renewals] in Hx |- *.
  unfold findById in Hx, Fresh. rewrite find_app, Fresh in Hx. cbn in Hx.
  rewrite String.eqb_refl in Hx. injection Hx as <-.
  cbn [RentalRenewal.rentalId requestedRenewal].
  pose proof (findById_id _ _ _ Hr) as Eid.
  rewrite (updateFirst_pred_ext
             (fun r => String.eqb (Rental.id r) (Rental.id rental))
             (fun r => strict_eq_str (Rental.id r) (rb_rentalId body)))
    by (intros y; rewrite Eid; reflexivity).
  apply updateFirst_twice. intros y. reflexivity.
Qed.

End RenewalDecisionFacts.
Import RenewalDecisionFacts.

(** [X6] A decision on a renewal succeeds only on a pending renewal, and
    a decision by the landlord who owns the property on a pending renewal
    succeeds.  Its effects: the renewal, with its landlord set to the
    property's owner and its update time to now, becomes approved or
    rejected; on approval the rental becomes active, starts on the
    requested start date and ends the renewal's duration in months after
    it; on rejection the rental becomes active with the dates it had;
    the properties and the other collections are as before. *)
Theorem approveRenewal_effects :
  forall env h body db,
    (success (fst (approveRenewal env h body db)) = true ->
     exists approve renewal rental property,
       an_approve body = JBool approve
       /\ findById (rental_renewals db) (an_renewalId body) = Some renewal
       /\ RentalRenewal.status renewal = request_pending
       /\ findById (rentals db) (JStr (RentalRenewal.rentalId renewal)) = Some rental
       /\ findById (properties db) (JStr (Rental.propertyId rental)) = Some property
       /\ findById (rental_renewals (snd (approveRenewal env h body db)))
            (an_renewalId body)
          = Some (decidedRenewal env property approve renewal)
       /\ findById (rentals (snd (approveRenewal env h body db)))
            (JStr (RentalRenewal.rentalId renewal))
          = Some (Rental.mk (Rental.id rental) (Rental.tenantId rental)
                    (Rental.landlordId rental) (Rental.propertyId rental)
                    (if approve then RentalRenewal.requestedStartDate renewal
                     else Rental.startDate rental)
                    (if approve
                     then Some (addMonths (RentalRenewal.requestedStartDate renewal)
                                  (RentalRenewal.renewalDuration renewal))
                     else Rental.endDate rental)
                    active (Rental.monthlyRent rental) (Rental.createdAt rental))
       /\ properties (snd (approveRenewal env h body db)) = properties db
       /\ users (snd (approveRenewal env h body db)) = users db
       /\ payments (snd (approveRenewal env h body db)) = payments db
       /\ rental_terminations (snd (approveRenewal env h body db))
          = rental_terminations db)
    /\ (forall tokenData approve renewal rental property,
           authorizes h "landlord" tokenData ->
           truthy (an_renewalId body) = true ->
           an_approve body = JBool approve ->
           findById (rental_renewals db) (an_renewalId body) = Some renewal ->
           findById (rentals db) (JStr (RentalRenewal.rentalId renewal)) = Some rental ->
           findById (properties db) (JStr (Rental.propertyId rental)) = Some property ->
           Property.ownerId property = userId tokenData ->
           RentalRenewal.status renewal = request_pending ->
           success (fst (approveRenewal env h body db)) = true).
Proof.
  intros env h body db. split.
  - intros S.
    destruct (approveRenewal_success _ _ _ _ S)
      as (td & approve & t & r & p & _ & _ & Happ & Ht & Hr & Hp & _ & Hs & E).
    exists approve, t, r, p. rewrite E.
    cbn [rental_renewals rentals properties users payments rental_terminations
           set_properties set_rentals set_rental_renewals].
    repeat split; auto.
    + transitivity (option_map (decidedRenewal env p approve)
                      (findById (rental_renewals db) (an_renewalId body))).
      * apply (findById_updateFirst (rental_renewals db) (an_renewalId body)
                 (decidedRenewal env p approve)). reflexivity.
      * now rewrite Ht.
    + transitivity (option_map (afterRenewal approve t)
                      (findById (rentals db) (JStr (RentalRenewal.rentalId t)))).
      * apply (findById_updateFirst (rentals db) (JStr (RentalRenewal.rentalId t))
                 (afterRenewal approve t)).
        intros x. unfold afterRenewal. destruct approve; reflexivity.
      * rewrite Hr. unfold afterRenewal. destruct approve; reflexivity.
  - intros. now apply approveRenewal_accepts
      with tokenData approve renewal rental property.
Qed.

Lemma approveRenewal_effects_witness :
  success (fst (approveRenewal Scenario.env3 Scenario.landlord1
                  (Cases.decideRenewal true) Cases.renewalRequested)) = true
  /\ exists approve renewal rental property,
       an_approve (Cases.decideRenewal true) = JBool approve
       /\ findById (rental_renewals Cases.renewalRequested)
            (an_renewalId (Cases.decideRenewal true)) = Some renewal
       /\ RentalRenewal.status renewal = request_pending
       /\ findById (rentals Cases.renewalRequested)
            (JStr (RentalRenewal.rentalId renewal)) = Some rental
       /\ findById (properties Cases.renewalRequested)
            (JStr (Rental.propertyId rental)) = Some property.
Proof.
  assert (S : success (fst (approveRenewal Scenario.env3 Scenario.landlord1
                              (Cases.decideRenewal true) Cases.renewalRequested))
              = true).
  { refine (proj2 (approveRenewal_effects Scenario.env3 Scenario.landlord1
                     (Cases.decideRenewal true) Cases.renewalRequested)
              (mkTokenData "l1" "landlord") true Cases.renewal1
              (Rental.with_status renewal_pending (Scenario.rental1 active))
              (Scenario.property1 false) _ eq_refl eq_refl eq_refl eq_refl eq_refl
              eq_refl eq_refl).
    exists "l1_landlord_1_x". repeat split. }
  split; [exact S|].
  destruct (proj1 (approveRenewal_effects Scenario.env3 Scenario.landlord1
                     (Cases.decideRenewal true) Cases.renewalRequested) S)
    as (approve & t & r & p & H1 & H2 & H3 & H4 & H5 & _).
  exists approve, t, r, p. auto.
Defined.

(** [X7] A renewal is decided once: after a successful decision, every
    further decision on the same renewal, by whomever and whenever, fails
    and leaves the store as the first decision left it. *)
Theorem approveRenewal_decides_once :
  forall env h body db env' h' body',
    success (fst (approveRenewal env h body db)) = true ->
    an_renewalId body' = an_renewalId body ->
    success (fst (approveRenewal env' h' body' (snd (approveRenewal env h body db))))
    = false
    /\ snd (approveRenewal env' h' body' (snd (approveRenewal env h body db)))
       = snd (approveRenewal env h body db).
Proof.
  intros env h body db env' h' body' S Eid.
  assert (F : success (fst (approveRenewal env' h' body'
                              (snd (approveRenewal env h body db)))) = false).
  { destruct (approveRenewal_success _ _ _ _ S)
      as (td & approve & t & r & p & _ & _ & _ & Ht & _ & _ & _ & _ & E).
    apply approveRenewal_decided with (decidedRenewal env p approve t).
    - rewrite Eid, E. cbn [rental_renewals set_properties set_rentals set_rental_renewals].
      transitivity (option_map (decidedRenewal env p approve)
                      (findById (rental_renewals db) (an_renewalId body))).
      + apply (findById_updateFirst (rental_renewals db) (an_renewalId body)
                 (decidedRenewal env p approve)). reflexivity.
      + now rewrite Ht.
    - destruct approve; discriminate. }
  split; [exact F|now apply approveRenewal_failure].
Qed.

Lemma approveRenewal_decides_once_witness :
  success (fst (approveRenewal Scenario.env3 Scenario.landlord1
                  (Cases.decideRenewal false)
                  (snd (approveRenewal Scenario.env3 Scenario.landlord1
                          (Cases.decideRenewal true) Cases.renewalRequested))))
  = false.
Proof.
  apply (approveRenewal_decides_once Scenario.env3 Scenario.landlord1
           (Cases.decideRenewal true) Cases.renewalRequested
           Scenario.env3 Scenario.landlord1 (Cases.decideRenewal false)).
  - vm_compute. reflexivity.
  - reflexivity.
Defined.

(** [X8] A renewal request that the landlord rejects leaves no trace on
    the rentals: when the request is recorded under a fresh id and the
    decision on it is a rejection, the rentals are again exactly what they
    were before the request. *)
Theorem rejected_renewal_restores_rentals :
  forall env h body db env' h',
    success (fst (requestRenewal env h body db)) = true ->
    findById (rental_renewals db) (JStr (generateId env "renew")) = None ->
    success (fst (approveRenewal env' h'
                    (mkApproveRenewalBody (JStr (generateId env "renew")) (JBool false))
                    (snd (requestRenewal env h body db)))) = true ->
    rentals (snd (approveRenewal env' h'
                    (mkApproveRenewalBody (JStr (generateId env "renew")) (JBool false))
                    (snd (requestRenewal env h body db))))
    = rentals db.
Proof.
  intros env h body db env' h' S1 Fresh S2.
  destruct (decide_after_request _ _ _ _ _ _ _ S1 Fresh S2)
    as (td & rental & n & l & Hr & Hst & Hn & E).
  rewrite E. apply updateFirst_fixed with rental; [exact Hr|].
  unfold afterRenewal. destruct rental; cbn in *. now rewrite Hst.
Qed.

Lemma rejected_renewal_restores_rentals_witness :
  rentals (snd (approveRenewal Scenario.env3 Scenario.landlord1
                  (mkApproveRenewalBody (JStr (generateId Scenario.env3 "renew"))
                     (JBool false))
                  (snd (requestRenewal Scenario.env3 Scenario.tenant1
                          (Scenario.renew 6) Scenario.occupied))))
  = rentals Scenario.occupied.
Proof.
  apply (rejected_renewal_restores_rentals Scenario.env3 Scenario.tenant1
           (Scenario.renew 6) Scenario.occupied Scenario.env3 Scenario.landlord1).
  - vm_compute. reflexivity.
  - reflexivity.
  - vm_compute. reflexivity.
Defined.

(** [X9] A renewal request that the landlord approves moves the rental to
    a new period: when the request is recorded under a fresh id and the
    decision on it is an approval, the rental is active again, starts the
    day after its former end date (its start date, if it had no end date)
    and ends the requested number of months after that day; its other
    fields are as before the request. *)
Theorem approved_renewal_period :
  forall env h body db env' h',
    success (fst (requestRenewal env h body db)) = true ->
    findById (rental_renewals db) (JStr (generateId env "renew")) = None ->
    success (fst (approveRenewal env' h'
                    (mkApproveRenewalBody (JStr (generateId env "renew")) (JBool true))
                    (snd (requestRenewal env h body db)))) = true ->
    exists rental n,
      findById (rentals db) (rb_rentalId body) = Some rental
      /\ rb_renewalDuration body = JNum n
      /\ findById (rentals (snd (approveRenewal env' h'
                                  (mkApproveRenewalBody (JStr (generateId env "renew"))
                                     (JBool true))
                                  (snd (requestRenewal env h body db)))))
           (rb_rentalId body)
         = Some (Rental.mk (Rental.id rental) (Rental.tenantId rental)
                   (Rental.landlordId rental) (Rental.propertyId rental)
                   (dateAfterDays (rentalDate rental) 1)
                   (Some (addMonths (dateAfterDays (rentalDate rental) 1) n))
                   active (Rental.monthlyRent rental) (Rental.createdAt rental)).
Proof.
  intros env h body db env' h' S1 Fresh S2.
  destruct (decide_after_request _ _ _ _ _ _ _ S1 Fresh S2)
    as (td & rental & n & l & Hr & Hst & Hn & E).
  exists rental, n. split; [exact Hr|]. split; [exact Hn|].
  rewrite E.
  transitivity (option_map
                  (fun r => afterRenewal true (requestedRenewal env td rental l n)
                              (Rental.with_status renewal_pending r))
                  (findById (rentals db) (rb_rentalId body))).
  - apply (findById_updateFirst (rentals db) (rb_rentalId body)
             (fun r => afterRenewal true (requestedRenewal env td rental l n)
                         (Rental.with_status renewal_pending r))).
    reflexivity.
  - rewrite Hr. reflexivity.
Qed.

Lemma approved_renewal_period_witness :
  exists rental n,
    findById (rentals Scenario.occupied) (JStr "r1") = Some rental
    /\ JNum 6 = JNum n
    /\ findById (rentals (snd (approveRenewal Scenario.env3 Scenario.landlord1
                                (mkApproveRenewalBody
                                   (JStr (generateId Scenario.env3 "renew"))
                                   (JBool true))
                                (snd (requestRenewal Scenario.env3 Scenario.tenant1
                                        (Scenario.renew 6) Scenario.occupied)))))
         (JStr "r1")
       = Some (Rental.mk (Rental.id rental) (Rental.tenantId rental)
                 (Rental.landlordId rental) (Rental.propertyId rental)
                 (dateAfterDays (rentalDate rental) 1)
                 (Some (addMonths (dateAfterDays (rentalDate rental) 1) n))
                 active (Rental.monthlyRent rental) (Rental.createdAt rental)).
Proof.
  apply (approved_renewal_period Scenario.env3 Scenario.tenant1
           (Scenario.renew 6) Scenario.occupied Scenario.env3 Scenario.landlord1).
  - vm_compute. reflexivity.
  - reflexivity.
  - vm_compute. reflexivity.
Defined.

(** ** Sorted arrays *)

Module SortFacts.

Section Sort.
Context {A : Type} (compare : A -> A -> Z).

Lemma insertSorted_Permutation x xs :
  Permutation (insertSorted compare x xs) (x :: xs).
Proof.
  induction xs as [|y rest IH]; cbn; [apply Permutation_refl|].
  destruct (compare x y <=? 0); [apply Permutation_refl|].
  apply Permutation_trans with (y :: x :: rest);
    [now apply perm_skip|apply perm_swap].
Qed.

Lemma sort_Permutation xs : Permutation (sort compare xs) xs.
Proof.
  induction xs as [|x rest IH]; cbn; [apply perm_nil|].
  apply Permutation_trans with (x :: sort compare rest);
    [apply insertSorted_Permutation|now apply perm_skip].
Qed.

Lemma sort_In x xs : In x (sort compare xs) <-> In x xs.
Proof.
  split; apply Permutation_in;
    [apply sort_Permutation|apply Permutation_sym, sort_Permutation].
Qed.

Lemma sort_length xs : List.length (sort compare xs) = List.length xs.
Proof. apply Permutation_length, sort_Permutation. Qed.

Hypothesis total : forall a b, compare a b <= 0 \/ compare b a <= 0.
Hypothesis trans :
  forall a b c, compare a b <= 0 -> compare b c <= 0 -> compare a c <= 0.

Lemma insertSorted_sorted x xs :
  sortedBy compare xs -> sortedBy compare (insertSorted compare x xs).
Proof.
  unfold sortedBy. induction xs as [|y rest IH]; cbn; intros S.
  - constructor; constructor.
  - apply StronglySorted_inv in S as [S Hy].
    destruct (Z.leb_spec (compare x y) 0) as [L|L].
    + constructor; [constructor; assumption|].
      constructor; [exact L|].
      rewrite Forall_forall in Hy |- *. intros z Hz.
      apply trans with y; [exact L|now apply Hy].
    + constructor; [now apply IH|].
      rewrite Forall_forall in Hy |- *. intros z Hz.
      apply (Permutation_in _ (insertSorted_Permutation x rest)) in Hz.
      destruct Hz as [<- | Hz]; [|now apply Hy].
      destruct (total y x); [assumption|lia].
Qed.

Lemma sort_sorted xs : sortedBy compare (sort compare xs).
Proof.
  induction xs as [|x rest IH]; cbn; [constructor|].
  now apply insertSorted_sorted.
Qed.

End Sort.

(** A comparator that subtracts the keys orders by the key, the largest
    first. *)
Lemma sort_by_key_sorted {A : Type} (key : A -> Z) xs :
  sortedBy (fun a b => key b - key a) (sort (fun a b => key b - key a) xs).
Proof. apply sort_sorted; intros; lia. Qed.

(** The sort looks at the comparator on the elements of the array only. *)
Lemma insertSorted_ext {A : Type} (c1 c2 : A -> A -> Z) x xs :
  (forall y, In y xs -> c1 x y = c2 x y) ->
  insertSorted c1 x xs = insertSorted c2 x xs.
Proof.
  induction xs as [|y rest IH]; cbn; intros E; [reflexivity|].
  rewrite (E y) by now left.
  destruct (c2 x y <=? 0); [reflexivity|].
  f_equal. apply IH. intros z Hz. apply E. now right.
Qed.

Lemma sort_ext {A : Type} (c1 c2 : A -> A -> Z) xs :
  (forall a b, In a xs -> In b xs -> c1 a b = c2 a b) ->
  sort c1 xs = sort c2 xs.
Proof.
  induction xs as [|x rest IH]; cbn; intros E; [reflexivity|].
  rewrite IH by (intros a b Ha Hb; apply E; now right).
  apply insertSorted_ext. intros y Hy. apply sort_In in Hy.
  apply E; [now left|now right].
Qed.

(** The first element of a sorted array comes before every element. *)
Lemma sorted_head {A : Type} (compare : A -> A -> Z) x xs y :
  sortedBy compare (x :: xs) -> In y xs -> compare x y <= 0.
Proof.
  intros S Hy. apply StronglySorted_inv in S as [_ F].
  rewrite Forall_forall in F. now apply F.
Qed.

Lemma sorted_tail {A : Type} (compare : A -> A -> Z) x xs :
  sortedBy compare (x :: xs) -> sortedBy compare xs.
Proof. intros S. now apply StronglySorted_inv in S as [S _]. Qed.

End SortFacts.
Import SortFacts.

(** ** The listing of properties, and the edits of a property *)

Module PropertyFacts.

Lemma filter_none {A : Type} (f : A -> bool) (xs : list A) :
  (List.length (filter f xs) =? 0)%nat = true <-> forall x, In x xs -> f x = false.
Proof.
  rewrite Nat.eqb_eq, length_zero_iff_nil. split.
  - intros E x Hx. destruct (f x) eqn:F; [|reflexivity].
    assert (I : In x (filter f xs)) by (apply filter_In; auto).
    rewrite E in I. contradiction.
  - intros N. induction xs as [|x rest IH]; cbn; [reflexivity|].
    rewrite (N x (or_introl eq_refl)). apply IH. intros y Hy. apply N. now right.
Qed.

Lemma filter_some {A : Type} (f : A -> bool) (xs : list A) :
  (0 <? List.length (filter f xs))%nat = false <-> filter f xs = [].
Proof.
  rewrite Nat.ltb_ge. rewrite <- length_zero_iff_nil. lia.
Qed.

(** A rental does not block a property when it is on another property,
    or is not live, or has ended. *)
Lemma blocks_false now propertyId r :
  blocks now propertyId r = false
  <-> (Rental.propertyId r = propertyId ->
       isLiveStatus (Rental.status r) = true ->
       exists e, Rental.endDate r = Some e /\ parse e <= now).
Proof.
  unfold blocks.
  destruct (String.eqb_spec (Rental.propertyId r) propertyId) as [E|E]; cbn [negb].
  - destruct (isLiveStatus (Rental.status r)).
    + destruct (Rental.endDate r) as [e|].
      * destruct (Z.gtb_spec (parse e) now) as [G|G].
        -- split; [discriminate|]. intros H. destruct (H E eq_refl) as (e' & [= <-] & L).
           lia.
        -- split; [|reflexivity]. intros _ _ _. exists e. split; [reflexivity|lia].
      * split; [discriminate|]. intros H. destruct (H E eq_refl) as (e' & D & _).
        discriminate.
    + split; [|reflexivity]. intros _ _ D. discriminate.
  - split; [|reflexivity]. intros _ C. contradiction.
Qed.

Lemma isListed_spec now rs p :
  isListed now rs p = true
  <-> Property.available p = true
      /\ forall r, In r rs -> blocks now (Property.id p) r = false.
Proof.
  unfold isListed, activeRentalsOn. destruct (Property.available p); cbn [negb].
  - rewrite filter_none. intuition.
  - split; [discriminate|]. intros [D _]. discriminate.
Qed.

Lemma updateById_In {A : Type} `{HasId A} (data : list A) id (f : A -> A) y :
  In y (updateById data id f) ->
  exists x, In x data
            /\ y = if strict_eq_str (id_of x) id then f x else x.
Proof. unfold updateById. intros I. apply in_map_iff in I as (x & <- & Hx). eauto. Qed.

(** What an edit was checked against, and what it wrote. *)
Lemma updateProperty_success env h id body db :
  success (fst (updateProperty env h id body db)) = true ->
  exists tokenData property rent,
    authorizes h "landlord" tokenData
    /\ findById (properties db) (JStr id) = Some property
    /\ Property.ownerId property = userId tokenData
    /\ (up_available body = Some true ->
        activeRentalsOn (now env) id (rentals db) = [])
    /\ givenRent (up_rent body) = Some rent
    /\ (forall s e, up_startDate body = Some s -> up_endDate body = Some e ->
                    (parseable s = true -> startOfToday env <= parse s)
                    /\ (parseable s = true -> parseable e = true ->
                        parse s < parse e
                        /\ 2 <= monthsDiff (parse s) (parse e)))
    /\ snd (updateProperty env h id body db)
       = set_properties
           (updateById (properties db) (JStr id) (applyUpdate body rent)) db.
Proof.
  unfold updateProperty.
  repeat (handler_step; try discriminate); try auth_failed.
  destruct (up_startDate body) as [s|]; [destruct (up_endDate body) as [e|]|];
    cbn [bind run fst snd success];
    [unfold checkWindow; repeat (handler_step; try discriminate)| |];
    intros _;
    match goal with
    | Ha : authenticate _ _ _ = inr ?td, Hp : findById (properties db) _ = Some ?p,
      Hr : givenRent _ = Some ?r |- _ =>
        exists td, p, r; apply authenticate_inr in Ha
    end;
    repeat match goal with
           | H : negb _ = false |- _ => apply negb_false_iff in H
           end;
    (split; [assumption|]); (split; [reflexivity|]);
    (split; [now apply String.eqb_eq|]);
    (split;
     [intros Av;
      match goal with
      | H : match up_available body with _ => _ end = false |- _ =>
          rewrite Av in H; now apply filter_some in H
      end|]);
    (split; [reflexivity|]);
    (split; [|reflexivity]).
  - intros s' e' [= <-] [= <-].
    repeat match goal with
           | H : lessThan _ _ = false |- _ => revert H
           | H : lessOrEqual _ _ = false |- _ => revert H
           end.
    unfold timeValue.
    destruct (parseable s); [|intros; split; intros; discriminate].
    destruct (parseable e); cbn [lessThan lessOrEqual monthsBetween]; intros;
      repeat match goal with
             | H : (_ <? _) = false |- _ => apply Z.ltb_ge in H
             | H : (_ <=? _) = false |- _ => apply Z.leb_gt in H
             end.
    + split; intros; lia.
    + split; [intros; lia|intros; discriminate].
  - discriminate.
  - discriminate.
Qed.

Lemma updateProperty_failure env h id body db :
  success (fst (updateProperty env h id body db)) = false ->
  snd (updateProperty env h id body db) = db.
Proof.
  unfold updateProperty.
  repeat (handler_step; try reflexivity).
  destruct (up_startDate body) as [s|]; [destruct (up_endDate body) as [e|]|];
    try (cbn; discriminate).
  unfold checkWindow. repeat (handler_step; try reflexivity). discriminate.
Qed.

(** What a new listing was checked against, and what it wrote. *)
Lemma listAgain_success env h id body db :
  success (fst (listAgain env h id body db)) = true ->
  exists tokenData property,
    authorizes h "landlord" tokenData
    /\ findById (properties db) (JStr id) = Some property
    /\ Property.ownerId property = userId tokenData
    /\ activeRentalsOn (now env) id (rentals db) = []
    /\ snd (listAgain env h id body db)
       = set_properties
           (updateById (properties db) (JStr id)
              (relist (newStartDate env (la_previousEndDate body)
                         (propertyRentals id (rentals db)))
                      (addMonths (newStartDate env (la_previousEndDate body)
                                    (propertyRentals id (rentals db))) 2)))
           db.
Proof.
  unfold listAgain.
  repeat (handler_step; try discriminate); try auth_failed.
  match goal with
  | Ha : authenticate _ _ _ = inr ?td, Hp : findById (properties db) _ = Some ?p |- _ =>
      intros _; exists td, p; apply authenticate_inr in Ha
  end.
  repeat match goal with
         | H : negb _ = false |- _ => apply negb_false_iff in H
         end.
  repeat split; auto.
  - now apply String.eqb_eq.
  - now apply filter_some.
Qed.

Lemma listAgain_failure env h id body db :
  success (fst (listAgain env h id body db)) = false ->
  snd (listAgain env h id body db) = db.
Proof.
  unfold listAgain.
  repeat (handler_step; try reflexivity). discriminate.
Qed.

(** In an array sorted by date, the most recent first, the first end date
    is the latest end date. *)
Lemma firstEndDate_sorted rs e :
  sortedBy (fun a b => rentalDate b - rentalDate a) rs ->
  firstEndDate rs = Some e ->
  (exists r, In r rs /\ Rental.endDate r = Some e)
  /\ forall r' e', In r' rs -> Rental.endDate r' = Some e' -> parse e' <= parse e.
Proof.
  induction rs as [|r rest IH]; cbn; [discriminate|].
  intros S F. destruct (Rental.endDate r) as [e0|] eqn:E.
  - injection F as <-. split; [exists r; auto|].
    intros r' e' [<- | I] E'.
    + rewrite E in E'. injection E' as <-. lia.
    + pose proof (sorted_head _ _ _ _ S I) as L. cbn in L.
      unfold rentalDate in L. rewrite E, E' in L. lia.
  - destruct (IH (sorted_tail _ _ _ S) F) as ((r0 & I0 & E0) & M).
    split; [exists r0; auto|].
    intros r' e' [<- | I] E'; [congruence|]. now apply M with r'.
Qed.

Lemma firstEndDate_some rs r e :
  In r rs -> Rental.endDate r = Some e -> exists e', firstEndDate rs = Some e'.
Proof.
  induction rs as [|x rest IH]; cbn; [contradiction|].
  intros I E. destruct (Rental.endDate x) as [e0|] eqn:Ex; [eauto|].
  destruct I as [-> | I]; [congruence|]. now apply IH.
Qed.

(** The date a rental is sorted by, when it parses. *)
Lemma sortDate_rentalDate r t : sortDate r = Some t -> t = rentalDate r.
Proof.
  unfold sortDate, rentalDate, timeValue.
  destruct (Rental.endDate r) as [e|].
  - destruct (parseable e); congruence.
  - destruct (parseable (Rental.startDate r)); congruence.
Qed.

(** When the dates of the rentals of a property parse, the rentals are
    sorted by them, the most recent first. *)
Lemma propertyRentals_sorted id rs :
  (forall r, In r rs -> Rental.propertyId r = id -> sortDate r <> None) ->
  sortedBy (fun a b => rentalDate b - rentalDate a) (propertyRentals id rs).
Proof.
  intros P. unfold propertyRentals.
  rewrite (sort_ext byDateDescending (fun a b => rentalDate b - rentalDate a)).
  - apply sort_by_key_sorted.
  - intros a b Ha Hb. apply filter_In in Ha as [Ha Pa], Hb as [Hb Pb].
    apply String.eqb_eq in Pa, Pb.
    pose proof (P a Ha Pa) as Na. pose proof (P b Hb Pb) as Nb.
    unfold byDateDescending.
    destruct (sortDate b) as [dateB|] eqn:Eb; [|contradiction].
    destruct (sortDate a) as [dateA|] eqn:Ea; [|contradiction].
    now rewrite (sortDate_rentalDate _ _ Ea), (sortDate_rentalDate _ _ Eb).
Qed.

Lemma propertyRentals_In id rs r :
  In r (propertyRentals id rs) <-> In r rs /\ Rental.propertyId r = id.
Proof.
  unfold propertyRentals. rewrite sort_In, filter_In, String.eqb_eq. reflexivity.
Qed.

End PropertyFacts.
Import PropertyFacts.



(** [X11] Once the landlord has approved a rental request, the property
    of the rental is not in the listing any more, at whatever time the
    listing is asked for. *)
Theorem approved_property_not_listed :
  forall env h body db env' reviews rental listing,
    success (fst (approveRental env h body db)) = true ->
    ar_action body = JStr "approve" ->
    findById (rentals db) (ar_rentalId body) = Some rental ->
    payload (fst (listProperties env' reviews (snd (approveRental env h body db))))
    = Some listing ->
    forall p, In p (map lp_property listing) ->
              Property.id p <> Rental.propertyId rental.
Proof.
  intros env h body db env' reviews rental listing S Act Hr L p I.
  destruct (approveRental_success _ _ _ _ S)
    as (td & r & property & _ & _ & _ & Hr' & Hp & _ & _ & E).
  rewrite Hr in Hr'. injection Hr' as <-.
  rewrite Act in E. cbn [strict_eq_str String.eqb] in E.
  change (String.eqb "approve" "approve") with true in E.
  cbn [payload fst listProperties succeed] in L. injection L as <-.
  rewrite map_map in I. cbn [lp_property] in I. rewrite map_id in I.
  apply filter_In in I as [I Li]. apply isListed_spec in Li as [Av _].
  rewrite E in I. cbn [properties set_properties] in I.
  apply updateById_In in I as (x & _ & ->).
  intros Eid. pose proof (findById_id _ _ _ Hp) as Pid. injection Pid as Pid.
  destruct (strict_eq_str (id_of x) (JStr (Property.id property))) eqn:C.
  - cbn in Av. discriminate.
  - cbn in C. rewrite Pid in Eid. change (id_of x) with (Property.id x) in C.
    rewrite Eid, String.eqb_refl in C. discriminate.
Qed.

Lemma approved_property_not_listed_witness :
  Forall (fun p => Property.id p <> Scenario.propertyId1)
    (map lp_property
       (match payload (fst (listProperties Scenario.env3 [] Scenario.approved1)) with
        | Some listing => listing
        | None => []
        end)).
Proof.
  apply Forall_forall.
  assert (E : exists listing,
             payload (fst (listProperties Scenario.env3 [] Scenario.approved1))
             = Some listing) by (eexists; reflexivity).
  destruct E as (listing & E). rewrite E.
  refine (approved_property_not_listed Scenario.env3 Scenario.landlord1
            (Scenario.approval Scenario.rentalId1) Scenario.requested2
            Scenario.env3 []
            (requestedRental Scenario.env1 (mkTokenData "t1" "tenant")
               (Property.mk Scenario.propertyId1 "l1" "12 Mirpur Road" 1000 true
                  (Some "") (Some (Scenario.date 2025 3 1))
                  (Some (Scenario.date 2025 5 1)) (Some (now Scenario.env1)))
               2)
            listing _ eq_refl _ E).
  - vm_compute. reflexivity.
  - vm_compute. reflexivity.
Defined.



(** [X13] The window of a property is validated only when an edit gives
    both dates: an edit by the owner that gives one date alone, a valid
    rent or none, and does not switch the flag on against a blocking
    rental, succeeds and stores the date, whatever the other date of the
    property is. *)
Theorem updateProperty_one_date_unchecked :
  forall env h id body db tokenData property rent,
    authorizes h "landlord" tokenData ->
    findById (properties db) (JStr id) = Some property ->
    Property.ownerId property = userId tokenData ->
    (up_available body = Some true ->
     activeRentalsOn (now env) id (rentals db) = []) ->
    givenRent (up_rent body) = Some rent ->
    up_startDate body = None \/ up_endDate body = None ->
    success (fst (updateProperty env h id body db)) = true
    /\ findById (properties (snd (updateProperty env h id body db))) (JStr id)
       = Some (applyUpdate body rent property).
Proof.
  intros env h id body db td property rent Ha Hp Ho Hav Hr Hd.
  assert (G : match up_available body with
              | Some true =>
                  (0 <? List.length (activeRentalsOn (now env) id (rentals db)))%nat
              | _ => false
              end = false).
  { destruct (up_available body) as [[|]|]; auto. now rewrite Hav. }
  assert (W : match up_startDate body, up_endDate body with
              | Some startDate, Some endDate =>
                  checkWindow (A := Property.t) env startDate endDate
              | _, _ => inr tt
              end = inr tt).
  { destruct Hd as [-> | ->]; [reflexivity|].
    destruct (up_startDate body); reflexivity. }
  unfold updateProperty.
  rewrite (authenticate_ok _ _ _ _ Ha). cbn [bind].
  rewrite Hp. cbn [orReturn bind].
  rewrite Ho, String.eqb_refl. cbn [negb returnIf bind].
  rewrite G. cbn [returnIf bind]. rewrite Hr. cbn [orReturn bind].
  rewrite W. cbn [bind run fst snd success properties set_properties].
  split; [reflexivity|].
  rewrite findById_updateById by reflexivity. rewrite Hp. cbn [option_map].
  pose proof (findById_id _ _ _ Hp) as Eid. rewrite Eid at 1.
  cbn [strict_eq_str]. now rewrite String.eqb_refl.
Qed.

Lemma updateProperty_one_date_unchecked_witness :
  exists p,
    findById (properties (snd (updateProperty Scenario.env3 Scenario.landlord1 "p1"
                                 (Cases.edit None (Some (Scenario.date 2020 1 1)))
                                 Scenario.vacantUnlisted)))
             (JStr "p1") = Some p
    /\ Property.startDate p = Some (Scenario.date 2025 3 1)
    /\ Property.endDate p = Some (Scenario.date 2020 1 1).
Proof.
  eexists. split.
  - refine (proj2 (updateProperty_one_date_unchecked Scenario.env3 Scenario.landlord1
                     "p1" (Cases.edit None (Some (Scenario.date 2020 1 1)))
                     Scenario.vacantUnlisted (mkTokenData "l1" "landlord")
                     (Scenario.property1 false) None _ eq_refl eq_refl _ eq_refl
                     (or_introl eq_refl))).
    + exists "l1_landlord_1_x". repeat split.
    + discriminate.
  - split; reflexivity.
Defined.



(** [X15] When a property is listed again without a date in the request,
    some rental of the property has an end date, and the dates by which
    the rentals of the property are sorted (the end date, or else the
    start date) all parse, the new window starts on the latest end date
    among the rentals of the property. *)
Theorem listAgain_latest_end_date :
  forall env h id body db r0 e0,
    success (fst (listAgain env h id body db)) = true ->
    la_previousEndDate body = None ->
    (forall r, In r (rentals db) -> Rental.propertyId r = id -> sortDate r <> None) ->
    In r0 (rentals db) ->
    Rental.propertyId r0 = id ->
    Rental.endDate r0 = Some e0 ->
    exists p e,
      findById (properties (snd (listAgain env h id body db))) (JStr id) = Some p
      /\ Property.startDate p = Some e
      /\ (exists r, In r (rentals db) /\ Rental.propertyId r = id
                    /\ Rental.endDate r = Some e)
      /\ forall r' e', In r' (rentals db) -> Rental.propertyId r' = id ->
                       Rental.endDate r' = Some e' -> parse e' <= parse e.
Proof.
  intros env h id body db r0 e0 S Prev Dates I0 P0 E0.
  destruct (listAgain_success _ _ _ _ _ S) as (td & property & _ & Hp & _ & _ & E).
  assert (I0' : In r0 (propertyRentals id (rentals db)))
    by (apply propertyRentals_In; auto).
  destruct (firstEndDate_some _ _ _ I0' E0) as (e & F).
  assert (So : sortedBy (fun a b => rentalDate b - rentalDate a)
                 (propertyRentals id (rentals db)))
    by now apply propertyRentals_sorted.
  destruct (firstEndDate_sorted _ _ So F) as ((r & Ir & Er) & M).
  assert (N : newStartDate env (la_previousEndDate body)
                (propertyRentals id (rentals db)) = e).
  { rewrite Prev. unfold newStartDate.
    destruct (propertyRentals id (rentals db)) as [|x rest]; [contradiction|].
    now rewrite F. }
  rewrite E, N. cbn [properties set_properties].
  eexists. exists e. split.
  - rewrite findById_updateById by reflexivity. rewrite Hp. cbn [option_map].
    pose proof (findById_id _ _ _ Hp) as Eid. rewrite Eid at 1.
    cbn [strict_eq_str]. rewrite String.eqb_refl. reflexivity.
  - split; [reflexivity|]. split.
    + apply propertyRentals_In in Ir as [Ir Pr]. exists r. auto.
    + intros r' e' I' P' E'. apply M with r'; [|exact E'].
      apply propertyRentals_In. auto.
Qed.

Lemma listAgain_latest_end_date_witness :
  exists p e,
    findById (properties (snd (listAgain Scenario.env3 Scenario.landlord1 "p1"
                                 (mkListAgainBody None) Cases.ended)))
             (JStr "p1") = Some p
    /\ Property.startDate p = Some e
    /\ (exists r, In r (rentals Cases.ended) /\ Rental.propertyId r = "p1"
                  /\ Rental.endDate r = Some e)
    /\ forall r' e', In r' (rentals Cases.ended) -> Rental.propertyId r' = "p1" ->
                     Rental.endDate r' = Some e' -> parse e' <= parse e.
Proof.
  refine (listAgain_latest_end_date Scenario.env3 Scenario.landlord1 "p1"
            (mkListAgainBody None) Cases.ended
            (Rental.mk "r0" "t1" "l1" "p1" (Scenario.date 2023 1 1)
               (Some (Scenario.date 2024 1 1)) completed 1000 None)
            (Scenario.date 2024 1 1) _ eq_refl _ (or_introl eq_refl) eq_refl eq_refl).
  - vm_compute. reflexivity.
  - intros r [<- | [<- | []]] _; vm_compute; discriminate.
Defined.

(** ** The window of a property that is listed again *)

Module WindowFacts.

(** A date of a month, with a day number of at most 31, falls in that
    month or in the next. *)
Lemma monthIndex_MakeDay y m dd :
  0 <= m <= 11 -> 1 <= dd <= 31 ->
  y * 12 + m
  <= YearFromDay (MakeDay y m dd) * 12 + MonthOfDay (MakeDay y m dd)
  <= y * 12 + m + 1.
Proof.
  intros Hm Hd.
  set (len := MonthStart (InLeapYear y) (m + 1) - MonthStart (InLeapYear y) m).
  pose proof (month_length_ge_28 _ _ (InLeapYear_range y) Hm) as L28. fold len in L28.
  destruct (Z.le_gt_cases dd len) as [Le|Gt].
  - destruct (day_of_MakeDay y m dd Hm) as (Y & M & _); [fold len; lia|].
    rewrite Y, M. lia.
  - assert (Hm' : 0 <= m <= 10).
    { destruct (Z.eq_dec m 11) as [->|]; [|lia].
      exfalso. unfold len in Gt.
      destruct (InLeapYear_cases y) as [[E _]|[E _]]; rewrite E in Gt;
        eval_MonthStart; lia. }
    assert (E : MakeDay y m dd = MakeDay y (m + 1) (dd - len)).
    { rewrite !MakeDay_eq by lia. unfold len. lia. }
    assert (Hm1 : 0 <= m + 1 <= 11) by lia.
    pose proof (month_length_ge_28 _ _ (InLeapYear_range y) Hm1) as L28'.
    destruct (day_of_MakeDay y (m + 1) (dd - len) Hm1) as (Y & M & _); [lia|].
    rewrite E, Y, M. lia.
Qed.

(** Two months after midnight of a day: the date printed and read again
    is later, and two or three calendar months on. *)
Lemma two_months_on t :
  TimeWithinDay t = 0 ->
  let e := parse (toISODate (setMonth t (getMonth t + 2))) in
  t < e /\ 2 <= monthsDiff t e <= 3.
Proof.
  intros T0 e.
  assert (Ee : e = MakeDate (MakeDay (YearFromDay (Day t)) (MonthOfDay (Day t) + 2)
                               (DateOfDay (Day t))) 0).
  { unfold e. rewrite parse_toISODate, setMonth_eq, getMonth_eq, T0.
    rewrite Day_MakeDate by (unfold msPerDay; lia). reflexivity. }
  pose proof (MakeDay_plus2 (Day t)) as P2.
  pose proof (MakeDate_Day t) as Et. rewrite T0 in Et.
  split.
  - rewrite Ee. unfold MakeDate, msPerDay in *. lia.
  - unfold monthsDiff. rewrite !getFullYear_eq, !getMonth_eq.
    unfold YearFromTime, MonthFromTime.
    assert (De : Day e = MakeDay (YearFromDay (Day t)) (MonthOfDay (Day t) + 2)
                           (DateOfDay (Day t)))
      by (rewrite Ee; apply Day_MakeDate; unfold msPerDay; lia).
    rewrite De, MakeDay_carry.
    set (y := YearFromDay (Day t)). set (m := MonthOfDay (Day t)).
    pose proof (MonthOfDay_range (Day t)) as Hm. fold m in Hm.
    assert (Hm' : 0 <= (m + 2) mod 12 <= 11) by (Z.div_mod_to_equations; lia).
    pose proof (monthIndex_MakeDay (y + (m + 2) / 12) ((m + 2) mod 12)
                  (DateOfDay (Day t)) Hm' (DateOfDay_le_31 (Day t))) as K.
    assert (S : (y + (m + 2) / 12) * 12 + (m + 2) mod 12 = y * 12 + m + 2)
      by (Z.div_mod_to_equations; lia).
    lia.
Qed.

End WindowFacts.
Import WindowFacts.

(** [X16] The window of a property that is listed again passes the two
    rules on the dates that the creation and the edit of a property
    enforce: the end date is after the start date, and the months from
    the one to the other, counted as those handlers count them, are two
    at least (and three at most). *)
Theorem listAgain_window :
  forall env h id body db,
    success (fst (listAgain env h id body db)) = true ->
    exists p s e,
      findById (properties (snd (listAgain env h id body db))) (JStr id) = Some p
      /\ Property.available p = true
      /\ Property.startDate p = Some s
      /\ Property.endDate p = Some e
      /\ parse s < parse e
      /\ 2 <= monthsDiff (parse s) (parse e) <= 3.
Proof.
  intros env h id body db S.
  destruct (listAgain_success _ _ _ _ _ S) as (td & property & _ & Hp & _ & _ & E).
  rewrite E. cbn [properties set_properties].
  set (s := newStartDate env (la_previousEndDate body) (propertyRentals id (rentals db))).
  exists (relist s (addMonths s 2) property), s, (addMonths s 2).
  split.
  { rewrite findById_updateById by reflexivity. rewrite Hp. cbn [option_map].
    pose proof (findById_id _ _ _ Hp) as Eid. rewrite Eid at 1.
    cbn [strict_eq_str]. now rewrite String.eqb_refl. }
  split; [reflexivity|]. split; [reflexivity|]. split; [reflexivity|].
  apply (two_months_on (parse s)).
  unfold parse. apply TimeWithinDay_MakeDate. unfold msPerDay. lia.
Qed.

Lemma listAgain_window_witness :
  exists p s e,
    findById (properties (snd (listAgain Scenario.env3 Scenario.landlord1 "p1"
                                 (mkListAgainBody (Some (Scenario.date 2024 12 31)))
                                 Cases.ended)))
             (JStr "p1") = Some p
    /\ Property.available p = true
    /\ Property.startDate p = Some s
    /\ Property.endDate p = Some e
    /\ parse s < parse e
    /\ 2 <= monthsDiff (parse s) (parse e) <= 3.
Proof.
  apply (listAgain_window Scenario.env3 Scenario.landlord1 "p1"
           (mkListAgainBody (Some (Scenario.date 2024 12 31))) Cases.ended).
  vm_compute. reflexivity.
Defined.

(** ** Terms and conditions *)

Module TermsFacts.

(** What the creation of terms was checked against, and what it wrote. *)
Lemma createTerms_success env h body terms db :
  success (fst (createTerms env h body terms db)) = true ->
  exists tokenData title content,
    authorizes h "landlord" tokenData
    /\ (truthy (ct_propertyId body) = true ->
        ownsProperty db (userId tokenData) (ct_propertyId body) = true)
    /\ createTerms env h body terms db
       = (succeed "Terms and conditions created successfully"
            (Terms.mk (generateId env "terms") (userId tokenData)
               (scopeOf (ct_propertyId body)) title content
               (maxVersion (deactivateOld (userId tokenData) (ct_propertyId body) terms)
                + 1)
               true (now env) (now env)),
          (deactivateOld (userId tokenData) (ct_propertyId body) terms
           ++ [Terms.mk (generateId env "terms") (userId tokenData)
                 (scopeOf (ct_propertyId body)) title content
                 (maxVersion
                    (deactivateOld (userId tokenData) (ct_propertyId body) terms)
                  + 1)
                 true (now env) (now env)])%list).
Proof.
  unfold createTerms.
  repeat (handler_step; cbn [runWith]; try discriminate); try auth_failed.
  intros _.
  match goal with
  | Ha : authenticate _ _ _ = inr ?td, Ht : nonEmpty (ct_title body) = Some ?t,
    Hc : nonEmpty (ct_content body) = Some ?c |- _ =>
      exists td, t, c; apply authenticate_inr in Ha
  end.
  split; [assumption|]. split; [|reflexivity].
  intros T. match goal with
            | H : _ && negb _ = false |- _ =>
                rewrite T in H; cbn in H; now apply negb_false_iff in H
            end.
Qed.

Lemma createTerms_failure env h body terms db :
  success (fst (createTerms env h body terms db)) = false ->
  snd (createTerms env h body terms db) = terms.
Proof.
  unfold createTerms.
  repeat (handler_step; cbn [runWith]; try reflexivity). discriminate.
Qed.

Lemma deactivateOld_none landlord propertyId terms :
  filter (isReplaced landlord propertyId) (deactivateOld landlord propertyId terms) = [].
Proof.
  unfold deactivateOld. induction terms as [|t rest IH]; cbn; [reflexivity|].
  destruct (isReplaced landlord propertyId t) eqn:R.
  - unfold isReplaced. cbn [Terms.with_isActive Terms.isActive Terms.landlordId].
    rewrite andb_false_r. cbn. exact IH.
  - rewrite R. exact IH.
Qed.

(** The scope of new terms is the scope they were asked for. *)
Lemma sameScope_scopeOf db userId propertyId t :
  (truthy propertyId = true -> ownsProperty db userId propertyId = true) ->
  Terms.propertyId t = scopeOf propertyId ->
  sameScope propertyId t = true.
Proof.
  intros Own E. unfold sameScope, isFor, isGeneral, present. rewrite E.
  destruct (truthy propertyId) eqn:T.
  - specialize (Own eq_refl). unfold ownsProperty in Own.
    destruct (findById (properties db) propertyId) as [p|] eqn:F; [|discriminate].
    apply findById_id in F. subst propertyId. cbn in T |- *.
    apply negb_true_iff in T. rewrite T. cbn. apply String.eqb_refl.
  - destruct propertyId as [| |b|n|s|items|fields]; cbn in *; try reflexivity.
    apply negb_false_iff in T. now rewrite T.
Qed.

Lemma Math_max_ge x xs : forall v, In v (x :: xs) -> v <= Math_max x xs.
Proof.
  unfold Math_max.
  assert (G : forall ys y, y <= fold_left Z.max ys y
                           /\ forall v, In v ys -> v <= fold_left Z.max ys y).
  { induction ys as [|z rest IH]; cbn; intros y; [split; [lia|contradiction]|].
    destruct (IH (Z.max y z)) as [A B]. split; [lia|].
    intros v [E | I]; [subst v; lia|now apply B]. }
  destruct (G xs x) as [A B]. intros v [E | I]; [subst v; exact A|now apply B].
Qed.

Lemma maxVersion_ge terms t : In t terms -> Terms.version t <= maxVersion terms.
Proof.
  intros I. unfold maxVersion.
  assert (Iv : In (if Terms.version t =? 0 then 1 else Terms.version t)
                  (map (fun t => if Terms.version t =? 0 then 1 else Terms.version t)
                       terms))
    by (apply in_map_iff; eauto).
  destruct (map _ terms) as [|v vs]; [contradiction|].
  pose proof (Math_max_ge v vs _ Iv) as L.
  destruct (Z.eqb_spec (Terms.version t) 0); lia.
Qed.

Lemma deactivateOld_In landlord propertyId terms t :
  In t terms ->
  In (if isReplaced landlord propertyId t then Terms.with_isActive false t else t)
     (deactivateOld landlord propertyId terms).
Proof.
  intros I. unfold deactivateOld.
  now apply (in_map (fun t => if isReplaced landlord propertyId t
                              then Terms.with_isActive false t else t)).
Qed.

Lemma authenticate_inl_payload {A : Type} h r (deny : Response A) resp :
  payload deny = None -> authenticate h r deny = inl resp -> payload resp = None.
Proof.
  intros D. unfold authenticate, bind, orReturn, returnIf.
  destruct (bearerToken h); [|intros [= <-]; reflexivity].
  destruct (parseToken s); [|intros [= <-]; exact D].
  destruct (negb _); cbn; [intros [= <-]; exact D|discriminate].
Qed.

Lemma createTerms_payload env h body terms db x :
  payload (fst (createTerms env h body terms db)) = Some x ->
  success (fst (createTerms env h body terms db)) = true.
Proof.
  unfold createTerms.
  repeat (handler_step; cbn [runWith fst payload failure]; try discriminate);
    try reflexivity.
  match goal with
  | H : authenticate _ _ _ = inl ?r |- _ =>
      assert (N : payload r = None)
        by (eapply authenticate_inl_payload; [|exact H]; reflexivity);
      intros P; congruence
  end.
Qed.

(** What a deletion was checked against, and what it wrote. *)
Lemma deleteTerms_success h id terms :
  success (fst (deleteTerms h id terms)) = true ->
  exists tokenData term,
    authorizes h "landlord" tokenData
    /\ findById terms (JStr id) = Some term
    /\ Terms.landlordId term = userId tokenData
    /\ snd (deleteTerms h id terms) = deleteById terms (JStr id).
Proof.
  unfold deleteTerms.
  repeat (handler_step; cbn [runWith]; try discriminate); try auth_failed.
  intros _.
  match goal with
  | Ha : authenticate _ _ _ = inr ?td, Ht : findById terms _ = Some ?t |- _ =>
      exists td, t; apply authenticate_inr in Ha
  end.
  repeat split; auto.
  match goal with
  | H : negb _ = false |- _ => apply negb_false_iff in H; now apply String.eqb_eq
  end.
Qed.

Lemma deleteTerms_failure h id terms :
  success (fst (deleteTerms h id terms)) = false ->
  snd (deleteTerms h id terms) = terms.
Proof.
  unfold deleteTerms.
  repeat (handler_step; cbn [runWith]; try reflexivity). discriminate.
Qed.

End TermsFacts.
Import TermsFacts.

(** [X17] After a landlord has created terms, the new terms are the only
    active terms of that landlord for the property they were created for
    (or, when created for no property, the only active general terms of
    that landlord).  The terms they replace are kept, switched off; all
    other terms are kept as they are. *)
Theorem createTerms_single_active :
  forall env h body terms db,
    success (fst (createTerms env h body terms db)) = true ->
    exists tokenData newTerms,
      authorizes h "landlord" tokenData
      /\ payload (fst (createTerms env h body terms db)) = Some newTerms
      /\ Terms.landlordId newTerms = userId tokenData
      /\ Terms.isActive newTerms = true
      /\ activeTermsOf (userId tokenData) (ct_propertyId body)
           (snd (createTerms env h body terms db))
         = [newTerms]
      /\ forall t, In t terms ->
           In (if isReplaced (userId tokenData) (ct_propertyId body) t
               then Terms.with_isActive false t else t)
              (snd (createTerms env h body terms db)).
Proof.
  intros env h body terms db S.
  destruct (createTerms_success _ _ _ _ _ S) as (td & title & content & Ha & Own & E).
  exists td. eexists. rewrite E. cbn [fst snd payload succeed].
  split; [exact Ha|]. split; [reflexivity|]. split; [reflexivity|].
  split; [reflexivity|]. split.
  - unfold activeTermsOf. rewrite filter_app, deactivateOld_none. cbn [filter app].
    unfold isReplaced at 1. cbn [Terms.landlordId Terms.isActive].
    rewrite String.eqb_refl. cbn [andb].
    rewrite (sameScope_scopeOf db (userId td)); [reflexivity|exact Own|reflexivity].
  - intros t I. apply in_or_app. left. now apply deactivateOld_In.
Qed.

Lemma createTerms_single_active_witness :
  exists tokenData newTerms,
    authorizes Scenario.landlord1 "landlord" tokenData
    /\ payload (fst (createTerms Scenario.env3 Scenario.landlord1
                       (Cases.newTermsFor (JStr "p1")) Cases.terms0 Scenario.occupied))
       = Some newTerms
    /\ Terms.landlordId newTerms = userId tokenData
    /\ Terms.isActive newTerms = true
    /\ activeTermsOf (userId tokenData) (JStr "p1")
         (snd (createTerms Scenario.env3 Scenario.landlord1
                 (Cases.newTermsFor (JStr "p1")) Cases.terms0 Scenario.occupied))
       = [newTerms]
    /\ forall t, In t Cases.terms0 ->
         In (if isReplaced (userId tokenData) (JStr "p1") t
             then Terms.with_isActive false t else t)
            (snd (createTerms Scenario.env3 Scenario.landlord1
                    (Cases.newTermsFor (JStr "p1")) Cases.terms0 Scenario.occupied)).
Proof.
  apply (createTerms_single_active Scenario.env3 Scenario.landlord1
           (Cases.newTermsFor (JStr "p1")) Cases.terms0 Scenario.occupied).
  vm_compute. reflexivity.
Defined.

(** [X18] New terms get a version number above the version number of
    every terms on record, of any landlord. *)
Theorem createTerms_version :
  forall env h body terms db newTerms,
    payload (fst (createTerms env h body terms db)) = Some newTerms ->
    forall t, In t terms -> Terms.version t < Terms.version newTerms.
Proof.
  intros env h body terms db newTerms P t I.
  pose proof (createTerms_payload _ _ _ _ _ _ P) as S.
  destruct (createTerms_success _ _ _ _ _ S) as (td & title & content & _ & _ & E).
  rewrite E in P. cbn [fst payload succeed] in P. injection P as <-.
  cbn [Terms.version].
  pose proof (deactivateOld_In (userId td) (ct_propertyId body) terms t I) as I'.
  apply maxVersion_ge in I'.
  destruct (isReplaced (userId td) (ct_propertyId body) t); cbn in I'; lia.
Qed.

Lemma createTerms_version_witness :
  Forall (fun t => Terms.version t < 6) Cases.terms0.
Proof.
  apply Forall_forall.
  apply (createTerms_version Scenario.env3 Scenario.landlord1
           (Cases.newTermsFor JUndefined) Cases.terms0 Scenario.occupied
           (Terms.mk "terms17384544000009" "l1" None "Flat rules"
              "No smoking, no pets." 6 true (now Scenario.env3) (now Scenario.env3))).
  vm_compute. reflexivity.
Defined.

(** [X19] Terms are deleted only by the landlord they belong to.  After a
    deletion nothing is found under the id, and asking for the terms by
    that id is answered with 404; terms under other ids are found as
    before.  A deletion that fails writes nothing. *)
Theorem deleteTerms_effects :
  forall h id terms,
    (success (fst (deleteTerms h id terms)) = true ->
     exists tokenData term,
       authorizes h "landlord" tokenData
       /\ findById terms (JStr id) = Some term
       /\ Terms.landlordId term = userId tokenData
       /\ findById (snd (deleteTerms h id terms)) (JStr id) = None
       /\ fst (getTermsById id (snd (deleteTerms h id terms)))
          = failure 404 "Terms not found"
       /\ forall s, s <> id ->
            findById (snd (deleteTerms h id terms)) (JStr s) = findById terms (JStr s))
    /\ (success (fst (deleteTerms h id terms)) = false ->
        snd (deleteTerms h id terms) = terms).
Proof.
  intros h id terms. split; [|apply deleteTerms_failure].
  intros S. destruct (deleteTerms_success _ _ _ S) as (td & term & Ha & Ht & Ho & E).
  exists td, term. rewrite E.
  split; [exact Ha|]. split; [exact Ht|]. split; [exact Ho|].
  split; [apply findById_deleteById_same|]. split.
  - unfold getTermsById. rewrite findById_deleteById_same. reflexivity.
  - intros s N. apply findById_deleteById_other. congruence.
Qed.

Lemma deleteTerms_effects_witness :
  snd (deleteTerms Scenario.landlord1 "terms3" Cases.terms0) = Cases.terms0
  /\ exists tokenData term,
       authorizes Scenario.landlord1 "landlord" tokenData
       /\ findById Cases.terms0 (JStr "terms2") = Some term
       /\ Terms.landlordId term = userId tokenData
       /\ findById (snd (deleteTerms Scenario.landlord1 "terms2" Cases.terms0))
            (JStr "terms2") = None
       /\ fst (getTermsById "terms2"
                 (snd (deleteTerms Scenario.landlord1 "terms2" Cases.terms0)))
          = failure 404 "Terms not found"
       /\ forall s, s <> "terms2" ->
            findById (snd (deleteTerms Scenario.landlord1 "terms2" Cases.terms0))
              (JStr s)
            = findById Cases.terms0 (JStr s).
Proof.
  split.
  - apply (proj2 (deleteTerms_effects Scenario.landlord1 "terms3" Cases.terms0)).
    vm_compute. reflexivity.
  - apply (proj1 (deleteTerms_effects Scenario.landlord1 "terms2" Cases.terms0)).
    vm_compute. reflexivity.
Defined.

Module TermsViewFacts.

Lemma authenticateAny_ok {A : Type} h token tokenData :
  bearerToken h = Some token -> parseToken token = Some tokenData ->
  authenticateAny (A := A) h = inr tokenData.
Proof. intros B P. unfold authenticateAny. now rewrite B; cbn; rewrite P. Qed.

(** What a tenant is shown of the terms of a property. *)
Lemma getTerms_tenant h roleParam p terms db token tokenData property :
  bearerToken h = Some token ->
  parseToken token = Some tokenData ->
  match nonEmpty roleParam with Some r => r | None => role tokenData end = "tenant" ->
  p <> "" ->
  findById (properties db) (JStr p) = Some property ->
  getTerms h roleParam (Some p) terms db
  = (succeed ""
       (map (enrichTerms db)
            (match sort byUpdatedAt (filter (appliesTo property p) terms) with
             | mostRecent :: _ => [mostRecent]
             | [] => []
             end)),
     terms).
Proof.
  intros B P R N F. unfold getTerms.
  rewrite (authenticateAny_ok _ _ _ B P). cbn [bind]. rewrite R.
  cbn [String.eqb Ascii.eqb Bool.eqb]. unfold requiredParam.
  apply String.eqb_neq in N. rewrite N. cbn [orReturn bind]. rewrite F.
  reflexivity.
Qed.

Lemma sort_newest_first {A : Type} (key : A -> Z) (xs : list A) (x : A) :
  (forall y, In y xs -> key y < key x) ->
  exists rest, sort (fun a b => key b - key a) (xs ++ [x]) = x :: rest.
Proof.
  intros L. induction xs as [|a rest IH]; cbn; [eauto|].
  destruct IH as (rest' & ->); [intros y I; apply L; now right|].
  cbn. pose proof (L a (or_introl eq_refl)).
  destruct (Z.leb_spec (key x - key a) 0); [lia|]. eauto.
Qed.

End TermsViewFacts.
Import TermsViewFacts.



(** [X21] When a landlord creates terms for one of their properties at
    an instant later than the last update of every terms on record, a
    tenant who then asks for the terms of that property is shown the new
    terms and no other. *)
Theorem created_terms_shown_to_tenant :
  forall env h body terms db p h' roleParam token tokenData,
    success (fst (createTerms env h body terms db)) = true ->
    ct_propertyId body = JStr p ->
    p <> "" ->
    (forall t, In t terms -> Terms.updatedAt t < now env) ->
    bearerToken h' = Some token ->
    parseToken token = Some tokenData ->
    match nonEmpty roleParam with Some r => r | None => role tokenData end = "tenant" ->
    exists newTerms,
      payload (fst (createTerms env h body terms db)) = Some newTerms
      /\ fst (getTerms h' roleParam (Some p) (snd (createTerms env h body terms db)) db)
         = succeed "" [enrichTerms db newTerms].
Proof.
  intros env h body terms db p h' roleParam token td' S Pid N Old B P R.
  destruct (createTerms_success _ _ _ _ _ S) as (td & title & content & Ha & Own & E).
  rewrite E. cbn [fst snd payload succeed]. eexists. split; [reflexivity|].
  rewrite Pid in Own |- *.
  assert (T : truthy (JStr p) = true)
    by (cbn; apply negb_true_iff; now apply String.eqb_neq).
  specialize (Own T). unfold ownsProperty in Own.
  destruct (findById (properties db) (JStr p)) as [property|] eqn:F; [|discriminate].
  apply String.eqb_eq in Own.
  rewrite (getTerms_tenant _ _ _ _ _ _ _ _ B P R N F). cbn [fst].
  rewrite filter_app. cbn [filter].
  set (new := Terms.mk (generateId env "terms") (userId td) (scopeOf (JStr p)) title
                content (maxVersion (deactivateOld (userId td) (JStr p) terms) + 1)
                true (now env) (now env)).
  assert (An : appliesTo property p new = true).
  { unfold appliesTo, isFor, new. cbn [Terms.landlordId Terms.isActive Terms.propertyId].
    rewrite Own, String.eqb_refl. cbn [scopeOf andb].
    apply String.eqb_neq in N. rewrite N. cbn [strict_eq_str].
    rewrite String.eqb_refl. apply orb_true_r. }
  rewrite An.
  destruct (sort_newest_first Terms.updatedAt
              (filter (appliesTo property p) (deactivateOld (userId td) (JStr p) terms))
              new) as (rest & Es).
  - intros y I. apply filter_In in I as [I _]. unfold deactivateOld in I.
    apply in_map_iff in I as (t & <- & It). specialize (Old t It).
    destruct (isReplaced (userId td) (JStr p) t); cbn; exact Old.
  - unfold byUpdatedAt. rewrite Es. reflexivity.
Qed.

Lemma created_terms_shown_to_tenant_witness :
  exists newTerms,
    payload (fst (createTerms Scenario.env3 Scenario.landlord1
                    (Cases.newTermsFor (JStr "p1")) Cases.terms0 Scenario.occupied))
    = Some newTerms
    /\ fst (getTerms Scenario.tenant1 None (Some "p1")
              (snd (createTerms Scenario.env3 Scenario.landlord1
                      (Cases.newTermsFor (JStr "p1")) Cases.terms0 Scenario.occupied))
              Scenario.occupied)
       = succeed "" [enrichTerms Scenario.occupied newTerms].
Proof.
  refine (created_terms_shown_to_tenant Scenario.env3 Scenario.landlord1
            (Cases.newTermsFor (JStr "p1")) Cases.terms0 Scenario.occupied "p1"
            Scenario.tenant1 None "t1_tenant_1_x" (mkTokenData "t1" "tenant")
            _ eq_refl _ _ eq_refl eq_refl eq_refl).
  - vm_compute. reflexivity.
  - discriminate.
  - intros t [<- | [<- | [<- | []]]]; vm_compute; reflexivity.
Defined.

(** ** The tenant's dashboard and the payments *)

Module TenantDashboardFacts.

Lemma authorizes_functional h r td td' :
  authorizes h r td -> authorizes h r td' -> td = td'.
Proof.
  intros (t & B & P & _) (t' & B' & P' & _). congruence.
Qed.

(** The first element that satisfies one test and the first that
    satisfies another are the same element when each satisfies the test
    of the other. *)
Lemma find_same {A : Type} (p q : A -> bool) (xs : list A) a b :
  find p xs = Some a -> find q xs = Some b -> q a = true -> p b = true -> a = b.
Proof.
  induction xs as [|x rest IH]; cbn; [discriminate|].
  destruct (p x) eqn:Px, (q x) eqn:Qx.
  - congruence.
  - intros [= <-]. congruence.
  - intros _ [= <-]. congruence.
  - exact IH.
Qed.

Lemma fold_left_sum {A : Type} (f : A -> Z) (xs : list A) (z : Z) :
  fold_left (fun sum x => sum + f x) xs z = z + fold_left (fun sum x => sum + f x) xs 0.
Proof.
  revert z. induction xs as [|x rest IH]; intros z; cbn; [lia|].
  rewrite IH, (IH (f x)). lia.
Qed.

Lemma totalPaidOf_snoc history p :
  totalPaidOf (history ++ [p])
  = totalPaidOf history
    + (if PaymentStatus_eqb (Payment.status p) paid then Payment.amount p else 0).
Proof.
  unfold totalPaidOf. rewrite filter_app, fold_left_app. cbn [filter].
  destruct (PaymentStatus_eqb (Payment.status p) paid); cbn; lia.
Qed.

(** The dashboard data of a tenant who is a registered user. *)
Lemma tenantDashboard_payload h db data :
  payload (fst (tenantDashboard h db)) = Some data ->
  exists tokenData user,
    authorizes h "tenant" tokenData
    /\ findById (users db) (JStr (userId tokenData)) = Some user
    /\ td_user data = user
    /\ td_currentRental data = find (isCurrentRentalOf user) (rentals db)
    /\ td_totalPaid data
       = totalPaidOf (paymentHistoryOf (td_currentRental data) (payments db))
    /\ td_onTimePayments data
       = List.length (filter (fun p => PaymentStatus_eqb (Payment.status p) paid)
                        (paymentHistoryOf (td_currentRental data) (payments db)))
    /\ td_latePayments data
       = List.length (filter (fun p => PaymentStatus_eqb (Payment.status p) overdue)
                        (paymentHistoryOf (td_currentRental data) (payments db))).
Proof.
  unfold tenantDashboard.
  repeat (handler_step; cbn [fst payload failure]; try discriminate).
  all: match goal with
       | H : authenticate _ _ _ = inl ?r |- _ =>
           assert (N : payload r = None)
             by (eapply authenticate_inl_payload; [|exact H]; reflexivity);
           intros P; congruence
       | Ha : authenticate _ _ _ = inr ?td, Hu : findById (users _) _ = Some ?u |- _ =>
           intros P; injection P as <-; exists td, u; apply authenticate_inr in Ha;
           cbn; auto 10
       end.
Qed.

Lemma tenantDashboard_ok h db tokenData user :
  authorizes h "tenant" tokenData ->
  findById (users db) (JStr (userId tokenData)) = Some user ->
  exists data, payload (fst (tenantDashboard h db)) = Some data.
Proof.
  intros Ha Hu. unfold tenantDashboard.
  rewrite (authenticate_ok _ _ _ _ Ha). cbn [bind]. rewrite Hu. cbn. eauto.
Qed.

End TenantDashboardFacts.
Import TenantDashboardFacts.

(** [X22] A payment that a tenant makes for the rental their dashboard
    shows as the current one appears on the dashboard: the total paid
    goes up by the monthly rent of the rental, the count of payments on
    time goes up by one, the count of late payments stays, and the
    current rental is the same. *)
Theorem payment_on_tenant_dashboard :
  forall env h body db data rental,
    success (fst (createPayment env h body db)) = true ->
    payload (fst (tenantDashboard h db)) = Some data ->
    td_currentRental data = Some rental ->
    pb_rentalId body = JStr (Rental.id rental) ->
    exists data',
      payload (fst (tenantDashboard h (snd (createPayment env h body db)))) = Some data'
      /\ td_currentRental data' = Some rental
      /\ td_totalPaid data' = td_totalPaid data + Rental.monthlyRent rental
      /\ td_onTimePayments data' = S (td_onTimePayments data)
      /\ td_latePayments data' = td_latePayments data.
Proof.
  intros env h body db data rental S D C Rid.
  destruct (createPayment_success _ _ _ _ S)
    as (td & r1 & month & amount & Ha & _ & _ & _ & Hr & Ho & Hs & _ & Hamt & E).
  destruct (tenantDashboard_payload _ _ _ D)
    as (td' & user & Ha' & Hu & _ & Hc & Ht & Hon & Hlate).
  pose proof (authorizes_functional _ _ _ _ Ha' Ha) as ->.
  rewrite C in Hc, Ht, Hon, Hlate. symmetry in Hc.
  assert (Same : rental = r1).
  { rewrite Rid in Hr. unfold findById in Hr.
    apply (find_same _ _ _ _ _ Hc Hr).
    - cbn. apply String.eqb_refl.
    - unfold isCurrentRentalOf. rewrite Ho, Hs.
      pose proof (findById_id _ _ _ Hu) as Eu. injection Eu as Eu.
      rewrite Eu. change (id_of user) with (User.id user).
      rewrite String.eqb_refl. reflexivity. }
  subst r1.
  set (db' := snd (createPayment env h body db)).
  assert (Edb : db' = set_payments
                        (payments db
                         ++ [newPayment env rental month amount (pb_method body)]) db)
    by (unfold db'; now rewrite E).
  assert (Hu' : findById (users db') (JStr (userId td)) = Some user)
    by (rewrite Edb; exact Hu).
  destruct (tenantDashboard_ok h db' td user Ha Hu') as (data' & D').
  exists data'. split; [exact D'|].
  destruct (tenantDashboard_payload _ _ _ D')
    as (td2 & user2 & Ha2 & Hu2 & _ & Hc2 & Ht2 & Hon2 & Hlate2).
  pose proof (authorizes_functional _ _ _ _ Ha2 Ha) as ->.
  rewrite Hu' in Hu2. injection Hu2 as <-.
  assert (C2 : td_currentRental data' = Some rental)
    by (rewrite Hc2, Edb; exact Hc).
  split; [exact C2|].
  rewrite C2 in Ht2, Hon2, Hlate2.
  assert (H2 : paymentHistoryOf (Some rental) (payments db')
               = (paymentHistoryOf (Some rental) (payments db)
                  ++ [newPayment env rental month amount (pb_method body)])%list).
  { rewrite Edb. cbn [payments set_payments paymentHistoryOf].
    rewrite filter_app. cbn [filter newPayment Payment.rentalId].
    now rewrite String.eqb_refl. }
  rewrite H2 in Ht2, Hon2, Hlate2.
  rewrite Ht2, Hon2, Hlate2, Ht, Hon, Hlate.
  rewrite totalPaidOf_snoc, !filter_app, !length_app.
  cbn [filter newPayment Payment.status Payment.amount PaymentStatus_eqb List.length].
  repeat split; lia.
Qed.

Lemma payment_on_tenant_dashboard_witness :
  exists data',
    payload (fst (tenantDashboard Scenario.tenant1
                    (snd (createPayment Scenario.env3 Scenario.tenant1
                            (Scenario.pay "r1" "2025-02" 1000) Scenario.occupied))))
    = Some data'
    /\ td_currentRental data' = Some (Scenario.rental1 active)
    /\ td_totalPaid data' = 0 + 1000
    /\ td_onTimePayments data' = 1%nat
    /\ td_latePayments data' = 0%nat.
Proof.
  refine (payment_on_tenant_dashboard Scenario.env3 Scenario.tenant1
            (Scenario.pay "r1" "2025-02" 1000) Scenario.occupied
            (mkTenantDashboardData (Scenario.user "t1" role_tenant)
               (Some (Scenario.rental1 active)) (Some (Scenario.property1 false))
               (Some (Scenario.user "l1" role_landlord)) [] 0 0 0 None)
            (Scenario.rental1 active) _ eq_refl eq_refl eq_refl).
  vm_compute. reflexivity.
Defined.

(** [X23] The list of all payments holds every payment on record once,
    the most recent first, for the bearer of any token that parses; it
    writes nothing. *)
Theorem listPayments_newest_first :
  forall h db token tokenData,
    bearerToken h = Some token ->
    parseToken token = Some tokenData ->
    exists listed,
      fst (listPayments h db) = succeed "" listed
      /\ snd (listPayments h db) = db
      /\ Permutation listed (payments db)
      /\ sortedBy (fun a b => Payment.timestamp b - Payment.timestamp a) listed.
Proof.
  intros h db token td B P. unfold listPayments.
  rewrite (authenticateAny_ok _ _ _ B P). cbn [bind run fst snd].
  eexists. split; [reflexivity|]. split; [reflexivity|].
  split; [apply sort_Permutation|apply sort_by_key_sorted].
Qed.

Lemma listPayments_newest_first_witness :
  exists listed,
    fst (listPayments Scenario.ministry1 Scenario.paidTerminating) = succeed "" listed
    /\ snd (listPayments Scenario.ministry1 Scenario.paidTerminating)
       = Scenario.paidTerminating
    /\ Permutation listed (payments Scenario.paidTerminating)
    /\ sortedBy (fun a b => Payment.timestamp b - Payment.timestamp a) listed.
Proof.
  apply (listPayments_newest_first Scenario.ministry1 Scenario.paidTerminating
           "m1_ministry_1_x" (mkTokenData "m1" "ministry"));
    reflexivity.
Defined.

(** ** Receipts, registration and reviews *)

Module AccessFacts.

Lemma authenticateAny_inr {A : Type} h tokenData :
  authenticateAny (A := A) h = inr tokenData ->
  exists token, bearerToken h = Some token /\ parseToken token = Some tokenData.
Proof.
  unfold authenticateAny, bind, orReturn.
  destruct (bearerToken h) as [t|]; [|discriminate].
  destruct (parseToken t) as [td|] eqn:P; [|discriminate].
  intros [= <-]. eauto.
Qed.

Lemma authenticateAny_inl {A : Type} h (r : Response A) :
  authenticateAny h = inl r -> success r = false /\ payload r = None.
Proof.
  unfold authenticateAny, bind, orReturn.
  destruct (bearerToken h) as [t|]; [|intros [= <-]; auto].
  destruct (parseToken t); [discriminate|intros [= <-]; auto].
Qed.

(** The first step of a handler that takes any role. *)
Ltac any_step :=
  match goal with
  | |- context [authenticateAny ?h] =>
      let A := fresh "A" in
      destruct (authenticateAny h) as [?|?] eqn:A;
      cbn [bind orReturn returnIf run runWith fst snd]
  end.

(** What a receipt was checked against. *)
Lemma getReceipt_success h paymentId db :
  success (fst (getReceipt h paymentId db)) = true ->
  exists token tokenData payment rental property tenant landlord,
    bearerToken h = Some token
    /\ parseToken token = Some tokenData
    /\ findById (payments db) (JStr paymentId) = Some payment
    /\ findById (rentals db) (JStr (Payment.rentalId payment)) = Some rental
    /\ findById (properties db) (JStr (Rental.propertyId rental)) = Some property
    /\ findById (users db) (JStr (Rental.tenantId rental)) = Some tenant
    /\ findById (users db) (JStr (Property.ownerId property)) = Some landlord
    /\ (role tokenData = "tenant" -> User.id tenant = userId tokenData)
    /\ (role tokenData = "landlord" -> User.id landlord = userId tokenData)
    /\ fst (getReceipt h paymentId db)
       = succeed "" (mkReceipt payment rental property (summary tenant)
                       (summary landlord)).
Proof.
  unfold getReceipt. any_step.
  2: repeat (handler_step; try discriminate).
  2: intros _.
  - match goal with
    | H : authenticateAny _ = inl ?r |- _ =>
        destruct (authenticateAny_inl _ _ H) as [F _]; cbn [run fst]; congruence
    end.
  -
    match goal with
    | Ha : authenticateAny _ = inr ?td,
      Hpay : findById (payments db) _ = Some ?pay,
      Hr : findById (rentals db) _ = Some ?r,
      Hp : findById (properties db) _ = Some ?p,
      Ht : findById (users db) (JStr (Rental.tenantId _)) = Some ?t,
      Hl : findById (users db) (JStr (Property.ownerId _)) = Some ?l |- _ =>
        destruct (authenticateAny_inr _ _ Ha) as (token & B & P);
        exists token, td, pay, r, p, t, l
    end.
    repeat split; auto.
    + intros R. match goal with
                | H : String.eqb (role _) "tenant" && _ = false |- _ =>
                    rewrite R in H; cbn in H;
                    apply negb_false_iff in H; now apply String.eqb_eq
                end.
    + intros R. match goal with
                | H : String.eqb (role _) "landlord" && _ = false |- _ =>
                    rewrite R in H; cbn in H;
                    apply negb_false_iff in H; now apply String.eqb_eq
                end.
Qed.

(** What a registration was checked against, and what it wrote. *)
Lemma register_success env body db :
  success (fst (register env body db)) = true ->
  exists r,
    truthy (rg_name body) = true
    /\ truthy (rg_email body) = true
    /\ find (fun u => strict_eq (User.email u) (rg_email body)) (users db) = None
    /\ register env body db
       = (succeed "User registered successfully. Please verify your email."
            (generateId env "u"),
          set_users
            (users db
             ++ [User.mk (generateId env "u") (rg_name body) (rg_email body) r
                   false None (Some (now env))])
            db).
Proof.
  unfold register.
  repeat (handler_step; try discriminate).
  intros _.
  match goal with
  | Hr : match rg_role body with _ => _ end = Some ?r |- _ => exists r
  end.
  repeat match goal with
         | H : _ || _ = false |- _ => apply orb_false_iff in H as [? ?]
         end.
  repeat match goal with
         | H : negb _ = false |- _ => apply negb_false_iff in H
         end.
  split; [assumption|]. split; [assumption|]. split; [|reflexivity].
  match goal with
  | H : match find ?f ?l with _ => _ end = false |- _ =>
      destruct (find f l); [discriminate|reflexivity]
  end.
Qed.

Lemma register_failure env body db :
  success (fst (register env body db)) = false ->
  snd (register env body db) = db.
Proof.
  unfold register.
  repeat (handler_step; try reflexivity). discriminate.
Qed.

(** The text emails of the users, after one more user. *)
Lemma textEmails_app us vs : textEmails (us ++ vs) = (textEmails us ++ textEmails vs)%list.
Proof.
  induction us as [|u rest IH]; cbn [textEmails app]; [reflexivity|].
  destruct (User.email u); try exact IH. cbn [app]. now rewrite IH.
Qed.

Lemma textEmails_In email us :
  In email (textEmails us) <-> exists u, In u us /\ User.email u = JStr email.
Proof.
  induction us as [|u rest IH]; cbn [textEmails].
  - split; [contradiction|intros (u & [] & _)].
  - destruct (User.email u) as [| |b|n|s|items|fields] eqn:E;
      try (rewrite IH; split;
           [intros (x & I & Ex); exists x; split; [now right|exact Ex]
           |intros (x & [<- | I] & Ex); [congruence|exists x; auto]]).
    cbn [In]. rewrite IH. split.
    + intros [<- | (x & I & Ex)]; [exists u; split; [now left|exact E]|].
      exists x. split; [now right|exact Ex].
    + intros (x & [<- | I] & Ex); [left; congruence|right; exists x; auto].
Qed.

(** No user on record has the email, a text, that was looked for. *)
Lemma email_not_found email us u :
  find (fun u => strict_eq (User.email u) (JStr email)) us = None ->
  In u us -> User.email u <> JStr email.
Proof.
  intros F I E. pose proof (find_none _ _ F u I) as N. cbn beta in N.
  rewrite E in N. cbn [strict_eq] in N. now rewrite String.eqb_refl in N.
Qed.

(** An email that is an array is not found on record, so that the same
    request is accepted twice. *)
Lemma register_array_email_twice :
  let body := mkRegisterBody (JStr "Rahim") (JArr [JStr "rahim@example.com"])
                (JStr "tenant") in
  let once := snd (register Scenario.env3 body Scenario.occupied) in
  success (fst (register Scenario.env3 body Scenario.occupied)) = true
  /\ success (fst (register Scenario.env4 body once)) = true
  /\ map User.email (users (snd (register Scenario.env4 body once)))
     = [JStr "l1"; JStr "t1"; JArr [JStr "rahim@example.com"];
        JArr [JStr "rahim@example.com"]].
Proof. repeat split; vm_compute; reflexivity. Qed.

(** What a review was checked against, and what it wrote. *)
Lemma createReview_success env h body reviews db :
  success (fst (createReview env h body reviews db)) = true ->
  exists token tokenData rating rental reviewedUser,
    bearerToken h = Some token
    /\ parseToken token = Some tokenData
    /\ rv_rating body = JNum rating
    /\ 1 <= rating <= 5
    /\ findById (rentals db) (rv_rentalId body) = Some rental
    /\ findById (users db) (rv_reviewedId body) = Some reviewedUser
    /\ rv_reviewedRole body = JStr (roleName (User.role reviewedUser))
    /\ (role tokenData = "tenant" ->
        rv_reviewedRole body = JStr "landlord"
        /\ Rental.tenantId rental = userId tokenData)
    /\ (role tokenData = "landlord" ->
        rv_reviewedRole body = JStr "tenant"
        /\ ownsProperty db (userId tokenData) (JStr (Rental.propertyId rental)) = true)
    /\ find (isSameReview (userId tokenData) (rv_reviewedId body) (rv_rentalId body))
            reviews = None
    /\ snd (createReview env h body reviews db)
       = (reviews
          ++ [Review.mk (generateId env "rev") (userId tokenData) (role tokenData)
                (User.id reviewedUser) (roleName (User.role reviewedUser))
                (Rental.id rental) rating
                (match rv_comment body with Some c => c | None => "" end)
                (now env)])%list.
Proof.
  unfold createReview. any_step.
  2: repeat (handler_step; cbn [runWith fst]; try discriminate).
  2: intros _.
  - match goal with
    | H : authenticateAny _ = inl ?r |- _ =>
        destruct (authenticateAny_inl _ _ H) as [F _]; cbn [fst]; congruence
    end.
  -
    match goal with
    | Ha : authenticateAny _ = inr ?td,
      Hn : match rv_rating body with _ => _ end = Some ?n,
      Hr : findById (rentals db) _ = Some ?r,
      Hu : match findById (users db) _ with _ => _ end = Some ?u |- _ =>
        destruct (authenticateAny_inr _ _ Ha) as (token & B & P);
        exists token, td, n, r, u; rename Hn into Hrating; rename Hu into Huser
    end.
    split; [exact B|]. split; [exact P|].
    destruct (rv_rating body) as [| |b|k|s|items|fields]; try discriminate.
    destruct ((k <? 1) || (k >? 5)) eqn:K; [discriminate|].
    injection Hrating as <-. apply orb_false_iff in K as [K1 K2].
    apply Z.ltb_ge in K1. rewrite Z.gtb_ltb in K2. apply Z.ltb_ge in K2.
    split; [reflexivity|]. split; [lia|]. split; [reflexivity|].
    destruct (findById (users db) (rv_reviewedId body)) as [u|] eqn:Fu; [|discriminate].
    destruct (strict_eq_str (roleName (User.role u)) (rv_reviewedRole body)) eqn:Er;
      [|discriminate].
    injection Huser as <-.
    assert (Role : rv_reviewedRole body = JStr (roleName (User.role u))).
    { destruct (rv_reviewedRole body); cbn in Er; try discriminate.
      apply String.eqb_eq in Er. now subst. }
    split; [reflexivity|]. split; [exact Role|].
    repeat match goal with
           | H : _ || _ = false |- _ => apply orb_false_iff in H as [? ?]
           end.
    split.
    { intros R.
      repeat match goal with
             | H : String.eqb (role _) "tenant" && _ = false |- _ =>
                 rewrite R in H; cbn [String.eqb Ascii.eqb Bool.eqb andb] in H;
                 apply negb_false_iff in H
             end.
      split.
      - match goal with
        | H : strict_eq_str "landlord" _ = true |- _ =>
            destruct (rv_reviewedRole body); cbn [strict_eq_str] in H;
              try discriminate H;
            apply String.eqb_eq in H; now subst
        end.
      - match goal with
        | H : String.eqb (Rental.tenantId _) _ = true |- _ => now apply String.eqb_eq
        end. }
    split.
    { intros R.
      repeat match goal with
             | H : String.eqb (role _) "landlord" && _ = false |- _ =>
                 rewrite R in H; cbn [String.eqb Ascii.eqb Bool.eqb andb] in H;
                 apply negb_false_iff in H
             end.
      split.
      - match goal with
        | H : strict_eq_str "tenant" _ = true |- _ =>
            destruct (rv_reviewedRole body); cbn [strict_eq_str] in H;
              try discriminate H;
            apply String.eqb_eq in H; now subst
        end.
      - assumption. }
    split; [|reflexivity].
    match goal with
    | H : match find ?f ?l with _ => _ end = false |- _ =>
        destruct (find f l); [discriminate|reflexivity]
    end.
Qed.

Lemma createReview_failure env h body reviews db :
  success (fst (createReview env h body reviews db)) = false ->
  snd (createReview env h body reviews db) = reviews.
Proof.
  unfold createReview. any_step; [reflexivity|].
  repeat (handler_step; cbn [runWith fst snd]; try reflexivity). discriminate.
Qed.

Lemma NoDup_snoc {K : Type} (ks : list K) (k : K) :
  NoDup ks -> ~ In k ks -> NoDup (ks ++ [k]).
Proof.
  intros U N. apply NoDup_app; [exact U|repeat constructor; intros []|].
  intros x Hx [<- | []]. contradiction.
Qed.

End AccessFacts.
Import AccessFacts.

(** [X24] A receipt is given only for a payment whose rental, property,
    tenant and landlord are on record.  A tenant gets the receipts of
    their own rentals only, and a landlord those of their own properties
    only; the bearer of a token with any other role gets every receipt.
    Nothing is written. *)
Theorem getReceipt_access :
  forall h paymentId db,
    snd (getReceipt h paymentId db) = db
    /\ (forall receipt,
          payload (fst (getReceipt h paymentId db)) = Some receipt ->
          exists token tokenData,
            bearerToken h = Some token
            /\ parseToken token = Some tokenData
            /\ findById (payments db) (JStr paymentId) = Some (rc_payment receipt)
            /\ findById (rentals db) (JStr (Payment.rentalId (rc_payment receipt)))
               = Some (rc_rental receipt)
            /\ findById (properties db) (JStr (Rental.propertyId (rc_rental receipt)))
               = Some (rc_property receipt)
            /\ (role tokenData = "tenant" ->
                Rental.tenantId (rc_rental receipt) = userId tokenData)
            /\ (role tokenData = "landlord" ->
                Property.ownerId (rc_property receipt) = userId tokenData))
    /\ (forall token tokenData payment rental property tenant landlord,
          bearerToken h = Some token ->
          parseToken token = Some tokenData ->
          role tokenData <> "tenant" ->
          role tokenData <> "landlord" ->
          findById (payments db) (JStr paymentId) = Some payment ->
          findById (rentals db) (JStr (Payment.rentalId payment)) = Some rental ->
          findById (properties db) (JStr (Rental.propertyId rental)) = Some property ->
          findById (users db) (JStr (Rental.tenantId rental)) = Some tenant ->
          findById (users db) (JStr (Property.ownerId property)) = Some landlord ->
          success (fst (getReceipt h paymentId db)) = true).
Proof.
  intros h paymentId db. split; [|split].
  - unfold getReceipt. any_step; [reflexivity|].
    repeat (handler_step; try reflexivity).
  - intros receipt P.
    assert (S : success (fst (getReceipt h paymentId db)) = true).
    { revert P. unfold getReceipt. any_step.
      - match goal with
        | H : authenticateAny _ = inl ?r |- _ =>
            destruct (authenticateAny_inl _ _ H) as [_ N]; intros P; congruence
        end.
      - repeat (handler_step; cbn [fst payload failure]; try discriminate);
          reflexivity. }
    destruct (getReceipt_success _ _ _ S)
      as (token & td & pay & r & p & t & l & B & Pa & Hpay & Hr & Hp & Ht & Hl
          & Rt & Rl & E).
    rewrite E in P. cbn [payload succeed] in P. injection P as <-.
    exists token, td. cbn [rc_payment rc_rental rc_property].
    repeat split; auto.
    + intros R. rewrite <- (Rt R).
      pose proof (findById_id _ _ _ Ht) as Eid. now injection Eid.
    + intros R. rewrite <- (Rl R).
      pose proof (findById_id _ _ _ Hl) as Eid. now injection Eid.
  - intros token td pay r p t l B Pa Nt Nl Hpay Hr Hp Ht Hl.
    unfold getReceipt. rewrite (authenticateAny_ok _ _ _ B Pa). cbn [bind].
    rewrite Hpay. cbn [orReturn bind]. rewrite Hr. cbn [orReturn bind].
    rewrite Hp. cbn [orReturn bind]. rewrite Ht. cbn [orReturn bind].
    rewrite Hl. cbn [orReturn bind].
    apply String.eqb_neq in Nt, Nl. rewrite Nt, Nl. reflexivity.
Qed.

Lemma getReceipt_access_witness :
  snd (getReceipt Scenario.tenant2 "pay1" Cases.paid1) = Cases.paid1
  /\ success (fst (getReceipt Cases.bank1 "pay1" Cases.paid1)) = true.
Proof.
  split.
  - apply (proj1 (getReceipt_access Scenario.tenant2 "pay1" Cases.paid1)).
  - apply (proj2 (proj2 (getReceipt_access Cases.bank1 "pay1" Cases.paid1))
             "b1_bank_1_x" (mkTokenData "b1" "bank") Scenario.payment1
             (Scenario.rental1 active) (Scenario.property1 false)
             (Scenario.user "t1" role_tenant) (Scenario.user "l1" role_landlord));
      try reflexivity; discriminate.
Defined.

(** [X25] Registration keeps the emails that are texts distinct: a
    request with an email, given as text, that a user on record has is
    turned down and writes nothing, and an accepted request adds one
    user, not verified and without a one-time password, with the email
    of the request, which, when it is a text, nobody had.  (An email
    that is not a text is compared by identity and so is never found on
    record.)  Properties, rentals and payments are unchanged. *)
Theorem register_unique_emails :
  forall env body db,
    (uniqueEmails (users db) -> uniqueEmails (users (snd (register env body db))))
    /\ (forall u email,
          rg_email body = JStr email -> In u (users db) ->
          User.email u = JStr email ->
          success (fst (register env body db)) = false
          /\ snd (register env body db) = db)
    /\ (success (fst (register env body db)) = true ->
        exists newUser,
          payload (fst (register env body db)) = Some (User.id newUser)
          /\ users (snd (register env body db)) = (users db ++ [newUser])%list
          /\ User.email newUser = rg_email body
          /\ User.verified newUser = false
          /\ User.otp newUser = None
          /\ (forall email u,
                rg_email body = JStr email -> In u (users db) ->
                User.email u <> JStr email)
          /\ properties (snd (register env body db)) = properties db
          /\ rentals (snd (register env body db)) = rentals db
          /\ payments (snd (register env body db)) = payments db).
Proof.
  intros env body db.
  split; [|split].
  - intros U.
    destruct (success (fst (register env body db))) eqn:S.
    + destruct (register_success _ _ _ S) as (r & _ & _ & F & E).
      rewrite E. cbn [snd users set_users]. unfold uniqueEmails in *.
      rewrite textEmails_app. cbn [textEmails User.email].
      destruct (rg_email body) as [| |b|n|email|items|fields];
        try (now rewrite app_nil_r).
      apply NoDup_snoc; [exact U|].
      intros I. apply textEmails_In in I as (u & Iu & Eu).
      exact (email_not_found email (users db) u F Iu Eu).
    + now rewrite (register_failure _ _ _ S).
  - intros u email He I Eu.
    assert (F : success (fst (register env body db)) = false).
    { destruct (success (fst (register env body db))) eqn:S; [|reflexivity].
      destruct (register_success _ _ _ S) as (r & _ & _ & F & _).
      rewrite He in F.
      exfalso. exact (email_not_found email (users db) u F I Eu). }
    split; [exact F|now apply register_failure].
  - intros S.
    destruct (register_success _ _ _ S) as (r & _ & _ & F & E).
    exists (User.mk (generateId env "u") (rg_name body) (rg_email body) r false None
              (Some (now env))).
    rewrite E.
    cbn [fst snd payload succeed users properties rentals payments set_users].
    split; [reflexivity|]. split; [reflexivity|].
    cbn [User.id User.email User.verified User.otp].
    split; [reflexivity|]. split; [reflexivity|]. split; [reflexivity|].
    split; [|repeat split].
    intros email u He I. rewrite He in F.
    exact (email_not_found email (users db) u F I).
Qed.

Lemma register_unique_emails_witness :
  uniqueEmails (users (snd (register Scenario.env3 (Cases.signUp "rahim@example.com")
                              Scenario.occupied)))
  /\ success (fst (register Scenario.env3 (Cases.signUp "t1") Scenario.occupied)) = false.
Proof.
  split.
  - apply (proj1 (register_unique_emails Scenario.env3
                    (Cases.signUp "rahim@example.com") Scenario.occupied)).
    unfold uniqueEmails. cbn. repeat constructor; cbn; intuition discriminate.
  - apply (proj1 (proj2 (register_unique_emails Scenario.env3 (Cases.signUp "t1")
                           Scenario.occupied))
             (Scenario.user "t1" role_tenant) "t1" eq_refl).
    + right. left. reflexivity.
    + reflexivity.
Defined.

(** [X26] A user reviews a person once for a rental: a review is accepted
    only with a rating from 1 to 5, for a rental on record and a reviewed
    user on record in the role that the request names, and when the
    reviewer has not reviewed that person for that rental before; a
    second review by the same reviewer of the same person for the same
    rental is turned down, so that the triples of reviewer, reviewed
    person and rental stay distinct.  A tenant reviews only users whose
    role is landlord, and only for a rental of which they are the
    tenant; a landlord reviews only users whose role is tenant, and only
    for a rental on a property of their own.  (That the reviewed person
    has a part in the rental is not tested.)  A review that is turned
    down writes nothing. *)
Theorem createReview_unique :
  forall env h body reviews db,
    (uniqueReviews reviews ->
     uniqueReviews (snd (createReview env h body reviews db)))
    /\ (success (fst (createReview env h body reviews db)) = true ->
        exists token tokenData rental reviewedUser review,
          bearerToken h = Some token
          /\ parseToken token = Some tokenData
          /\ findById (rentals db) (rv_rentalId body) = Some rental
          /\ findById (users db) (rv_reviewedId body) = Some reviewedUser
          /\ snd (createReview env h body reviews db) = (reviews ++ [review])%list
          /\ Review.reviewerId review = userId tokenData
          /\ rv_reviewedId body = JStr (Review.reviewedId review)
          /\ rv_rentalId body = JStr (Review.rentalId review)
          /\ Review.reviewedRole review = roleName (User.role reviewedUser)
          /\ 1 <= Review.rating review <= 5
          /\ (role tokenData = "tenant" ->
              User.role reviewedUser = role_landlord
              /\ Rental.tenantId rental = userId tokenData)
          /\ (role tokenData = "landlord" ->
              User.role reviewedUser = role_tenant
              /\ ownsProperty db (userId tokenData) (JStr (Rental.propertyId rental))
                 = true))
    /\ (forall token tokenData earlier,
          bearerToken h = Some token ->
          parseToken token = Some tokenData ->
          In earlier reviews ->
          Review.reviewerId earlier = userId tokenData ->
          rv_reviewedId body = JStr (Review.reviewedId earlier) ->
          rv_rentalId body = JStr (Review.rentalId earlier) ->
          success (fst (createReview env h body reviews db)) = false)
    /\ (success (fst (createReview env h body reviews db)) = false ->
        snd (createReview env h body reviews db) = reviews).
Proof.
  intros env h body reviews db.
  split; [|split; [|split; [|apply createReview_failure]]].
  - intros U.
    destruct (success (fst (createReview env h body reviews db))) eqn:S;
      [|now rewrite (createReview_failure _ _ _ _ _ S)].
    destruct (createReview_success _ _ _ _ _ S)
      as (token & td & rating & rental & u & _ & _ & _ & _ & Hr & Hu & _ & _ & _
          & F & E).
    rewrite E. unfold uniqueReviews in *. rewrite map_app. cbn [map].
    apply NoDup_snoc; [exact U|].
    intros I. apply in_map_iff in I as (x & Kx & Ix).
    pose proof (find_none _ _ F x Ix) as N.
    unfold reviewKey in Kx. cbn in Kx. injection Kx as K1 K2 K3.
    unfold isSameReview in N.
    rewrite (findById_id _ _ _ Hr), (findById_id _ _ _ Hu) in N.
    cbn [strict_eq_str] in N.
    change (id_of u) with (User.id u) in N.
    change (id_of rental) with (Rental.id rental) in N.
    rewrite K1, K2, K3, !String.eqb_refl in N. discriminate.
  - intros S.
    destruct (createReview_success _ _ _ _ _ S)
      as (token & td & rating & rental & u & B & P & _ & Hrat & Hr & Hu & Hrole
          & Ht & Hl & _ & E).
    exists token, td, rental, u.
    exists (Review.mk (generateId env "rev") (userId td) (role td) (User.id u)
              (roleName (User.role u)) (Rental.id rental) rating
              (match rv_comment body with Some c => c | None => "" end) (now env)).
    rewrite E.
    split; [exact B|]. split; [exact P|]. split; [exact Hr|]. split; [exact Hu|].
    split; [reflexivity|].
    cbn [Review.reviewerId Review.reviewedId Review.rentalId Review.rating
           Review.reviewedRole].
    split; [reflexivity|].
    split; [exact (findById_id _ _ _ Hu)|].
    split; [exact (findById_id _ _ _ Hr)|].
    split; [reflexivity|].
    split; [exact Hrat|].
    split.
    + intros R. destruct (Ht R) as [Ro Te]. split; [|exact Te].
      rewrite Hrole in Ro. injection Ro as Ro.
      destruct (User.role u); cbn in Ro; try discriminate Ro; reflexivity.
    + intros R. destruct (Hl R) as [Ro Ow]. split; [|exact Ow].
      rewrite Hrole in Ro. injection Ro as Ro.
      destruct (User.role u); cbn in Ro; try discriminate Ro; reflexivity.
  - intros token td earlier B P I Rev Red Ren.
    destruct (success (fst (createReview env h body reviews db))) eqn:S; [|reflexivity].
    destruct (createReview_success _ _ _ _ _ S)
      as (token' & td' & _ & _ & _ & B' & P' & _ & _ & _ & _ & _ & _ & _ & F & _).
    rewrite B in B'. injection B' as <-. rewrite P in P'. injection P' as <-.
    pose proof (find_none _ _ F earlier I) as N.
    unfold isSameReview in N. rewrite Red, Ren, Rev in N.
    cbn [strict_eq_str] in N. rewrite !String.eqb_refl in N. discriminate N.
Qed.

Lemma createReview_unique_witness :
  uniqueReviews (snd (createReview Scenario.env3 Scenario.tenant1 Cases.fourStars []
                        Scenario.occupied))
  /\ success (fst (createReview Scenario.env4 Scenario.tenant1 Cases.fourStars
                     (snd (createReview Scenario.env3 Scenario.tenant1 Cases.fourStars
                             [] Scenario.occupied))
                     Scenario.occupied)) = false
  /\ snd (createReview Scenario.env3 Scenario.tenant2 Cases.fourStars []
            Scenario.occupied) = [].
Proof.
  split; [|split].
  - apply (proj1 (createReview_unique Scenario.env3 Scenario.tenant1 Cases.fourStars []
                    Scenario.occupied)).
    constructor.
  - refine (proj1 (proj2 (proj2 (createReview_unique Scenario.env4 Scenario.tenant1
                                   Cases.fourStars
                                   (snd (createReview Scenario.env3 Scenario.tenant1
                                           Cases.fourStars [] Scenario.occupied))
                                   Scenario.occupied)))
              "t1_tenant_1_x" (mkTokenData "t1" "tenant")
              (Review.mk (generateId Scenario.env3 "rev") "t1" "tenant" "l1" "landlord"
                 "r1" 4 "" (now Scenario.env3))
              eq_refl eq_refl _ eq_refl eq_refl eq_refl).
    vm_compute. left. reflexivity.
  - apply (proj2 (proj2 (proj2 (createReview_unique Scenario.env3 Scenario.tenant2
                                  Cases.fourStars [] Scenario.occupied)))).
    vm_compute. reflexivity.
Defined.

(** ** The earliest termination date of the tenant's page, and the
       renewal requests a landlord sees *)

Module NoticeFacts.

(** The date the page offers is the day of the server's limit. *)
Lemma getMinTerminationDate_day page env :
  Day (now page) = Day (now env) ->
  twoMonthsFromNow env
  = parse (getMinTerminationDate page) + TimeWithinDay (now env).
Proof.
  intros Same. unfold getMinTerminationDate, twoMonthsFromNow.
  rewrite parse_toISODate, !setMonth_eq, !getMonth_eq.
  rewrite Day_MakeDate by apply TimeWithinDay_range.
  unfold YearFromTime, MonthFromTime, DateFromTime. rewrite Same.
  unfold MakeDate. lia.
Qed.

Lemma requestTermination_early env h body db requestedEndDate :
  tb_requestedEndDate body = Some requestedEndDate ->
  parseable requestedEndDate = true ->
  parse requestedEndDate < twoMonthsFromNow env ->
  success (fst (requestTermination env h body db)) = false.
Proof.
  intros Hd P Early.
  destruct (success (fst (requestTermination env h body db))) eqn:S; [|reflexivity].
  destruct (requestTermination_success _ _ _ _ S)
    as (td & rental & d & _ & _ & Hd' & _ & _ & _ & _ & Late & _).
  rewrite Hd in Hd'. injection Hd' as <-. specialize (Late P). lia.
Qed.

Lemma keepSome_In {A : Type} (x : A) (xs : list (option A)) :
  In x (keepSome xs) <-> In (Some x) xs.
Proof.
  induction xs as [|[y|] rest IH]; cbn; [tauto| |].
  - rewrite IH. split; intros [E | I]; auto; left; congruence.
  - rewrite IH. split; [auto|intros [E | I]; [discriminate|auto]].
Qed.

(** What a renewal request was checked against, and what it wrote. *)
Lemma requestRenewal_named env h body db :
  success (fst (requestRenewal env h body db)) = true ->
  exists tokenData rental n,
    findById (rentals db) (rb_rentalId body) = Some rental
    /\ Rental.tenantId rental = userId tokenData
    /\ payload (fst (requestRenewal env h body db))
       = Some (requestedRenewal env tokenData rental (renewalLandlord db rental) n)
    /\ snd (requestRenewal env h body db)
       = set_rentals
           (updateFirst (fun r => strict_eq_str (Rental.id r) (rb_rentalId body))
              (Rental.with_status renewal_pending) (rentals db))
           (set_rental_renewals
              (rental_renewals db
               ++ [requestedRenewal env tokenData rental (renewalLandlord db rental) n])
              db).
Proof.
  unfold requestRenewal.
  repeat (handler_step; try discriminate); try auth_failed.
  intros _.
  match goal with
  | Ha : authenticate _ _ _ = inr ?td, Hr : findById (rentals db) _ = Some ?r,
    Hn : match rb_renewalDuration body with _ => _ end = Some ?n |- _ =>
      exists td, r, n; rename r into rental
  end.
  match goal with
  | H : currentEndDate rental = Some ?t |- _ =>
      apply currentEndDate_rentalDate in H; subst t
  end.
  assert (D : toISODate
                (setDate (rentalDate rental) (getDate (rentalDate rental) + 1))
              = dateAfterDays (rentalDate rental) 1).
  { rewrite setDate_next. unfold dateAfterDays. f_equal; lia. }
  cbn [fst snd payload succeed]. rewrite D.
  split; [reflexivity|]. split; [|split; reflexivity].
  match goal with
  | H : negb (String.eqb _ _) = false |- _ =>
      apply negb_false_iff in H; now apply String.eqb_eq
  end.
Qed.

End NoticeFacts.
Import NoticeFacts.

(** [X27] The earliest date that the tenant's page offers for a
    termination is the day on which the server's limit of two months
    falls, and the limit is at the time of day of the request on that
    day.  So a request for the offered date, sent on the day the page
    computed it, is turned down and writes nothing, unless it arrives at
    midnight to the millisecond, when the limit is the offered date
    itself.  (The page and the server are in one time zone, UTC.) *)
Theorem min_termination_date_refused :
  forall page env,
    Day (now page) = Day (now env) ->
    parse (getMinTerminationDate page) <= twoMonthsFromNow env
      < parse (getMinTerminationDate page) + msPerDay
    /\ (TimeWithinDay (now env) = 0 ->
        twoMonthsFromNow env = parse (getMinTerminationDate page))
    /\ (forall h body db,
          TimeWithinDay (now env) <> 0 ->
          tb_requestedEndDate body = Some (getMinTerminationDate page) ->
          success (fst (requestTermination env h body db)) = false
          /\ snd (requestTermination env h body db) = db).
Proof.
  intros page env Same.
  pose proof (getMinTerminationDate_day page env Same) as E.
  pose proof (TimeWithinDay_range (now env)) as Tod.
  split; [lia|]. split; [lia|].
  intros h body db Late Hd.
  assert (F : success (fst (requestTermination env h body db)) = false).
  { apply requestTermination_early with (requestedEndDate := getMinTerminationDate page);
      [exact Hd|apply parseable_toISODate|lia]. }
  split; [exact F|now apply requestTermination_failure].
Qed.

Lemma min_termination_date_refused_witness :
  success (fst (requestTermination Cases.afterMidnight Scenario.tenant1
                  (Scenario.terminate (getMinTerminationDate Scenario.env3))
                  Scenario.occupied)) = false
  /\ snd (requestTermination Cases.afterMidnight Scenario.tenant1
            (Scenario.terminate (getMinTerminationDate Scenario.env3))
            Scenario.occupied) = Scenario.occupied.
Proof.
  apply (proj2 (proj2 (min_termination_date_refused Scenario.env3 Cases.afterMidnight
                         eq_refl))).
  - vm_compute. discriminate.
  - reflexivity.
Defined.

(** [X28] A renewal request that was accepted is on the list of the
    landlord who owns the property, when the rental names that landlord
    or nobody and the property and the tenant are on record: the list
    shows the request with the rental, now in state renewal_pending, the
    property and the tenant. *)
Theorem requested_renewal_listed :
  forall env h body db landlordHeader landlord rental property tenant renewal,
    payload (fst (requestRenewal env h body db)) = Some renewal ->
    authorizes landlordHeader "landlord" landlord ->
    findById (rentals db) (rb_rentalId body) = Some rental ->
    findById (properties db) (JStr (Rental.propertyId rental)) = Some property ->
    Property.ownerId property = userId landlord ->
    Rental.landlordId rental = "" \/ Rental.landlordId rental = userId landlord ->
    findById (users db) (JStr (Rental.tenantId rental)) = Some tenant ->
    exists listing,
      payload (fst (landlordRenewals landlordHeader
                      (snd (requestRenewal env h body db)))) = Some listing
      /\ In (mkLandlordRenewal renewal (Rental.with_status renewal_pending rental)
               property (summary tenant)) listing.
Proof.
  intros env h body db hl landlord rental property tenant renewal P Ha Hr Hp Ho Hl Ht.
  assert (S : success (fst (requestRenewal env h body db)) = true).
  { revert P. unfold requestRenewal.
    repeat (handler_step; cbn [payload]; try discriminate); try reflexivity.
    match goal with
    | H : authenticate _ _ _ = inl ?r |- _ =>
        assert (N : payload r = None)
          by (eapply authenticate_inl_payload; [|exact H]; reflexivity);
        intros P; congruence
    end. }
  destruct (requestRenewal_named _ _ _ _ S) as (td & rental' & n & Hr' & Hten & P' & E).
  rewrite Hr in Hr'. injection Hr' as <-.
  rewrite P in P'. injection P' as ->.
  set (renewal := requestedRenewal env td rental (renewalLandlord db rental) n) in *.
  rewrite E. unfold landlordRenewals.
  rewrite (authenticate_ok _ _ _ _ Ha).
  cbn [bind run fst payload succeed rental_renewals set_rentals set_rental_renewals].
  eexists. split; [reflexivity|].
  apply SortFacts.sort_In, keepSome_In, in_map_iff.
  exists renewal.
  assert (Fr : findById
                 (updateFirst (fun r => strict_eq_str (Rental.id r) (rb_rentalId body))
                    (Rental.with_status renewal_pending) (rentals db))
                 (JStr (Rental.id rental))
               = Some (Rental.with_status renewal_pending rental)).
  { pose proof (findById_id _ _ _ Hr) as Eid.
    change (id_of rental) with (Rental.id rental) in Eid. rewrite <- Eid.
    change (fun r : Rental.t => strict_eq_str (Rental.id r) (rb_rentalId body))
      with (fun r : Rental.t => strict_eq_str (id_of r) (rb_rentalId body)).
    rewrite findById_updateFirst by reflexivity. now rewrite Hr. }
  split.
  - unfold enrichRenewal.
    cbn [renewal requestedRenewal RentalRenewal.rentalId RentalRenewal.tenantId
           rentals properties users set_rentals set_rental_renewals].
    rewrite Fr. cbn [Rental.with_status Rental.propertyId].
    rewrite Hp, <- Hten, Ht. reflexivity.
  - apply filter_In. split; [apply in_or_app; right; left; reflexivity|].
    unfold isRenewalOf.
    cbn [renewal requestedRenewal RentalRenewal.rentalId RentalRenewal.landlordId
           rentals properties set_rentals set_rental_renewals].
    rewrite Fr. cbn [Rental.with_status Rental.propertyId Rental.landlordId].
    rewrite Hp. unfold renewalLandlord. rewrite Hp.
    destruct Hl as [Hl | Hl]; rewrite Hl; cbn [String.eqb negb];
      destruct (String.eqb (userId landlord) "") eqn:Ee;
      repeat (rewrite ?Ho, ?Ee; cbn [negb]);
      apply String.eqb_refl.
Qed.

Lemma requested_renewal_listed_witness :
  exists listing,
    payload (fst (landlordRenewals Scenario.landlord1 Cases.renewalRequested))
    = Some listing
    /\ In (mkLandlordRenewal Cases.renewal1 (Scenario.rental1 renewal_pending)
             (Scenario.property1 false) (summary (Scenario.user "t1" role_tenant)))
          listing.
Proof.
  apply (requested_renewal_listed Scenario.env3 Scenario.tenant1 (Scenario.renew 6)
           Scenario.occupied Scenario.landlord1 (mkTokenData "l1" "landlord")
           (Scenario.rental1 active) (Scenario.property1 false)
           (Scenario.user "t1" role_tenant) Cases.renewal1).
  - vm_compute. reflexivity.
  - exists "l1_landlord_1_x". repeat split.
  - reflexivity.
  - reflexivity.
  - reflexivity.
  - right. reflexivity.
  - reflexivity.
Defined.

(** ** Updating terms *)

Module TermsUpdateFacts.

(** What an update of terms was checked against, and what it wrote. *)
Lemma updateTerms_success env h id body terms db :
  success (fst (updateTerms env h id body terms db)) = true ->
  exists tokenData term,
    authorizes h "landlord" tokenData
    /\ findById terms (JStr id) = Some term
    /\ Terms.landlordId term = userId tokenData
    /\ (truthy (ut_propertyId body) = true ->
        ownsProperty db (userId tokenData) (ut_propertyId body) = true)
    /\ updateTerms env h id body terms db
       = (let updatedTerms :=
            updateById
              (match ut_isActive body with
               | JBool true =>
                   deactivateEach
                     (filter (isSuperseded id (userId tokenData) (ut_propertyId body)
                                term) terms) terms
               | _ => terms
               end)
              (JStr id) (applyTermsUpdate env body term) in
          (mkResponse 200 true "Terms updated successfully"
             (findById updatedTerms (JStr id)),
           updatedTerms)).
Proof.
  unfold updateTerms.
  repeat (handler_step; cbn [runWith fst]; try discriminate); try auth_failed.
  intros _.
  match goal with
  | Ha : authenticate _ _ _ = inr ?td, Hr : findById terms _ = Some ?r |- _ =>
      exists td, r; apply authenticate_inr in Ha
  end.
  split; [assumption|]. split; [reflexivity|].
  split; [|split; [|reflexivity]].
  - match goal with
    | H : negb (String.eqb _ _) = false |- _ =>
        apply negb_false_iff in H; now apply String.eqb_eq
    end.
  - intros T.
    match goal with
    | H : truthy _ && negb _ = false |- _ =>
        rewrite T in H; cbn [andb] in H; now apply negb_false_iff in H
    end.
Qed.

Lemma updateTerms_failure env h id body terms db :
  success (fst (updateTerms env h id body terms db)) = false ->
  snd (updateTerms env h id body terms db) = terms.
Proof.
  unfold updateTerms.
  repeat (handler_step; cbn [runWith fst snd]; try reflexivity). discriminate.
Qed.

(** With distinct ids, the update of the first record with an id is the
    update of every record with it. *)
Lemma updateFirst_NoDup (i : string) (f : Terms.t -> Terms.t) (ts : list Terms.t) :
  NoDup (map Terms.id ts) ->
  updateFirst (fun t => String.eqb (Terms.id t) i) f ts
  = map (fun t => if String.eqb (Terms.id t) i then f t else t) ts.
Proof.
  induction ts as [|x rest IH]; cbn; intros ND; [reflexivity|].
  inversion ND as [|? ? NI ND']; subst.
  destruct (String.eqb (Terms.id x) i) eqn:E.
  - f_equal. rewrite <- (map_id rest) at 1. apply map_ext_in. intros y Hy.
    destruct (String.eqb (Terms.id y) i) eqn:E'; [|reflexivity].
    exfalso. apply NI. apply String.eqb_eq in E, E'. rewrite E, <- E'.
    now apply in_map.
  - f_equal. now apply IH.
Qed.

Lemma deactivateEach_NoDup (olds ts : list Terms.t) :
  NoDup (map Terms.id ts) ->
  deactivateEach olds ts
  = map (fun t => if existsb (fun o => String.eqb (Terms.id t) (Terms.id o)) olds
                  then Terms.with_isActive false t else t) ts.
Proof.
  unfold deactivateEach. revert ts.
  induction olds as [|o olds IH]; intros ts ND; cbn [fold_left existsb].
  - symmetry. apply map_id.
  - rewrite updateFirst_NoDup by exact ND. rewrite IH.
    + rewrite map_map. apply map_ext. intros t.
      destruct (String.eqb (Terms.id t) (Terms.id o)) eqn:E; cbn [orb].
      * cbn [Terms.with_isActive Terms.id].
        now destruct (existsb _ olds).
      * reflexivity.
    + rewrite map_map.
      erewrite map_ext; [exact ND|].
      intros t. now destruct (String.eqb (Terms.id t) (Terms.id o)).
Qed.

(** With distinct ids, the terms that an activation switches off are the
    ones its filter selects. *)
Lemma deactivateEach_filter (p : Terms.t -> bool) (ts : list Terms.t) :
  NoDup (map Terms.id ts) ->
  deactivateEach (filter p ts) ts
  = map (fun t => if p t then Terms.with_isActive false t else t) ts.
Proof.
  intros ND. rewrite deactivateEach_NoDup by exact ND.
  apply map_ext_in. intros t I.
  destruct (p t) eqn:Pt.
  - assert (X : existsb (fun o => String.eqb (Terms.id t) (Terms.id o)) (filter p ts)
                = true).
    { apply existsb_exists. exists t. split; [now apply filter_In|].
      apply String.eqb_refl. }
    now rewrite X.
  - destruct (existsb (fun o => String.eqb (Terms.id t) (Terms.id o)) (filter p ts))
      eqn:X; [|reflexivity].
    apply existsb_exists in X as (o & Io & E). apply filter_In in Io as [Io Po].
    apply String.eqb_eq in E.
    assert (t = o) by (apply (NoDup_ids_same ts); assumption).
    subst o. congruence.
Qed.

(** A filter that one record of a list passes. *)
Lemma filter_map_single {A B : Type} (q : B -> bool) (g : A -> B) (l : list A) (x : A) :
  NoDup l -> In x l ->
  (forall y, In y l -> y <> x -> q (g y) = false) ->
  q (g x) = true ->
  filter q (map g l) = [g x].
Proof.
  intros ND I Others Self.
  induction l as [|y rest IH]; cbn; [contradiction|].
  inversion ND as [|? ? NI ND']; subst.
  destruct I as [-> | I].
  - rewrite Self. f_equal.
    assert (N : forall l', (forall y, In y l' -> q (g y) = false) ->
                           filter q (map g l') = []).
    { induction l' as [|z l' IH']; cbn; intros F; [reflexivity|].
      rewrite (F z (or_introl eq_refl)). apply IH'. intros; apply F; now right. }
    apply N. intros y Hy. apply Others; [now right|]. intros ->. contradiction.
  - rewrite (Others y (or_introl eq_refl)) by (intros ->; contradiction).
    apply IH; auto. intros z Hz. apply Others. now right.
Qed.

Lemma NoDup_of_ids (ts : list Terms.t) : NoDup (map Terms.id ts) -> NoDup ts.
Proof. apply NoDup_map_inv. Qed.

(** The scope that an activation clears is the scope of the updated
    terms. *)
Lemma isSuperseded_scope env id body term landlord t db :
  (truthy (ut_propertyId body) = true ->
   ownsProperty db landlord (ut_propertyId body) = true) ->
  isSuperseded id landlord (ut_propertyId body) term t
  = negb (String.eqb (Terms.id t) id)
    && isReplaced landlord (termsScope (applyTermsUpdate env body term term)) t.
Proof.
  intros Own. unfold isSuperseded, isReplaced, termsScope, applyTermsUpdate.
  cbn [Terms.propertyId]. rewrite <- !andb_assoc. do 3 f_equal.
  unfold storedPropertyId.
  destruct (ut_propertyId body) as [| |b|n|s|items|fields] eqn:Pid.
  - destruct (Terms.propertyId term) as [s|]; cbn [present]; [|reflexivity].
    unfold sameScope, isFor. cbn [truthy].
    destruct (String.eqb s ""); cbn [negb]; [reflexivity|].
    destruct (Terms.propertyId t); reflexivity.
  - reflexivity.
  - destruct b; [|reflexivity].
    specialize (Own eq_refl). unfold ownsProperty, findById in Own.
    cbn [strict_eq_str] in Own.
    assert (F : find (fun _ : Property.t => false) (properties db) = None)
      by (induction (properties db); auto).
    rewrite F in Own. discriminate Own.
  - destruct (n =? 0) eqn:Z0.
    + unfold sameScope. cbn [truthy]. now rewrite Z0.
    + assert (T : truthy (JNum n) = true) by (cbn [truthy]; now rewrite Z0).
      specialize (Own T). unfold ownsProperty, findById in Own.
      cbn [strict_eq_str] in Own.
      assert (F : find (fun _ : Property.t => false) (properties db) = None)
        by (induction (properties db); auto).
      rewrite F in Own. discriminate Own.
  - reflexivity.
  - specialize (Own eq_refl). unfold ownsProperty, findById in Own.
    cbn [strict_eq_str] in Own.
    assert (F : find (fun _ : Property.t => false) (properties db) = None)
      by (induction (properties db); auto).
    rewrite F in Own. discriminate Own.
  - specialize (Own eq_refl). unfold ownsProperty, findById in Own.
    cbn [strict_eq_str] in Own.
    assert (F : find (fun _ : Property.t => false) (properties db) = None)
      by (induction (properties db); auto).
    rewrite F in Own. discriminate Own.
Qed.

Lemma isReplaced_self env body term :
  ut_isActive body = JBool true ->
  isReplaced (Terms.landlordId term)
    (termsScope (applyTermsUpdate env body term term))
    (applyTermsUpdate env body term term) = true.
Proof.
  intros Act. unfold isReplaced, termsScope, applyTermsUpdate.
  cbn [Terms.landlordId Terms.isActive Terms.propertyId].
  rewrite String.eqb_refl, Act. cbn [storedIsActive truthy andb].
  unfold sameScope, isFor, isGeneral. cbn [Terms.propertyId].
  destruct (storedPropertyId (ut_propertyId body) term) as [s|];
    cbn [truthy present strict_eq_str]; [|reflexivity].
  destruct (String.eqb s "") eqn:E; cbn [negb]; [reflexivity|apply String.eqb_refl].
Qed.

(** A value of [isActive] that is true without being [true] switches the
    terms on and no other terms off: the landlord then has two active
    terms in one scope. *)
Lemma updateTerms_truthy_flag :
  let body := mkUpdateTermsBody None None JUndefined (JNum 1) in
  let terms := snd (updateTerms Scenario.env3 Scenario.landlord1 "terms1" body
                      Cases.terms1 Scenario.occupied) in
  success (fst (updateTerms Scenario.env3 Scenario.landlord1 "terms1" body
                  Cases.terms1 Scenario.occupied)) = true
  /\ List.length (activeTermsOf "l1" JUndefined terms) = 2%nat.
Proof. split; vm_compute; reflexivity. Qed.

End TermsUpdateFacts.
Import TermsUpdateFacts.

(** [X29] An update that gives [isActive: true] makes the terms the only
    active terms of their landlord in their scope (their property, or no
    property), when the ids of the stored terms are distinct: every
    other active terms of the landlord in that scope is switched off and
    otherwise kept, and the terms outside it are kept as they are.  (The
    others are switched off for the boolean [true] alone.)  Only the
    landlord of the terms can update them, and an update that is turned
    down writes nothing. *)
Theorem updateTerms_activation :
  forall env h id body terms db,
    NoDup (map Terms.id terms) ->
    ut_isActive body = JBool true ->
    (success (fst (updateTerms env h id body terms db)) = true ->
     exists tokenData term,
       let updated := applyTermsUpdate env body term term in
       authorizes h "landlord" tokenData
       /\ findById terms (JStr id) = Some term
       /\ Terms.landlordId term = userId tokenData
       /\ payload (fst (updateTerms env h id body terms db)) = Some updated
       /\ activeTermsOf (userId tokenData) (termsScope updated)
            (snd (updateTerms env h id body terms db))
          = [updated]
       /\ snd (updateTerms env h id body terms db)
          = map (fun t =>
                   if String.eqb (Terms.id t) id then updated
                   else if isReplaced (userId tokenData) (termsScope updated) t
                        then Terms.with_isActive false t
                        else t)
                terms)
    /\ (success (fst (updateTerms env h id body terms db)) = false ->
        snd (updateTerms env h id body terms db) = terms).
Proof.
  intros env h id body terms db ND Act. split; [|apply updateTerms_failure].
  intros S.
  destruct (updateTerms_success _ _ _ _ _ _ S) as (td & term & Ha & F & L & Own & E).
  exists td, term. cbn zeta. rewrite E. cbn zeta. cbn [fst snd payload].
  rewrite Act.
  pose proof (findById_id _ _ _ F) as Eid. injection Eid as Eid.
  change (id_of term) with (Terms.id term) in Eid.
  pose proof (findById_In _ _ _ F) as I.
  set (updated := applyTermsUpdate env body term term).
  assert (Same : forall t, In t terms -> String.eqb (Terms.id t) id = true -> t = term).
  { intros t It Et. apply String.eqb_eq in Et.
    apply (NoDup_ids_same terms); auto.
    change (id_of t) with (Terms.id t). change (id_of term) with (Terms.id term).
    congruence. }
  assert (Shape :
            updateById
              (deactivateEach
                 (filter (isSuperseded id (userId td) (ut_propertyId body) term) terms)
                 terms)
              (JStr id) (applyTermsUpdate env body term)
            = map (fun t =>
                     if String.eqb (Terms.id t) id then updated
                     else if isReplaced (userId td) (termsScope updated) t
                          then Terms.with_isActive false t
                          else t)
                  terms).
  { rewrite deactivateEach_filter by exact ND.
    unfold updateById. rewrite map_map. apply map_ext_in. intros t It.
    rewrite (isSuperseded_scope env id body term (userId td) t db Own).
    fold updated.
    change (id_of ?x) with (Terms.id x). cbn [strict_eq_str].
    destruct (String.eqb (Terms.id t) id) eqn:Et; cbn [negb andb].
    - rewrite Et. unfold updated. now rewrite (Same t It Et).
    - destruct (isReplaced (userId td) (termsScope updated) t);
        cbn [Terms.with_isActive Terms.id]; now rewrite Et. }
  rewrite Shape.
  assert (Active :
            activeTermsOf (userId td) (termsScope updated)
              (map (fun t =>
                      if String.eqb (Terms.id t) id then updated
                      else if isReplaced (userId td) (termsScope updated) t
                           then Terms.with_isActive false t
                           else t)
                   terms)
            = [updated]).
  { unfold activeTermsOf.
    rewrite (filter_map_single _ _ terms term).
    - rewrite <- Eid, String.eqb_refl. reflexivity.
    - now apply NoDup_of_ids.
    - exact I.
    - intros t It Nt.
      destruct (String.eqb (Terms.id t) id) eqn:Et;
        [exfalso; apply Nt; now apply Same|].
      destruct (isReplaced (userId td) (termsScope updated) t) eqn:R; [|exact R].
      unfold isReplaced. cbn [Terms.with_isActive Terms.isActive Terms.landlordId].
      now rewrite andb_false_r.
    - rewrite <- Eid, String.eqb_refl. rewrite <- L. now apply isReplaced_self. }
  split; [exact Ha|]. split; [exact F|]. split; [exact L|].
  split; [|split; [exact Active|reflexivity]].
  unfold findById.
  assert (Hd : forall ts,
             find (fun item : Terms.t => strict_eq_str (id_of item) (JStr id)) ts
             = Some term ->
             (forall t, In t ts -> String.eqb (Terms.id t) id = true -> t = term) ->
             find (fun item : Terms.t => strict_eq_str (id_of item) (JStr id))
               (map (fun t =>
                       if String.eqb (Terms.id t) id then updated
                       else if isReplaced (userId td) (termsScope updated) t
                            then Terms.with_isActive false t
                            else t) ts)
             = Some updated).
  { induction ts as [|x rest IH]; cbn [find map]; [discriminate|].
    change (id_of ?y) with (Terms.id y). cbn [strict_eq_str].
    intros Fx Sx.
    destruct (String.eqb (Terms.id x) id) eqn:Ex.
    - unfold updated at 1. cbn [applyTermsUpdate Terms.id].
      rewrite <- Eid, String.eqb_refl. reflexivity.
    - assert (Ex' : String.eqb
                      (Terms.id (if isReplaced (userId td) (termsScope updated) x
                                 then Terms.with_isActive false x else x)) id = false)
        by (destruct (isReplaced (userId td) (termsScope updated) x);
            cbn [Terms.with_isActive Terms.id]; exact Ex).
      rewrite Ex'. apply IH; [exact Fx|]. intros t It. apply Sx. now right. }
  apply Hd; [exact F|exact Same].
Qed.

Lemma updateTerms_activation_witness :
  exists tokenData term,
    let updated := applyTermsUpdate Scenario.env3 Cases.activate term term in
    authorizes Scenario.landlord1 "landlord" tokenData
    /\ findById Cases.terms1 (JStr "terms1") = Some term
    /\ Terms.landlordId term = userId tokenData
    /\ payload (fst (updateTerms Scenario.env3 Scenario.landlord1 "terms1"
                       Cases.activate Cases.terms1 Scenario.occupied))
       = Some updated
    /\ activeTermsOf (userId tokenData) (termsScope updated)
         (snd (updateTerms Scenario.env3 Scenario.landlord1 "terms1" Cases.activate
                 Cases.terms1 Scenario.occupied))
       = [updated]
    /\ snd (updateTerms Scenario.env3 Scenario.landlord1 "terms1" Cases.activate
              Cases.terms1 Scenario.occupied)
       = map (fun t =>
                if String.eqb (Terms.id t) "terms1" then updated
                else if isReplaced (userId tokenData) (termsScope updated) t
                     then Terms.with_isActive false t
                     else t)
             Cases.terms1.
Proof.
  apply (proj1 (updateTerms_activation Scenario.env3 Scenario.landlord1 "terms1"
                  Cases.activate Cases.terms1 Scenario.occupied
                  ltac:(repeat constructor; cbn; intuition discriminate) eq_refl)).
  vm_compute. reflexivity.
Defined.

(** ** The requests of a rental *)

Module RentalRequestsFacts.

Lemma rentalTerminations_ok h rentalId db token tokenData :
  bearerToken h = Some token -> parseToken token = Some tokenData ->
  rentalId <> "" ->
  rentalTerminations h (Some rentalId) db
  = (succeed ""
       (filter (fun t => String.eqb (RentalTermination.rentalId t) rentalId)
          (rental_terminations db)),
     db).
Proof.
  intros B P N. unfold rentalTerminations, requiredParam.
  rewrite (authenticateAny_ok _ _ _ B P). cbn [bind].
  apply String.eqb_neq in N. rewrite N. reflexivity.
Qed.

Lemma rentalRenewals_ok h rentalId db token tokenData :
  bearerToken h = Some token -> parseToken token = Some tokenData ->
  rentalId <> "" ->
  rentalRenewals h (Some rentalId) db
  = (succeed ""
       (filter (fun r => String.eqb (RentalRenewal.rentalId r) rentalId)
          (rental_renewals db)),
     db).
Proof.
  intros B P N. unfold rentalRenewals, requiredParam.
  rewrite (authenticateAny_ok _ _ _ B P). cbn [bind].
  apply String.eqb_neq in N. rewrite N. reflexivity.
Qed.

Lemma requestTermination_payload env h body db x :
  payload (fst (requestTermination env h body db)) = Some x ->
  success (fst (requestTermination env h body db)) = true.
Proof.
  unfold requestTermination.
  repeat (handler_step; cbn [payload]; try discriminate); try reflexivity.
  match goal with
  | H : authenticate _ _ _ = inl ?r |- _ =>
      assert (N : payload r = None)
        by (eapply authenticate_inl_payload; [|exact H]; reflexivity);
      intros P; congruence
  end.
Qed.

Lemma requestRenewal_payload env h body db x :
  payload (fst (requestRenewal env h body db)) = Some x ->
  success (fst (requestRenewal env h body db)) = true.
Proof.
  unfold requestRenewal.
  repeat (handler_step; cbn [payload]; try discriminate); try reflexivity.
  match goal with
  | H : authenticate _ _ _ = inl ?r |- _ =>
      assert (N : payload r = None)
        by (eapply authenticate_inl_payload; [|exact H]; reflexivity);
      intros P; congruence
  end.
Qed.

End RentalRequestsFacts.
Import RentalRequestsFacts.

(** [X30] The termination requests of a rental, and its renewal
    requests, are listed for the bearer of any valid token, whatever its
    role and user.  An accepted request for the rental adds itself at the
    end of the list and changes nothing else in it. *)
Theorem requests_listed_for_rental :
  forall env h db reader token tokenData rentalId,
    bearerToken reader = Some token ->
    parseToken token = Some tokenData ->
    rentalId <> "" ->
    exists terminations renewals,
      payload (fst (rentalTerminations reader (Some rentalId) db)) = Some terminations
      /\ payload (fst (rentalRenewals reader (Some rentalId) db)) = Some renewals
      /\ (forall t, In t terminations
                    <-> In t (rental_terminations db)
                        /\ RentalTermination.rentalId t = rentalId)
      /\ (forall r, In r renewals
                    <-> In r (rental_renewals db) /\ RentalRenewal.rentalId r = rentalId)
      /\ (forall body termination,
            tb_rentalId body = JStr rentalId ->
            payload (fst (requestTermination env h body db)) = Some termination ->
            payload (fst (rentalTerminations reader (Some rentalId)
                            (snd (requestTermination env h body db))))
            = Some (terminations ++ [termination])%list)
      /\ (forall body renewal,
            rb_rentalId body = JStr rentalId ->
            payload (fst (requestRenewal env h body db)) = Some renewal ->
            payload (fst (rentalRenewals reader (Some rentalId)
                            (snd (requestRenewal env h body db))))
            = Some (renewals ++ [renewal])%list).
Proof.
  intros env h db reader token td rentalId B P N.
  exists (filter (fun t => String.eqb (RentalTermination.rentalId t) rentalId)
            (rental_terminations db)),
         (filter (fun r => String.eqb (RentalRenewal.rentalId r) rentalId)
            (rental_renewals db)).
  rewrite (rentalTerminations_ok _ _ db _ _ B P N).
  rewrite (rentalRenewals_ok _ _ db _ _ B P N).
  split; [reflexivity|]. split; [reflexivity|].
  split; [|split; [|split]].
  - intros t. rewrite filter_In. now rewrite String.eqb_eq.
  - intros r. rewrite filter_In. now rewrite String.eqb_eq.
  - intros body termination Hid Pt.
    pose proof (requestTermination_payload _ _ _ _ _ Pt) as S.
    destruct (requestTermination_success _ _ _ _ S)
      as (tdt & rental & d & _ & _ & _ & Hr & _ & _ & _ & _ & E).
    rewrite E in Pt. rewrite E. cbn [fst snd payload succeed] in Pt.
    injection Pt as <-.
    rewrite (rentalTerminations_ok _ _ _ _ _ B P N).
    cbn [fst snd payload succeed rental_terminations set_rentals
           set_rental_terminations].
    rewrite filter_app. cbn [filter requestedTermination RentalTermination.rentalId].
    pose proof (findById_id _ _ _ Hr) as Eid. rewrite Hid in Eid.
    injection Eid as Eid. change (id_of rental) with (Rental.id rental) in Eid.
    rewrite <- Eid, String.eqb_refl. reflexivity.
  - intros body renewal Hid Pr.
    pose proof (requestRenewal_payload _ _ _ _ _ Pr) as S.
    destruct (requestRenewal_named _ _ _ _ S) as (tdt & rental & n & Hr & _ & Pr' & E).
    rewrite Pr in Pr'. injection Pr' as ->.
    rewrite E. rewrite (rentalRenewals_ok _ _ _ _ _ B P N).
    cbn [fst snd payload succeed rental_renewals set_rentals set_rental_renewals].
    rewrite filter_app. cbn [filter requestedRenewal RentalRenewal.rentalId].
    pose proof (findById_id _ _ _ Hr) as Eid. rewrite Hid in Eid.
    injection Eid as Eid. change (id_of rental) with (Rental.id rental) in Eid.
    rewrite <- Eid, String.eqb_refl. reflexivity.
Qed.

Lemma requests_listed_for_rental_witness :
  exists terminations renewals,
    payload (fst (rentalTerminations Scenario.tenant2 (Some "r1") Scenario.occupied))
    = Some terminations
    /\ payload (fst (rentalRenewals Scenario.tenant2 (Some "r1") Scenario.occupied))
       = Some renewals
    /\ (forall t, In t terminations
                  <-> In t (rental_terminations Scenario.occupied)
                      /\ RentalTermination.rentalId t = "r1")
    /\ (forall r, In r renewals
                  <-> In r (rental_renewals Scenario.occupied)
                      /\ RentalRenewal.rentalId r = "r1")
    /\ (forall body termination,
          tb_rentalId body = JStr "r1" ->
          payload (fst (requestTermination Scenario.env3 Scenario.tenant1 body
                          Scenario.occupied)) = Some termination ->
          payload (fst (rentalTerminations Scenario.tenant2 (Some "r1")
                          (snd (requestTermination Scenario.env3 Scenario.tenant1 body
                                  Scenario.occupied))))
          = Some (terminations ++ [termination])%list)
    /\ (forall body renewal,
          rb_rentalId body = JStr "r1" ->
          payload (fst (requestRenewal Scenario.env3 Scenario.tenant1 body
                          Scenario.occupied)) = Some renewal ->
          payload (fst (rentalRenewals Scenario.tenant2 (Some "r1")
                          (snd (requestRenewal Scenario.env3 Scenario.tenant1 body
                                  Scenario.occupied))))
          = Some (renewals ++ [renewal])%list).
Proof.
  apply (requests_listed_for_rental Scenario.env3 Scenario.tenant1 Scenario.occupied
           Scenario.tenant2 "t2_tenant_1_x" (mkTokenData "t2" "tenant") "r1").
  - reflexivity.
  - reflexivity.
  - discriminate.
Defined.
